(** * pdf-to-images-tool: a shallow embedding of [main.py]

    The script turns every page of one or more PDF documents into a
    compressed JPEG, one folder per document, with an optional ZIP per
    document.  This development embeds its functions ([sanitize_name],
    [iter_pdfs], [maybe_resize], [convert_pdf], [make_zip], [main]) over an
    explicit model of what they act on (Python strings, pathlib paths, a
    file system, PyMuPDF document handles, the console) and states the
    properties of the specification about them. *)

From Stdlib Require Import ZArith NArith Lia Ascii String QArith.
From stdpp Require Import base tactics option list sorting gmap fin_maps.

Local Open Scope Z_scope.

(** * Python strings *)

(** A Python [str] is a sequence of Unicode code points. *)
Definition str := list N.

(** [py "literal"] is the [str] of an ASCII literal of the source. *)
Definition py (s : string) : str := List.map N_of_ascii (list_ascii_of_string s).

(** [not l], for a string or a list. *)
Definition is_empty {A} (l : list A) : bool :=
  match l with [] => true | _ => false end.

(** [str.isspace] for one code point; [str.strip()] and the [\s] class of
    [re] on [str] patterns both use this test. *)
Definition isspace (c : N) : bool :=
  ((9 <=? c) && (c <=? 13) || (28 <=? c) && (c <=? 32)
   || (c =? 133) || (c =? 160) || (c =? 5760)
   || (8192 <=? c) && (c <=? 8202) || (c =? 8232) || (c =? 8233)
   || (c =? 8239) || (c =? 8287) || (c =? 12288))%N.

(** The class [[A-Za-z0-9._-]]: the characters the second [re.sub] of
    [sanitize_name] keeps. *)
Definition is_safe_char (c : N) : bool :=
  ((65 <=? c) && (c <=? 90) || (97 <=? c) && (c <=? 122)
   || (48 <=? c) && (c <=? 57)
   || (c =? 46) || (c =? 95) || (c =? 45))%N.

Fixpoint lstrip (s : str) : str :=
  match s with
  | c :: r => if isspace c then lstrip r else s
  | [] => []
  end.

(** [s.strip()] *)
Definition strip (s : str) : str := rev (lstrip (rev (lstrip s))).

(** [re.sub(r"\s+", "_", s)]: every maximal run of whitespace becomes one
    underscore.  [in_run] tells that the previous character was whitespace
    (its run already produced the underscore). *)
Fixpoint sub_spaces (in_run : bool) (s : str) : str :=
  match s with
  | [] => []
  | c :: r =>
      if isspace c
      then (if in_run then sub_spaces true r else 95%N :: sub_spaces true r)
      else c :: sub_spaces false r
  end.

(** [re.sub(r"[^A-Za-z0-9._-]+", "", s)] *)
Definition sub_unsafe (s : str) : str := List.filter is_safe_char s.

(** [sanitize_name(s, fallback)], lines 52-58. *)
Definition sanitize_name (s : str) (fallback : str) : str :=
  let s := strip s in
  if is_empty s then fallback
  else
    let s := sub_spaces false s in
    let s := sub_unsafe s in
    if is_empty s then fallback else s.

(** The default of the [fallback] parameter. *)
Definition default_fallback : str := py "page".

(** [f"{n:03d}"] for a non-negative [n]: the decimal digits, most
    significant first, padded with zeros on the left to three characters.
    [digits_lsd fuel n] lists the digits from the least significant one;
    the fuel is the bit length of [n], which is never less than its number
    of decimal digits. *)
Fixpoint digits_lsd (fuel : nat) (n : N) : str :=
  match fuel with
  | O => [(48 + n mod 10)%N]
  | S fuel' =>
      (48 + n mod 10)%N :: (if (n <? 10)%N then [] else digits_lsd fuel' (n / 10))
  end.

Definition decimal (n : N) : str := rev (digits_lsd (N.to_nat (N.log2 n)) n).

Definition format_03d (n : N) : str :=
  let d := decimal n in
  List.repeat 48%N (3 - length d) ++ d.

(** Reading a decimal numeral back (Horner); used to tell page names apart. *)
Definition parse_decimal (s : str) : N :=
  fold_left (fun acc c => (10 * acc + (c - 48))%N) s 0%N.

(** * pathlib paths, lexically

    An absolute path is the list of its components; the root is [[]].
    Symbolic links and [..] are not resolved by the model. *)
Definition path := list str.

Module Path.

(** [p / name] for a [name] without a separator, which is all this program
    ever joins (sanitised tokens and file names built from them).  pathlib
    drops an empty or ["."] component and keeps a component [".."] as it
    is: it is the file system that resolves [".."], and the file system of
    this model does not, so statements about the folder of a document leave
    out the folder name [".."] where that matters. *)
Definition joinpath (p : path) (name : str) : path :=
  if bool_decide (name = []) || bool_decide (name = py ".") then p
  else p ++ [name].

(** [p.name] *)
Definition name (p : path) : str := List.last p [].

(** [p.parent] *)
Definition parent (p : path) : path := List.removelast p.

(** [s.rfind(c)]: the index of the last occurrence. *)
Fixpoint rfind (c : N) (s : str) : option nat :=
  match s with
  | [] => None
  | x :: r =>
      match rfind c r with
      | Some i => Some (S i)
      | None => if (x =? c)%N then Some O else None
      end
  end.

(** The index at which the suffix starts: pathlib asks for a dot that is
    neither the first nor the last character of the name. *)
Definition suffix_index (n : str) : option nat :=
  match rfind 46 n with
  | Some i => if (0 <? i)%nat && (i <? length n - 1)%nat then Some i else None
  | None => None
  end.

(** [p.suffix] *)
Definition suffix (p : path) : str :=
  match suffix_index (name p) with
  | Some i => drop i (name p)
  | None => []
  end.

(** [p.stem] *)
Definition stem (p : path) : str :=
  match suffix_index (name p) with
  | Some i => take i (name p)
  | None => name p
  end.

End Path.

(** [s.lower()].  Code points outside A-Z are kept: Python lowers some of
    them as well, but never to a character of [".pdf"], the only string the
    program compares a lowered string with. *)
Definition lower (s : str) : str :=
  List.map (fun c => if (65 <=? c)%N && (c <=? 90)%N then (c + 32)%N else c) s.

(** [fnmatch] patterns of the two [glob] calls: ["*"] and ["*.pdf"].  A
    star matches any run of characters, the empty one and a leading dot
    included; matching is case-sensitive, as pathlib's is on POSIX (the
    script is a [#!/usr/bin/env python3] one). *)
Inductive pattern :=
| Star
| StarSuffix (ending : str).

Definition ends_with (ending s : str) : bool :=
  (length ending <=? length s)%nat
  && bool_decide (drop (length s - length ending) s = ending).

Definition fnmatch (pat : pattern) (name : str) : bool :=
  match pat with
  | Star => true
  | StarSuffix ending => ends_with ending name
  end.

(** The order [sorted] puts paths in: pathlib compares the lists of
    components, Python compares strings code point by code point; both are
    the lexicographic order of lists. *)
Fixpoint lex_compare {A} (cmp : A -> A -> comparison) (a b : list A) : comparison :=
  match a, b with
  | [], [] => Eq
  | [], _ :: _ => Lt
  | _ :: _, [] => Gt
  | x :: a', y :: b' =>
      match cmp x y with
      | Eq => lex_compare cmp a' b'
      | c => c
      end
  end.

Definition str_compare : str -> str -> comparison := lex_compare N.compare.
Definition path_compare : path -> path -> comparison := lex_compare str_compare.

Definition path_le (a b : path) : Prop := path_compare a b <> Gt.

#[global] Instance path_le_dec : RelDecision path_le.
Proof. intros a b. unfold path_le. destruct (path_compare a b); [left|left|right]; congruence. Defined.

(** [sorted(paths)] *)
Definition sorted (l : list path) : list path := merge_sort path_le l.

(** * Exceptions *)

Inductive exn :=
| FileNotFoundError (p : path)
| FileExistsError (p : path)
| IsADirectoryError (p : path)
| NotADirectoryError (p : path)
| ValueError_no_pages (p : path)      (* "No pages found in PDF: ..." *)
| FileDataError (p : path)            (* PyMuPDF cannot open the file as a document *)
| RenderError                         (* PyMuPDF fails to rasterise a page *)
| ValueError_size (size : Z * Z)      (* Pillow: "height and width must be > 0" *)
| ZeroDivisionError
| IndexError.

Inductive result (A : Type) :=
| Ok (a : A)
| Raise (e : exn).
Arguments Ok {A} a.
Arguments Raise {A} e.

(** * Python floats

    A finite binary64 number is kept as a pair [(m, e)] that stands for
    [m * 2^e].  [round n d] is the binary64 nearest to the rational [n / d],
    ties to even: the result of every correctly rounded operation whose
    exact value is [n / d].  The exponent range is not modelled: the
    numbers this program computes with come from image sizes, which Pillow
    keeps in C [int]s, so they stay well inside the normal range. *)
Module Float.

Definition float := (Z * Z)%type.

Definition num (x : float) : Z := fst x * 2 ^ Z.max 0 (snd x).
Definition den (x : float) : Z := 2 ^ Z.max 0 (- snd x).

(** The integer nearest to [n / d], ties to even ([0 <= n], [0 < d]). *)
Definition nearest_even (n d : Z) : Z :=
  let q := n / d in
  match 2 * (n mod d) ?= d with
  | Lt => q
  | Gt => q + 1
  | Eq => if Z.even q then q else q + 1
  end.

Definition scaled_num (n e : Z) : Z := n * 2 ^ Z.max 0 (- e).
Definition scaled_den (d e : Z) : Z := d * 2 ^ Z.max 0 e.

(** The exponent [e] with [2^52 <= (n / d) / 2^e < 2^53]. *)
Definition exponent (n d : Z) : Z :=
  let e := Z.log2 n - Z.log2 d - 52 in
  if 2 ^ 52 * scaled_den d e <=? scaled_num n e then e else e - 1.

Definition round (n d : Z) : float :=
  if n =? 0 then (0, 0)
  else
    let s := Z.sgn n * Z.sgn d in
    let n := Z.abs n in
    let d := Z.abs d in
    let e := exponent n d in
    (s * nearest_even (scaled_num n e) (scaled_den d e), e).

(** [float(a)] *)
Definition of_int (a : Z) : float := round a 1.
(** [a / b] on two [int]s: Python rounds the exact quotient once. *)
Definition div_int (a b : Z) : float := round a b.
(** [x * y] *)
Definition mul (x y : float) : float := round (num x * num y) (den x * den y).
(** [int(x)]: truncation towards zero. *)
Definition to_int (x : float) : Z := Z.quot (num x) (den x).

End Float.

(** * Images *)

(** What [page.get_pixmap] hands over: a size and an RGB sample buffer.  The
    program never looks into the buffer, so it is kept as a token. *)
Record pixmap := { pix_width : Z; pix_height : Z; pix_samples : N }.

(** A Pillow image, by the way it was made. *)
Inductive image :=
| frombytes (pix : pixmap)                 (* Image.frombytes("RGB", (pix.width, pix.height), pix.samples) *)
| resize (img : image) (size : Z * Z).     (* img.resize(size, Image.LANCZOS) *)

Definition width (img : image) : Z :=
  match img with
  | frombytes pix => pix_width pix
  | resize _ size => fst size
  end.

Definition height (img : image) : Z :=
  match img with
  | frombytes pix => pix_height pix
  | resize _ size => snd size
  end.

(** [img.resize(size, Image.LANCZOS)]: Pillow refuses a size with a side
    below one pixel.  (Its shortcut for a size equal to the image's own
    cannot apply where the program calls it: the widths differ.) *)
Definition image_resize (img : image) (size : Z * Z) : result image :=
  if (fst size <? 1) || (snd size <? 1) then Raise (ValueError_size size)
  else Ok (resize img size).

(** [maybe_resize(img, max_width)], lines 83-89.  [not max_width] holds for
    [None] and for [0]. *)
Definition maybe_resize (img : image) (max_width : option Z) : result image :=
  match max_width with
  | None => Ok img
  | Some max_width =>
      if max_width =? 0 then Ok img
      else if width img <=? max_width then Ok img
      else if width img =? 0 then Raise ZeroDivisionError
      else
        let new_h :=
          Float.to_int (Float.mul (Float.of_int (height img))
                                  (Float.div_int max_width (width img))) in
        image_resize img (max_width, new_h)
  end.

(** Lines 221-223 of [main]: a width of zero or less disables resizing. *)
Definition main_max_width (max_width : Z) : option Z :=
  if max_width <=? 0 then None else Some max_width.

(** * Documents and file contents *)

(** A page of a document: rasterising it at a zoom factor gives a pixmap, or
    fails ([None]). *)
Record page := { get_pixmap : Q -> option pixmap }.

Inductive content :=
| Bytes (data : list N)                       (* a file of any other kind *)
| Pdf (pages : list page)                     (* a document PyMuPDF can open *)
| Jpeg (img : image) (quality : Z)            (* img.save(..., format="JPEG", quality=..., optimize=True, progressive=True) *)
| Zip (entries : list (str * content)).       (* a ZIP_DEFLATED archive: member names and member data, in order *)

(** * The file system *)

Inductive node :=
| File (c : content)
| Dir.

Module Fs.

(** [p.exists()]; the root always exists. *)
Definition exists_ (fs : gmap path node) (p : path) : bool :=
  is_empty p || bool_decide (is_Some (fs !! p)).

(** [p.is_file()] *)
Definition is_file (fs : gmap path node) (p : path) : bool :=
  match fs !! p with
  | Some (File _) => true
  | _ => false
  end.

(** [p.is_dir()]; the root is a directory. *)
Definition is_dir (fs : gmap path node) (p : path) : bool :=
  is_empty p || match fs !! p with
                | Some Dir => true
                | _ => false
                end.

(** [p] lies directly inside [d]. *)
Definition is_child (d p : path) : bool :=
  negb (bool_decide (p = [])) && bool_decide (Path.parent p = d).

(** The entries directly inside [d], in the order the system lists them. *)
Definition iterdir (fs : gmap path node) (d : path) : list path :=
  List.filter (is_child d) (List.map fst (map_to_list fs)).

(** [list(d.glob(pat))] for a pattern without a separator: nothing when [d]
    is not a directory. *)
Definition glob (fs : gmap path node) (d : path) (pat : pattern) : list path :=
  if is_dir fs d
  then List.filter (fun p => fnmatch pat (Path.name p)) (iterdir fs d)
  else [].

(** The non-empty prefixes of a path, shortest first. *)
Definition prefixes (p : path) : list path :=
  List.map (fun k => take k p) (seq 1 (length p)).

(** Every entry sits in a directory: the file system is a tree. *)
Definition wf (fs : gmap path node) : Prop :=
  map_Forall (fun p _ => p <> [] /\ is_dir fs (Path.parent p) = true) fs.

End Fs.

#[global] Instance fs_wf_dec (fs : gmap path node) : Decision (Fs.wf fs).
Proof. unfold Fs.wf. apply _. Defined.

(** * The state the program runs in *)

(** The messages the program prints (standard output and standard error). *)
Inductive message :=
| MsgBadQuality                                         (* stderr, line 218 *)
| MsgNoPdfs                                             (* stderr, line 236 *)
| MsgOutputRoot (out_root : path)                       (* line 239 *)
| MsgSettings (zoom : Q) (quality : Z) (max_width : option Z) (make_zip : bool)   (* line 240 *)
| MsgDocument (name : str) (total : nat)                (* line 122 *)
| MsgPageOnly                                           (* line 140 *)
| MsgPage (number total : nat) (name : str)             (* line 142 *)
| MsgZipCreated (name : str)                            (* line 250 *)
| MsgFailed (name : str) (e : exn)                      (* stderr, line 253 *)
| MsgDone.                                              (* line 255 *)

Record world := World {
  fs : gmap path node;          (* the file system *)
  open_docs : list path;        (* the PyMuPDF documents that are open, latest first *)
  console : list message        (* what was printed so far, oldest first *)
}.

Definition set_fs (f : gmap path node -> gmap path node) (w : world) : world :=
  World (f (fs w)) (open_docs w) (console w).

(** A computation reads and changes the world and returns or raises; what
    it changed before raising stays changed. *)
Definition M (A : Type) : Type := world -> result A * world.

#[global] Instance M_ret : MRet M := fun A a w => (Ok a, w).

#[global] Instance M_bind : MBind M := fun A B k m w =>
  match m w with
  | (Ok a, w') => k a w'
  | (Raise e, w') => (Raise e, w')
  end.

Definition raise {A} (e : exn) : M A := fun w => (Raise e, w).

(** [try: body  except Exception as e: handler(e)] *)
Definition try_except {A} (body : M A) (handler : exn -> M A) : M A := fun w =>
  match body w with
  | (Ok a, w') => (Ok a, w')
  | (Raise e, w') => handler e w'
  end.

(** A value or an exception computed without the world. *)
Definition lift {A} (r : result A) : M A := fun w => (r, w).

(** [for a in l: body(a)] *)
Fixpoint for_each {A} (l : list A) (body : A -> M unit) : M unit :=
  match l with
  | [] => mret tt
  | a :: l' => body a ;; for_each l' body
  end.

(** [for a in l: acc = body(acc, a)], for a loop that builds a value. *)
Fixpoint for_fold {A B} (l : list A) (acc : B) (body : B -> A -> M B) : M B :=
  match l with
  | [] => mret acc
  | a :: l' => acc' ← body acc a; for_fold l' acc' body
  end.

Definition print (m : message) : M unit := fun w =>
  (Ok tt, World (fs w) (open_docs w) (console w ++ [m])).

(** ** File system calls *)

Definition path_exists (p : path) : M bool := fun w => (Ok (Fs.exists_ (fs w) p), w).
Definition path_is_file (p : path) : M bool := fun w => (Ok (Fs.is_file (fs w) p), w).
Definition path_is_dir (p : path) : M bool := fun w => (Ok (Fs.is_dir (fs w) p), w).
Definition path_glob (d : path) (pat : pattern) : M (list path) := fun w =>
  (Ok (Fs.glob (fs w) d pat), w).

(** [p.unlink()] *)
Definition unlink (p : path) : M unit := fun w =>
  match fs w !! p with
  | Some (File _) => (Ok tt, set_fs (delete p) w)
  | Some Dir => (Raise (IsADirectoryError p), w)
  | None => (Raise (FileNotFoundError p), w)
  end.

(** [p.mkdir(parents=True, exist_ok=True)]: the missing directories of the
    path are created; a regular file in the way makes it fail, and then
    nothing is created. *)
Definition mkdir_parents (p : path) : M unit := fun w =>
  match List.find (Fs.is_file (fs w)) (Fs.prefixes p) with
  | Some q =>
      (Raise (if bool_decide (q = p) then FileExistsError p else NotADirectoryError p), w)
  | None =>
      (Ok tt, set_fs (fun m => foldr (fun q m' => <[q := Dir]> m') m (Fs.prefixes p)) w)
  end.

(** [open(p, "wb")] followed by writing [c]: the file is created or
    replaced, inside a directory that exists. *)
Definition write_file (p : path) (c : content) : M unit := fun w =>
  if Fs.is_dir (fs w) p then (Raise (IsADirectoryError p), w)
  else if Fs.is_dir (fs w) (Path.parent p) then (Ok tt, set_fs (<[p := File c]>) w)
  else if Fs.is_file (fs w) (Path.parent p) then (Raise (NotADirectoryError p), w)
  else (Raise (FileNotFoundError p), w).

(** ** PyMuPDF *)

Record document := { doc_path : path; doc_pages : list page }.

(** [fitz.open(str(p))] *)
Definition fitz_open (p : path) : M document := fun w =>
  match fs w !! p with
  | Some (File (Pdf pages)) =>
      (Ok {| doc_path := p; doc_pages := pages |},
       World (fs w) (p :: open_docs w) (console w))
  | Some _ => (Raise (FileDataError p), w)
  | None => (Raise (FileNotFoundError p), w)
  end.

Fixpoint remove_first (p : path) (l : list path) : list path :=
  match l with
  | [] => []
  | q :: l' => if bool_decide (q = p) then l' else q :: remove_first p l'
  end.

(** [doc.close()] *)
Definition doc_close (doc : document) : M unit := fun w =>
  (Ok tt, World (fs w) (remove_first (doc_path doc) (open_docs w)) (console w)).

(** [doc[i]] *)
Definition doc_getitem (doc : document) (i : nat) : M page := fun w =>
  match doc_pages doc !! i with
  | Some pg => (Ok pg, w)
  | None => (Raise IndexError, w)
  end.

(** [img.save(out_file, format="JPEG", quality=quality, optimize=True, progressive=True)] *)
Definition image_save (img : image) (out_file : path) (quality : Z) : M unit :=
  write_file out_file (Jpeg img quality).

(** * The program *)

Module ConvertOptions.
Record t := mk {
  zoom : Q;
  quality : Z;
  max_width : option Z;
  prefix : str;
  make_zip : bool;
  overwrite : bool
}.
End ConvertOptions.

(** [iter_pdfs(input_path)], lines 61-73, as the list the generator yields
    ([main] consumes it whole with [list(...)]). *)
Definition iter_pdfs (input_path : path) : M (list path) :=
  is_file ← path_is_file input_path;
  if is_file : bool then
    mret (if bool_decide (lower (Path.suffix input_path) = py ".pdf")
          then [input_path] else [])
  else
    is_dir ← path_is_dir input_path;
    if is_dir : bool then
      found ← path_glob input_path (StarSuffix (py ".pdf"));
      for_fold (sorted found) [] (fun yielded p =>
        is_file ← path_is_file p;
        mret (if is_file : bool then yielded ++ [p] else yielded))
    else raise (FileNotFoundError input_path).

(** [render_page_to_pil(page, zoom)], lines 76-80. *)
Definition render_page_to_pil (pg : page) (zoom : Q) : M image :=
  match get_pixmap pg zoom with
  | Some pix => mret (frombytes pix)
  | None => raise RenderError
  end.

(** The name of the image of page [number]: [f"{prefix}_{number:03d}.jpg"]. *)
Definition page_file_name (prefix : str) (number : nat) : str :=
  prefix ++ py "_" ++ format_03d (N.of_nat number) ++ py ".jpg".

(** Lines 100-111 of [convert_pdf]: an output folder that exists is refused,
    or emptied of its regular files when [overwrite] is set; one that does
    not exist is created. *)
Definition prepare_out_dir (out_dir : path) (overwrite : bool) : M unit :=
  out_dir_exists ← path_exists out_dir;
  if out_dir_exists : bool then
    if negb overwrite then raise (FileExistsError out_dir)
    else
      items ← path_glob out_dir Star;
      for_each items (fun item =>
        is_file ← path_is_file item;
        if is_file : bool then unlink item else mret tt)
  else mkdir_parents out_dir.

(** Lines 124-142 of [convert_pdf]: the body of [for i in range(total)]. *)
Definition save_page (doc : document) (out_dir : path) (prefix : str)
    (opts : ConvertOptions.t) (total : nat) (image_paths : list path) (i : nat)
  : M (list path) :=
  pg ← doc_getitem doc i;
  img ← render_page_to_pil pg (ConvertOptions.zoom opts);
  img ← lift (maybe_resize img (ConvertOptions.max_width opts));
  let out_file := Path.joinpath out_dir (page_file_name prefix (i + 1)) in
  image_save img out_file (ConvertOptions.quality opts) ;;
  print (if (total =? 1)%nat then MsgPageOnly
         else MsgPage (i + 1) total (Path.name out_file)) ;;
  mret (image_paths ++ [out_file]).

(** [convert_pdf(pdf_path, out_root, opts)], lines 92-145. *)
Definition convert_pdf (pdf_path out_root : path) (opts : ConvertOptions.t)
  : M (path * list path) :=
  let pdf_stem := sanitize_name (Path.stem pdf_path) (py "document") in
  let out_dir := Path.joinpath out_root pdf_stem in
  prepare_out_dir out_dir (ConvertOptions.overwrite opts) ;;
  doc ← fitz_open pdf_path;
  let total := length (doc_pages doc) in
  if (total =? 0)%nat then
    doc_close doc ;; raise (ValueError_no_pages pdf_path)
  else
    let prefix := sanitize_name (ConvertOptions.prefix opts) (py "page") in
    print (MsgDocument (Path.name pdf_path) total) ;;
    image_paths ← for_fold (seq 0 total) [] (save_page doc out_dir prefix opts total);
    doc_close doc ;;
    mret (out_dir, image_paths).

(** ** zipfile *)

(** [zipfile.ZipFile(zip_path, "w", compression=zipfile.ZIP_DEFLATED)]: the
    archive file is created, with no member yet. *)
Definition zipfile_create (zip_path : path) : M unit :=
  write_file zip_path (Zip []).

(** [zf.write(f, arcname=arcname)]: the data of [f] is appended to the
    archive under [arcname]; a directory gets an entry that ends in a
    slash. *)
Definition zf_write (zip_path f : path) (arcname : str) : M unit := fun w =>
  match fs w !! zip_path with
  | Some (File (Zip entries)) =>
      match fs w !! f with
      | Some (File c) =>
          (Ok tt, set_fs (<[zip_path := File (Zip (entries ++ [(arcname, c)]))]>) w)
      | Some Dir =>
          (Ok tt, set_fs (<[zip_path := File (Zip (entries ++ [(arcname ++ py "/", Bytes [])]))]>) w)
      | None => (Raise (FileNotFoundError f), w)
      end
  | _ => (Raise (FileNotFoundError zip_path), w)
  end.

(** [make_zip(zip_path, files_to_zip)], lines 148-154. *)
Definition make_zip (zip_path : path) (files_to_zip : list path) : M path :=
  zip_exists ← path_exists zip_path;
  (if zip_exists : bool then unlink zip_path else mret tt) ;;
  zipfile_create zip_path ;;
  for_each files_to_zip (fun f => zf_write zip_path f (Path.name f)) ;;
  mret zip_path.

(** ** The command line *)

(** What [parse_args] returns, with the two paths already expanded and
    resolved (lines 211-212). *)
Module Args.
Record t := mk {
  input : path;
  out : path;
  zoom : Q;
  quality : Z;
  max_width : Z;
  prefix : str;
  zip : bool;
  overwrite : bool
}.
End Args.

(** The body of the [for pdf in pdfs] loop of [main], lines 243-253. *)
Definition process_pdf (pdf out_root : path) (opts : ConvertOptions.t) : M unit :=
  try_except
    ('(out_dir, image_paths) ← convert_pdf pdf out_root opts;
     if ConvertOptions.make_zip opts then
       let zip_path :=
         Path.joinpath out_dir
           (sanitize_name (Path.stem pdf) default_fallback ++ py "_images.zip") in
       make_zip zip_path image_paths ;;
       print (MsgZipCreated (Path.name zip_path))
     else mret tt)
    (fun e => print (MsgFailed (Path.name pdf) e)).

(** [main()], lines 208-256. *)
Definition main (args : Args.t) : M Z :=
  let input_path := Args.input args in
  let out_root := Args.out args in
  mkdir_parents out_root ;;
  let zoom := Args.zoom args in
  let quality := Args.quality args in
  if negb ((30 <=? quality) && (quality <=? 95)) then
    print MsgBadQuality ;; mret 2
  else
    let max_width := main_max_width (Args.max_width args) in
    let opts :=
      ConvertOptions.mk zoom quality max_width (Args.prefix args)
                        (Args.zip args) (Args.overwrite args) in
    pdfs ← iter_pdfs input_path;
    if is_empty pdfs then
      print MsgNoPdfs ;; mret 1
    else
      print (MsgOutputRoot out_root) ;;
      print (MsgSettings (ConvertOptions.zoom opts) (ConvertOptions.quality opts)
                         (ConvertOptions.max_width opts) (ConvertOptions.make_zip opts)) ;;
      for_each pdfs (fun pdf => process_pdf pdf out_root opts) ;;
      print MsgDone ;;
      mret 0.

(** Lines 259-260: the status the process ends with.  [SystemExit] carries
    the value [main] returns; an exception that leaves [main] ends the
    interpreter with status 1. *)
Definition exit_status (r : result Z) : Z :=
  match r with
  | Ok code => code
  | Raise _ => 1
  end.

(** * Sample worlds, for the statements that are about one input *)

(** A page that rasterises to [w] x [h] pixels at every zoom. *)
Definition sample_page (w h : Z) : page :=
  {| get_pixmap := fun _ => Some {| pix_width := w; pix_height := h; pix_samples := 0%N |} |}.

(** [/in] holds one document whose extension is in upper case. *)
Definition upper_case_fs : gmap path node :=
  <[ [py "in"; py "B.PDF"] := File (Pdf [sample_page 2000 1000]) ]>
  (<[ [py "in"] := Dir ]> ∅).

Definition upper_case_world : world := World upper_case_fs [] [].

(** The options of a run with the defaults of the command line. *)
Definition default_opts : ConvertOptions.t :=
  ConvertOptions.mk 2%Q 65 (Some 1600) (py "page") false false.

Definition overwrite_opts : ConvertOptions.t :=
  ConvertOptions.mk 2%Q 65 (Some 1600) (py "page") false true.

(** [/in/a.pdf] has two pages; [/out] exists and is empty. *)
Definition two_page_fs : gmap path node :=
  <[ [py "in"; py "a.pdf"] := File (Pdf [sample_page 2000 1000; sample_page 100 50]) ]>
  (<[ [py "in"] := Dir ]>
  (<[ [py "out"] := Dir ]> ∅)).

Definition two_page_world : world := World two_page_fs [] [].

(** [/in/empty.pdf] has no page; [/out] exists and is empty. *)
Definition empty_doc_fs : gmap path node :=
  <[ [py "in"; py "empty.pdf"] := File (Pdf []) ]>
  (<[ [py "in"] := Dir ]>
  (<[ [py "out"] := Dir ]> ∅)).

Definition empty_doc_world : world := World empty_doc_fs [] [].

(** The same document; its output folder [/out/empty] exists and holds a
    text file. *)
Definition empty_rerun_fs : gmap path node :=
  <[ [py "in"; py "empty.pdf"] := File (Pdf []) ]>
  (<[ [py "in"] := Dir ]>
  (<[ [py "out"] := Dir ]>
  (<[ [py "out"; py "empty"] := Dir ]>
  (<[ [py "out"; py "empty"; py "notes.txt"] := File (Bytes [3%N]) ]> ∅)))).

Definition empty_rerun_world : world := World empty_rerun_fs [] [].

(** [/in/a.pdf] has one page; its output folder [/out/a] exists and holds an
    old image, a text file, and a sub-folder with a file in it. *)
Definition rerun_fs : gmap path node :=
  <[ [py "in"; py "a.pdf"] := File (Pdf [sample_page 2000 1000]) ]>
  (<[ [py "in"] := Dir ]>
  (<[ [py "out"] := Dir ]>
  (<[ [py "out"; py "a"] := Dir ]>
  (<[ [py "out"; py "a"; py "page_007.jpg"] := File (Bytes [1%N; 2%N]) ]>
  (<[ [py "out"; py "a"; py "notes.txt"] := File (Bytes [3%N]) ]>
  (<[ [py "out"; py "a"; py "keep"] := Dir ]>
  (<[ [py "out"; py "a"; py "keep"; py "old.jpg"] := File (Bytes [4%N]) ]> ∅))))))).

Definition rerun_world : world := World rerun_fs [] [].

(** The same tree, with an archive of an earlier run in the output folder:
    it holds one member, [old.jpg]. *)
Definition old_archive_fs : gmap path node :=
  <[ [py "out"; py "a"; py "a_images.zip"] := File (Zip [(py "old.jpg", Bytes [9%N])]) ]>
  rerun_fs.

Definition old_archive_world : world := World old_archive_fs [] [].

(** [/in/a.pdf] has one page; its output folder [/out/a] exists and holds a
    sub-folder that has the name of the first page image. *)
Definition blocked_fs : gmap path node :=
  <[ [py "in"; py "a.pdf"] := File (Pdf [sample_page 2000 1000]) ]>
  (<[ [py "in"] := Dir ]>
  (<[ [py "out"] := Dir ]>
  (<[ [py "out"; py "a"] := Dir ]>
  (<[ [py "out"; py "a"; py "page_001.jpg"] := Dir ]> ∅)))).

Definition blocked_world : world := World blocked_fs [] [].

(** * Derived notions, used to state the properties *)

(** What the cleaning loop of [convert_pdf] (lines 107-109) leaves of a file
    system, given the entries [glob] listed. *)
Definition remove_files (items : list path) (m : gmap path node) : gmap path node :=
  fold_left (fun m' item => if Fs.is_file m' item then delete item m' else m') items m.

(** What [mkdir(parents=True)] adds. *)
Definition add_dirs (dirs : list path) (m : gmap path node) : gmap path node :=
  foldr (fun q m' => <[q := Dir]> m') m dirs.

(** The two halves of [make_zip]: lines 150-151, which delete what is at the
    archive path, and lines 152-154, which write the archive. *)
Definition make_zip_delete_old (zip_path : path) : M unit :=
  zip_exists ← path_exists zip_path;
  if zip_exists : bool then unlink zip_path else mret tt.

Definition make_zip_write (zip_path : path) (files_to_zip : list path) : M path :=
  zipfile_create zip_path ;;
  for_each files_to_zip (fun f => zf_write zip_path f (Path.name f)) ;;
  mret zip_path.

(** Where the image of page [i] (counted from 0) goes. *)
Definition page_path (out_dir : path) (prefix : str) (i : nat) : path :=
  out_dir ++ [page_file_name prefix (i + 1)].

(** All that changed in the file system from [w] to [w'] is that page images
    of quality [quality] were written directly inside [out_dir], none of
    them over a directory. *)
Definition only_pages_written (out_dir : path) (prefix : str) (quality : Z)
    (w w' : world) : Prop :=
  forall q,
    fs w' !! q = fs w !! q \/
    (exists i img,
       q = page_path out_dir prefix i /\
       fs w' !! q = Some (File (Jpeg img quality)) /\
       fs w !! q <> Some Dir).

(** A rasterised page of 2000 x 1000 pixels, and a strip of 2000 x 8
    pixels. *)
Definition wide_image : image :=
  frombytes {| pix_width := 2000; pix_height := 1000; pix_samples := 0%N |}.


(** The options [main] builds from the arguments, lines 225-232. *)
Definition main_opts (args : Args.t) : ConvertOptions.t :=
  ConvertOptions.mk (Args.zoom args) (Args.quality args)
                    (main_max_width (Args.max_width args)) (Args.prefix args)
                    (Args.zip args) (Args.overwrite args).

(** The world once [main] has created the output root (line 213). *)
Definition with_output_root (args : Args.t) (w : world) : world :=
  World (add_dirs (Fs.prefixes (Args.out args)) (fs w)) (open_docs w) (console w).

(** The world in which the loop over the documents starts: the output root
    exists and the two header lines are printed (lines 239-240). *)
Definition batch_start (args : Args.t) (w : world) : world :=
  World (add_dirs (Fs.prefixes (Args.out args)) (fs w)) (open_docs w)
        (console w ++ [MsgOutputRoot (Args.out args);
                       MsgSettings (Args.zoom args) (Args.quality args)
                                   (main_max_width (Args.max_width args)) (Args.zip args)]).

(** Every document of the list in turn, each from the world the one before
    it left. *)
Definition batch_run (args : Args.t) (pdfs : list path) (w : world) : world :=
  fold_left (fun w' pdf => snd (process_pdf pdf (Args.out args) (main_opts args) w')) pdfs w.

(** Command lines for the sample worlds. *)
Definition sample_args (input : path) (quality : Z) : Args.t :=
  Args.mk input [py "out"] 2%Q quality 1600 (py "page") false false.

(** [/in] holds a file that is no document under the name [a.pdf] and a
    document of one page under the name [b.pdf]. *)
Definition mixed_fs : gmap path node :=
  <[ [py "in"; py "a.pdf"] := File (Bytes [37%N; 80%N]) ]>
  (<[ [py "in"; py "b.pdf"] := File (Pdf [sample_page 100 50]) ]>
  (<[ [py "in"] := Dir ]> ∅)).

Definition mixed_world : world := World mixed_fs [] [].
(** * More sample worlds and derived notions *)

(** [/in] holds one regular file, named [.pdf]. *)
Definition hidden_fs : gmap path node :=
  <[ [py "in"; py ".pdf"] := File (Pdf [sample_page 100 50]) ]>
  (<[ [py "in"] := Dir ]> ∅).

Definition hidden_world : world := World hidden_fs [] [].

(** The image [convert_pdf] saves for a page (lines 124-126): the page
    rasterised at the zoom factor, then passed through [maybe_resize];
    [None] when one of the two steps fails. *)
Definition page_image (opts : ConvertOptions.t) (pg : page) : option image :=
  match get_pixmap pg (ConvertOptions.zoom opts) with
  | Some pix =>
      match maybe_resize (frombytes pix) (ConvertOptions.max_width opts) with
      | Ok img => Some img
      | Raise _ => None
      end
  | None => None
  end.

(** The progress line of page [i] (counted from 0) of a document of [total]
    pages, lines 139-142. *)
Definition progress_message (prefix : str) (total i : nat) : message :=
  if (total =? 1)%nat then MsgPageOnly
  else MsgPage (i + 1) total (page_file_name prefix (i + 1)).

(** [/out/a/a.pdf]: a document that lies in its own output folder. *)
Definition inside_fs : gmap path node :=
  <[ [py "out"; py "a"; py "a.pdf"] := File (Pdf [sample_page 100 50]) ]>
  (<[ [py "out"; py "a"] := Dir ]>
  (<[ [py "out"] := Dir ]> ∅)).

Definition inside_world : world := World inside_fs [] [].

(** [/in] holds [a b.pdf] and [a_b.pdf], of one page each; [/out] exists and
    is empty. *)
Definition spaced_fs : gmap path node :=
  <[ [py "in"; py "a b.pdf"] := File (Pdf [sample_page 100 50]) ]>
  (<[ [py "in"; py "a_b.pdf"] := File (Pdf [sample_page 200 100]) ]>
  (<[ [py "in"] := Dir ]>
  (<[ [py "out"] := Dir ]> ∅))).

Definition spaced_world : world := World spaced_fs [] [].

(** The sizes of an image that a JPEG file can hold: both sides are at
    least one pixel and at most 65500 pixels.  Pillow refuses to write a
    JPEG of another size; [image_save] does not model this refusal, so the
    statements about runs that succeed ask for images of such a size. *)
Definition jpeg_size (img : image) : Prop :=
  0 < width img <= 65500 /\ 0 < height img <= 65500.

(** From [w] to [w'] nothing changed but, possibly, the entry at [p]. *)
Definition same_but (p : path) (w w' : world) : Prop :=
  (forall q, q <> p -> fs w' !! q = fs w !! q) /\
  open_docs w' = open_docs w /\
  console w' = console w.

(** [/out/a] holds two page images and a sub-folder that has the name of
    the archive. *)
Definition zip_blocked_fs : gmap path node :=
  <[ [py "out"; py "a"; py "page_001.jpg"] := File (Bytes [1%N]) ]>
  (<[ [py "out"; py "a"; py "page_002.jpg"] := File (Bytes [2%N]) ]>
  (<[ [py "out"; py "a"; py "a_images.zip"] := Dir ]>
  (<[ [py "out"; py "a"] := Dir ]>
  (<[ [py "out"] := Dir ]> ∅)))).

Definition zip_blocked_world : world := World zip_blocked_fs [] [].

(** A command line with [--zip] and [--overwrite]. *)
Definition overwrite_args (input : path) : Args.t :=
  Args.mk input [py "out"] 2%Q 65 1600 (py "page") true true.

(** The options of a run with [--zip]. *)
Definition zip_opts : ConvertOptions.t :=
  ConvertOptions.mk 2%Q 65 (Some 1600) (py "page") true false.

(** [/in/a.pdf] has one page; [/out] is a regular file. *)
Definition out_is_file_fs : gmap path node :=
  <[ [py "in"; py "a.pdf"] := File (Pdf [sample_page 100 50]) ]>
  (<[ [py "in"] := Dir ]>
  (<[ [py "out"] := File (Bytes [7%N]) ]> ∅)).

Definition out_is_file_world : world := World out_is_file_fs [] [].

(** [/in] holds [a b.pdf], of two pages, and [a_b.pdf], of one page; [/out]
    exists and is empty. *)
Definition collide_fs : gmap path node :=
  <[ [py "in"; py "a b.pdf"] := File (Pdf [sample_page 100 50; sample_page 100 50]) ]>
  (<[ [py "in"; py "a_b.pdf"] := File (Pdf [sample_page 200 100]) ]>
  (<[ [py "in"] := Dir ]>
  (<[ [py "out"] := Dir ]> ∅))).

Definition collide_world : world := World collide_fs [] [].

(** The paths of this model are lexical: a component [".."] is a name like
    any other, while for the system it leads to the directory above.  The
    statements that tell where files are written or left alone are about
    documents whose folder name is not [".."], as names such as ["a.pdf"]
    give; [plain_names m] says so of every entry of a file system. *)
Definition plain_names (m : gmap path node) : Prop :=
  map_Forall (fun p _ => sanitize_name (Path.stem p) (py "document") <> py "..") m.

#[global] Instance plain_names_dec (m : gmap path node) : Decision (plain_names m).
Proof. unfold plain_names. apply _. Defined.
(** * Facts about [sanitize_name] *)

Lemma safe_char_not_space c : is_safe_char c = true -> isspace c = false.
Proof.
  unfold is_safe_char, isspace. intros H.
  repeat match goal with
         | H : (_ || _)%bool = true |- _ => apply orb_true_iff in H; destruct H
         | H : (_ && _)%bool = true |- _ => apply andb_true_iff in H; destruct H
         | H : (_ <=? _)%N = true |- _ => apply N.leb_le in H
         | H : (_ =? _)%N = true |- _ => apply N.eqb_eq in H
         end;
  repeat match goal with
         | |- (_ || _)%bool = false => apply orb_false_iff; split
         | |- (_ && _)%bool = false => apply andb_false_iff
         end;
  try (apply N.eqb_neq; lia);
  try (left; apply N.leb_gt; lia); try (right; apply N.leb_gt; lia).
Qed.

Lemma lstrip_safe s : Forall (fun c => is_safe_char c = true) s -> lstrip s = s.
Proof.
  destruct 1 as [|c r Hc _]; [reflexivity|].
  cbn [lstrip]. now rewrite (safe_char_not_space c Hc).
Qed.

Lemma strip_safe s : Forall (fun c => is_safe_char c = true) s -> strip s = s.
Proof.
  intros H. unfold strip. rewrite (lstrip_safe s H).
  rewrite lstrip_safe; [apply rev_involutive|].
  now apply List.Forall_rev.
Qed.

Lemma sub_spaces_safe s :
  Forall (fun c => is_safe_char c = true) s -> sub_spaces false s = s.
Proof.
  induction 1 as [|c r Hc _ IH]; [reflexivity|].
  cbn [sub_spaces]. rewrite (safe_char_not_space c Hc). now rewrite IH.
Qed.

Lemma sub_unsafe_safe s :
  Forall (fun c => is_safe_char c = true) s -> sub_unsafe s = s.
Proof.
  induction 1 as [|c r Hc _ IH]; [reflexivity|].
  unfold sub_unsafe in *. cbn [List.filter]. rewrite Hc. now rewrite IH.
Qed.

Lemma sub_unsafe_all_safe s : Forall (fun c => is_safe_char c = true) (sub_unsafe s).
Proof.
  unfold sub_unsafe. apply List.Forall_forall. intros c Hc.
  now apply List.filter_In in Hc.
Qed.

(** A non-empty token made of safe characters is a fixed point. *)
Lemma sanitize_name_safe s fb :
  s <> [] -> Forall (fun c => is_safe_char c = true) s -> sanitize_name s fb = s.
Proof.
  intros Hne Hs. unfold sanitize_name.
  rewrite (strip_safe s Hs), (sub_spaces_safe s Hs), (sub_unsafe_safe s Hs).
  destruct s; [congruence|reflexivity].
Qed.

(** Whatever [sanitize_name] returns is the fallback or a non-empty token of
    safe characters. *)
Lemma sanitize_name_cases s fb :
  sanitize_name s fb = fb \/
  (sanitize_name s fb <> [] /\
   Forall (fun c => is_safe_char c = true) (sanitize_name s fb)).
Proof.
  unfold sanitize_name.
  destruct (is_empty (strip s)); [now left|].
  destruct (sub_unsafe (sub_spaces false (strip s))) as [|c r] eqn:E; simpl;
    [now left|right].
  split; [discriminate|]. rewrite <- E. apply sub_unsafe_all_safe.
Qed.

(** C7: with the fallback at its default ("page"), sanitising the result of
    [sanitize_name] again returns it unchanged:
    sanitize(sanitize(s)) = sanitize(s) for every string s. *)
Theorem sanitize_name_idempotent (s : str) :
  sanitize_name (sanitize_name s default_fallback) default_fallback
  = sanitize_name s default_fallback.
Proof.
  destruct (sanitize_name_cases s default_fallback) as [-> | [Hne Hs]].
  - reflexivity.
  - now apply sanitize_name_safe.
Qed.

(** * Facts about page file names *)

Lemma parse_decimal_rev l :
  parse_decimal (rev l) = fold_right (fun c acc => (10 * acc + (c - 48))%N) 0%N l.
Proof.
  unfold parse_decimal. rewrite <- (rev_involutive l) at 2.
  now rewrite List.fold_left_rev_right.
Qed.

Lemma digits_lsd_value fuel n :
  (n < 10 ^ N.of_nat (S fuel))%N ->
  fold_right (fun c acc => (10 * acc + (c - 48))%N) 0%N (digits_lsd fuel n) = n.
Proof.
  revert n. induction fuel as [|fuel IH]; intros n Hn.
  - cbn [digits_lsd fold_right]. change (10 ^ N.of_nat 1)%N with 10%N in Hn.
    rewrite N.mod_small by assumption. lia.
  - cbn [digits_lsd fold_right].
    destruct (N.ltb_spec n 10) as [Hs|Hs].
    + cbn [fold_right]. rewrite N.mod_small by assumption. lia.
    + rewrite IH.
      * pose proof (N.div_mod n 10 ltac:(lia)) as E.
        remember (n mod 10)%N as r. remember (n / 10)%N as q. lia.
      * apply N.Div0.div_lt_upper_bound.
        rewrite Nat2N.inj_succ, N.pow_succ_r' in Hn. exact Hn.
Qed.

Lemma parse_decimal_decimal n : parse_decimal (decimal n) = n.
Proof.
  unfold decimal. rewrite parse_decimal_rev. apply digits_lsd_value.
  rewrite Nat2N.inj_succ, N2Nat.id.
  destruct (N.eq_dec n 0%N) as [->|Hn]; [reflexivity|].
  destruct (N.log2_spec n ltac:(lia)) as [_ Hu].
  eapply N.lt_le_trans; [exact Hu|].
  apply N.pow_le_mono_l. lia.
Qed.

Lemma parse_decimal_zeros k s :
  parse_decimal (List.repeat 48%N k ++ s) = parse_decimal s.
Proof.
  unfold parse_decimal. rewrite fold_left_app. f_equal.
  induction k as [|k IH]; [reflexivity|exact IH].
Qed.

Lemma parse_decimal_format_03d n : parse_decimal (format_03d n) = n.
Proof. unfold format_03d. rewrite parse_decimal_zeros. apply parse_decimal_decimal. Qed.

Lemma format_03d_inj n m : format_03d n = format_03d m -> n = m.
Proof.
  intros H. rewrite <- (parse_decimal_format_03d n), <- (parse_decimal_format_03d m).
  now rewrite H.
Qed.

Lemma format_03d_length n : (3 <= length (format_03d n))%nat.
Proof.
  unfold format_03d. rewrite length_app, repeat_length. lia.
Qed.

Lemma page_file_name_inj prefix i j :
  page_file_name prefix i = page_file_name prefix j -> i = j.
Proof.
  unfold page_file_name. intros H.
  apply app_inv_head in H. apply app_inv_head in H. apply app_inv_tail in H.
  apply format_03d_inj in H. lia.
Qed.

Lemma page_file_name_length prefix i : (8 <= length (page_file_name prefix i))%nat.
Proof.
  unfold page_file_name. rewrite !length_app.
  pose proof (format_03d_length (N.of_nat i)).
  change (length (py "_")) with 1%nat. change (length (py ".jpg")) with 4%nat. lia.
Qed.

Lemma joinpath_page_file_name d prefix i :
  Path.joinpath d (page_file_name prefix i) = d ++ [page_file_name prefix i].
Proof.
  unfold Path.joinpath.
  pose proof (page_file_name_length prefix i) as L.
  rewrite !bool_decide_eq_false_2; [reflexivity| |];
    intros E; rewrite E in L; cbn in L; lia.
Qed.

(** * Facts about the rounding of floats *)

Import Float.

Lemma nearest_even_spec n d :
  0 <= n -> 0 < d ->
  2 * Z.abs (nearest_even n d * d - n) <= d.
Proof.
  intros Hn Hd. unfold nearest_even.
  pose proof (Z.div_mod n d ltac:(lia)) as E.
  pose proof (Z.mod_pos_bound n d Hd) as B.
  destruct (Z.compare_spec (2 * (n mod d)) d) as [C|C|C].
  - destruct (Z.even (n / d)); nia.
  - nia.
  - nia.
Qed.

Lemma pow2_max_pos k : 0 < 2 ^ Z.max 0 k.
Proof. apply Z.pow_pos_nonneg; lia. Qed.

Lemma exponent_spec n d :
  0 < n -> 0 < d ->
  let e := exponent n d in
  2 ^ 52 * scaled_den d e <= scaled_num n e /\
  scaled_num n e < 2 ^ 53 * scaled_den d e.
Proof.
  intros Hn Hd.
  destruct (Z.log2_spec n Hn) as [Ln Un].
  destruct (Z.log2_spec d Hd) as [Ld Ud].
  pose proof (Z.log2_nonneg n) as Pn. pose proof (Z.log2_nonneg d) as Pd.
  unfold exponent.
  remember (Z.log2 n) as la eqn:Ela. remember (Z.log2 d) as lb eqn:Elb.
  remember (la - lb - 52) as e0 eqn:Ee0.
  assert (P2 : forall k, 0 <= k -> 0 < 2 ^ k) by (intros; apply Z.pow_pos_nonneg; lia).
  (* general bounds at e0 *)
  assert (B0 : scaled_num n e0 < 2 ^ 53 * scaled_den d e0 /\
               2 ^ 51 * scaled_den d e0 < scaled_num n e0).
  { unfold scaled_num, scaled_den.
    destruct (Z_le_gt_dec 0 e0) as [He|He].
    - rewrite (Z.max_r 0 e0), (Z.max_l 0 (- e0)) by lia.
      replace (Z.succ la) with (lb + 53 + e0) in Un by lia.
      replace la with (lb + 52 + e0) in Ln by lia.
      replace (Z.succ lb) with (lb + 1) in Ud by lia.
      rewrite !Z.pow_add_r in Un by lia. rewrite !Z.pow_add_r in Ln by lia.
      rewrite Z.pow_add_r in Ud by lia.
      pose proof (P2 lb Pd). pose proof (P2 e0 He).
      change (2 ^ 1) with 2 in *. change (2 ^ 0) with 1.
      remember (2 ^ lb) as X eqn:EX. remember (2 ^ e0) as Y eqn:EY.
      split; nia.
    - rewrite (Z.max_l 0 e0), (Z.max_r 0 (- e0)) by lia.
      assert (Hs : la + - e0 = lb + 52) by lia.
      pose proof (P2 (- e0) ltac:(lia)) as Py.
      assert (E1 : 2 ^ la * 2 ^ (- e0) = 2 ^ lb * 2 ^ 52).
      { rewrite <- !Z.pow_add_r by lia. f_equal. lia. }
      replace (Z.succ la) with (la + 1) in Un by lia.
      replace (Z.succ lb) with (lb + 1) in Ud by lia.
      rewrite Z.pow_add_r in Un by lia. rewrite Z.pow_add_r in Ud by lia.
      change (2 ^ 1) with 2 in *. change (2 ^ 0) with 1.
      pose proof (P2 lb Pd). pose proof (P2 la Pn).
      remember (2 ^ lb) as X eqn:EX. remember (2 ^ (- e0)) as Y eqn:EY. remember (2 ^ la) as W eqn:EW.
      split; nia. }
  destruct B0 as [B1 B2].
  destruct (Z.leb_spec (2 ^ 52 * scaled_den d e0) (scaled_num n e0)) as [T|T].
  - cbv zeta. split; assumption.
  - cbv zeta. unfold scaled_num, scaled_den in *.
    destruct (Z_le_gt_dec 1 e0) as [He|He].
    + rewrite (Z.max_r 0 e0), (Z.max_l 0 (- e0)) in * by lia.
      rewrite (Z.max_r 0 (e0 - 1)), (Z.max_l 0 (- (e0 - 1))) by lia.
      replace e0 with ((e0 - 1) + 1) in B1, B2, T at 1 by lia.
      replace (2 ^ (e0 - 1 + 1)) with (2 ^ (e0 - 1) * 2) in *
        by (rewrite Z.pow_add_r by lia; reflexivity).
      change (2 ^ 0) with 1 in *.
      pose proof (P2 (e0 - 1) ltac:(lia)).
      remember (2 ^ (e0 - 1)) as Y eqn:EY. split; nia.
    + rewrite (Z.max_l 0 e0), (Z.max_r 0 (- e0)) in * by lia.
      rewrite (Z.max_l 0 (e0 - 1)), (Z.max_r 0 (- (e0 - 1))) by lia.
      replace (- (e0 - 1)) with (- e0 + 1) by lia.
      rewrite Z.pow_add_r by lia.
      change (2 ^ 1) with 2 in *. change (2 ^ 0) with 1 in *.
      pose proof (P2 (- e0) ltac:(lia)).
      remember (2 ^ (- e0)) as Y eqn:EY. split; nia.
Qed.

Lemma round_pos_spec n d :
  0 < n -> 0 < d ->
  0 < num (round n d) /\ 0 < den (round n d) /\
  2 ^ 53 * Z.abs (num (round n d) * d - n * den (round n d)) <= n * den (round n d).
Proof.
  intros Hn Hd. unfold round.
  destruct (Z.eqb_spec n 0) as [?|_]; [lia|].
  rewrite (Z.sgn_pos n), (Z.sgn_pos d), (Z.abs_eq n), (Z.abs_eq d) by lia.
  cbv zeta. rewrite Z.mul_1_l.
  pose proof (exponent_spec n d Hn Hd) as [E1 E2]. cbv zeta in E1, E2.
  remember (exponent n d) as e eqn:Ee.
  assert (Hsd : 0 < scaled_den d e).
  { unfold scaled_den. pose proof (pow2_max_pos e). nia. }
  assert (Hsn : 0 <= scaled_num n e) by nia.
  pose proof (nearest_even_spec _ _ Hsn Hsd) as R.
  remember (nearest_even (scaled_num n e) (scaled_den d e)) as m eqn:Em.
  unfold num, den. cbn [fst snd].
  unfold scaled_num, scaled_den in *.
  pose proof (pow2_max_pos e) as P1. pose proof (pow2_max_pos (- e)) as P2.
  remember (2 ^ Z.max 0 e) as P eqn:EP. remember (2 ^ Z.max 0 (- e)) as D eqn:ED.
  assert (Hm : 2 ^ 52 <= m) by nia.
  split; [nia|]. split; [assumption|].
  replace (m * P * d - n * D) with (m * (d * P) - n * D) by ring.
  nia.
Qed.

Lemma of_int_exact h :
  0 < h < 2 ^ 53 ->
  0 < den (of_int h) /\ num (of_int h) = h * den (of_int h).
Proof.
  intros Hh. unfold of_int, round.
  destruct (Z.eqb_spec h 0) as [?|_]; [lia|].
  rewrite (Z.sgn_pos h), (Z.abs_eq h) by lia.
  change (Z.sgn 1) with 1. change (Z.abs 1) with 1.
  cbv zeta. rewrite !Z.mul_1_l.
  pose proof (exponent_spec h 1 ltac:(lia) ltac:(lia)) as [E1 E2]. cbv zeta in E1, E2.
  remember (exponent h 1) as e eqn:Ee.
  unfold num, den. cbn [fst snd]. unfold scaled_num, scaled_den in *.
  assert (He : e <= 0).
  { destruct (Z_le_gt_dec e 0) as [|G]; [assumption|exfalso].
    rewrite (Z.max_r 0 e), (Z.max_l 0 (- e)) in * by lia.
    change (2 ^ 0) with 1 in *.
    assert (2 ^ 1 <= 2 ^ e) by (apply Z.pow_le_mono_r; lia).
    change (2 ^ 1) with 2 in *. nia. }
  rewrite (Z.max_l 0 e) by lia. change (2 ^ 0) with 1. rewrite !Z.mul_1_r.
  pose proof (pow2_max_pos (- e)) as P2. split; [assumption|].
  unfold nearest_even. rewrite Z.mod_1_r, Z.div_1_r. reflexivity.
Qed.

(** The height [int(h * (mw / w))] of line 88, against the exact product
    [h * mw / w]: the two roundings cost a factor of at most
    [(1 + 2^-53)^2] upwards and [(1 - 2^-53)^2] downwards. *)
Lemma scaled_height_sharp h mw w :
  0 < h -> 0 < mw < w -> h * mw <= 2 ^ 52 ->
  let n := Float.to_int (Float.mul (Float.of_int h) (Float.div_int mw w)) in
  9007199254740992 * 9007199254740992 * (n * w)
    <= 9007199254740993 * 9007199254740993 * (h * mw) /\
  9007199254740991 * 9007199254740991 * (h * mw)
    < 9007199254740992 * 9007199254740992 * ((n + 1) * w).
Proof.
  intros Hh Hmw Hb. cbv zeta.
  assert (Hh53 : 0 < h < 2 ^ 53) by nia.
  destruct (of_int_exact h Hh53) as [K0 EK].
  destruct (round_pos_spec mw w ltac:(lia) ltac:(lia)) as (A0 & B0 & Q).
  unfold div_int, mul.
  remember (of_int h) as H eqn:EH.
  remember (round mw w) as q eqn:Eq.
  remember (num q) as A. remember (den q) as B. remember (den H) as K.
  rewrite EK.
  destruct (round_pos_spec (h * K * A) (K * B) ltac:(nia) ltac:(nia)) as (P0 & D0 & R).
  remember (round (h * K * A) (K * B)) as p eqn:Ep.
  unfold to_int. rewrite Z.quot_div_nonneg by lia.
  remember (num p) as Pn. remember (den p) as Pd.
  pose proof (Z.div_mod Pn Pd ltac:(lia)) as DM.
  pose proof (Z.mod_pos_bound Pn Pd D0) as MB.
  remember (Pn / Pd) as n eqn:En.
  (* cancel K *)
  assert (R' : 2 ^ 53 * Z.abs (Pn * B - h * A * Pd) <= h * A * Pd).
  { replace (Pn * (K * B) - h * K * A * Pd) with (K * (Pn * B - h * A * Pd)) in R by ring.
    rewrite Z.abs_mul, (Z.abs_eq K) in R by lia.
    replace (h * K * A * Pd) with (K * (h * A * Pd)) in R by ring.
    replace (2 ^ 53 * (K * Z.abs (Pn * B - h * A * Pd)))
      with (K * (2 ^ 53 * Z.abs (Pn * B - h * A * Pd))) in R by ring.
    apply Z.mul_le_mono_pos_l in R; assumption. }
  clear R.
  change (2 ^ 53) with 9007199254740992 in *.
  change (2 ^ 52) with 4503599627370496 in *.
  assert (N1 : n * Pd <= Pn /\ Pn + 1 <= (n + 1) * Pd) by lia.
  destruct N1 as [N1 N2].
  split.
  - (* upper: n w <= h mw *)
    assert (U1 : 9007199254740992 * (n * B) <= 9007199254740993 * (h * A)).
    { apply (Z.mul_le_mono_pos_r _ _ Pd D0).
      assert (0 <= (Pn - n * Pd) * B) by (apply Z.mul_nonneg_nonneg; lia).
      lia. }
    assert (U2 : 9007199254740992 * (A * w) <= 9007199254740993 * (mw * B)) by lia.
    assert (U3 : 9007199254740992 * 9007199254740992 * (n * w) * B
                 <= 9007199254740993 * 9007199254740993 * (h * mw) * B).
    { assert (0 <= (9007199254740993 * (h * A) - 9007199254740992 * (n * B))
                   * (9007199254740992 * w))
        by (apply Z.mul_nonneg_nonneg; lia).
      assert (0 <= (9007199254740993 * (mw * B) - 9007199254740992 * (A * w))
                   * (9007199254740993 * h))
        by (apply Z.mul_nonneg_nonneg; lia).
      lia. }
    apply Z.mul_le_mono_pos_r in U3; [|assumption].
    exact U3.
  - (* lower: h mw <= n w + w *)
    assert (L1 : 9007199254740991 * (h * A) + 1 <= 9007199254740992 * ((n + 1) * B)).
    { assert (L0 : 9007199254740991 * (h * A) * Pd < 9007199254740992 * ((n + 1) * B) * Pd).
      { assert (0 <= ((n + 1) * Pd - Pn - 1) * B) by (apply Z.mul_nonneg_nonneg; lia).
        lia. }
      apply Z.mul_lt_mono_pos_r in L0; [lia|assumption]. }
    assert (L2 : 9007199254740991 * (mw * B) <= 9007199254740992 * (A * w)) by lia.
    assert (L3 : 9007199254740991 * 9007199254740991 * (h * mw) * B
                 < 9007199254740992 * 9007199254740992 * ((n + 1) * w) * B).
    { assert (0 <= (9007199254740992 * (A * w) - 9007199254740991 * (mw * B))
                   * (9007199254740991 * h))
        by (apply Z.mul_nonneg_nonneg; lia).
      assert (0 <= (9007199254740992 * ((n + 1) * B) - 9007199254740991 * (h * A) - 1)
                   * (9007199254740992 * w))
        by (apply Z.mul_nonneg_nonneg; lia).
      lia. }
    apply Z.mul_lt_mono_pos_r in L3; [|assumption].
    exact L3.
Qed.

Lemma to_int_mul_zero x : Float.to_int (Float.mul (Float.of_int 0) x) = 0.
Proof.
  unfold mul. change (num (of_int 0)) with 0. rewrite Z.mul_0_l. reflexivity.
Qed.

Lemma scaled_height_bound h mw w :
  0 <= h -> 0 < mw < w -> h * mw <= 2 ^ 52 ->
  h * mw - w <= w * Float.to_int (Float.mul (Float.of_int h) (Float.div_int mw w)) <= h * mw + w.
Proof.
  intros Hh Hmw Hb.
  destruct (Z.eq_dec h 0) as [->|Hh0].
  { rewrite to_int_mul_zero. lia. }
  destruct (scaled_height_sharp h mw w ltac:(lia) Hmw Hb) as [U L]. cbv zeta in U, L.
  set (n := to_int _) in *.
  change (2 ^ 52) with 4503599627370496 in Hb.
  assert (0 < h * mw) by (apply Z.mul_pos_pos; lia).
  replace ((n + 1) * w) with (n * w + w) in L by ring.
  replace (w * n) with (n * w) by ring.
  remember (n * w) as X. remember (h * mw) as Y. lia.
Qed.


(** * Facts about [maybe_resize] *)




(** Both outcomes occur at a proportional height of exactly one pixel: a
    page of 2 x 2 pixels at a maximum of 1 is resized to 1 x 1, a page of
    49 x 49 pixels at a maximum of 1 is refused, since [49 * (1 / 49)] is
    below one in floating point. *)
Lemma maybe_resize_exactly_one_pixel :
  maybe_resize (frombytes {| pix_width := 2; pix_height := 2; pix_samples := 0%N |})
               (main_max_width 1)
  = Ok (resize (frombytes {| pix_width := 2; pix_height := 2; pix_samples := 0%N |}) (1, 1)) /\
  maybe_resize (frombytes {| pix_width := 49; pix_height := 49; pix_samples := 0%N |})
               (main_max_width 1)
  = Raise (ValueError_size (1, 0)).
Proof. split; vm_compute; reflexivity. Qed.

(** * The order of [sorted] *)

Section LexCompare.
Context {A : Type} (cmp : A -> A -> comparison).
Hypothesis cmp_eq : forall x y, cmp x y = Eq -> x = y.
Hypothesis cmp_refl : forall x, cmp x x = Eq.
Hypothesis cmp_antisym : forall x y, cmp y x = CompOpp (cmp x y).
Hypothesis cmp_trans : forall x y z, cmp x y = Lt -> cmp y z = Lt -> cmp x z = Lt.

Lemma lex_compare_eq a b : lex_compare cmp a b = Eq -> a = b.
Proof.
  revert b. induction a as [|x a IH]; intros [|y b]; cbn; try congruence.
  destruct (cmp x y) eqn:E; try congruence.
  intros H. apply cmp_eq in E. apply IH in H. congruence.
Qed.

Lemma lex_compare_refl a : lex_compare cmp a a = Eq.
Proof. induction a as [|x a IH]; cbn; [reflexivity|]. now rewrite cmp_refl. Qed.

Lemma lex_compare_antisym a b : lex_compare cmp b a = CompOpp (lex_compare cmp a b).
Proof.
  revert b. induction a as [|x a IH]; intros [|y b]; cbn; try reflexivity.
  rewrite (cmp_antisym x y). destruct (cmp x y); cbn; auto.
Qed.

Lemma lex_compare_trans a b c :
  lex_compare cmp a b = Lt -> lex_compare cmp b c = Lt -> lex_compare cmp a c = Lt.
Proof.
  revert b c. induction a as [|x a IH]; intros [|y b] [|z c]; cbn; try congruence.
  destruct (cmp x y) eqn:Exy; try congruence.
  - apply cmp_eq in Exy. subst y. destruct (cmp x z); try congruence. apply IH.
  - destruct (cmp y z) eqn:Eyz; try congruence.
    + apply cmp_eq in Eyz. subst z. now rewrite Exy.
    + now rewrite (cmp_trans x y z Exy Eyz).
Qed.

End LexCompare.

Lemma N_compare_trans_lt x y z :
  (x ?= y)%N = Lt -> (y ?= z)%N = Lt -> (x ?= z)%N = Lt.
Proof. rewrite !N.compare_lt_iff. lia. Qed.

Lemma str_compare_eq a b : str_compare a b = Eq -> a = b.
Proof. apply lex_compare_eq. intros x y. apply N.compare_eq. Qed.

Lemma str_compare_refl a : str_compare a a = Eq.
Proof. apply lex_compare_refl. apply N.compare_refl. Qed.

Lemma str_compare_antisym a b : str_compare b a = CompOpp (str_compare a b).
Proof. apply lex_compare_antisym. intros x y. apply N.compare_antisym. Qed.

Lemma str_compare_trans a b c :
  str_compare a b = Lt -> str_compare b c = Lt -> str_compare a c = Lt.
Proof.
  apply lex_compare_trans.
  - intros x y. apply N.compare_eq.
  - apply N_compare_trans_lt.
Qed.

Lemma path_compare_eq a b : path_compare a b = Eq -> a = b.
Proof. apply lex_compare_eq. apply str_compare_eq. Qed.

Lemma path_compare_antisym a b : path_compare b a = CompOpp (path_compare a b).
Proof. apply lex_compare_antisym. apply str_compare_antisym. Qed.

Lemma path_compare_trans a b c :
  path_compare a b = Lt -> path_compare b c = Lt -> path_compare a c = Lt.
Proof.
  apply lex_compare_trans.
  - apply str_compare_eq.
  - apply str_compare_trans.
Qed.

#[global] Instance path_le_total : Total path_le.
Proof.
  intros a b. unfold path_le. rewrite (path_compare_antisym a b).
  destruct (path_compare a b); cbn; [left|left|right]; congruence.
Qed.

#[global] Instance path_le_trans : Transitive path_le.
Proof.
  intros a b c. unfold path_le. intros Hab Hbc.
  destruct (path_compare a b) eqn:E1; [| |congruence].
  - apply path_compare_eq in E1. now subst b.
  - destruct (path_compare b c) eqn:E2; [| |congruence].
    + apply path_compare_eq in E2. subst c. now rewrite E1.
    + now rewrite (path_compare_trans a b c E1 E2).
Qed.

#[global] Instance path_le_antisym : AntiSymm eq path_le.
Proof.
  intros a b. unfold path_le. intros Hab Hba.
  rewrite (path_compare_antisym a b) in Hba.
  destruct (path_compare a b) eqn:E; cbn in *; try congruence.
  now apply path_compare_eq.
Qed.

Lemma sorted_StronglySorted l : StronglySorted path_le (sorted l).
Proof. apply StronglySorted_merge_sort; apply _. Qed.

Lemma sorted_In l p : In p (sorted l) <-> In p l.
Proof.
  unfold sorted. rewrite <- !list_elem_of_In.
  now rewrite merge_sort_Permutation.
Qed.

Lemma StronglySorted_list_filter {A} (R : relation A) (f : A -> bool) l :
  StronglySorted R l -> StronglySorted R (List.filter f l).
Proof.
  induction 1 as [|x l Hl IH Hx]; cbn; [constructor|].
  destruct (f x); [|assumption].
  constructor; [assumption|].
  apply List.Forall_forall. intros y Hy. apply List.filter_In in Hy as [Hy _].
  rewrite List.Forall_forall in Hx. now apply Hx.
Qed.

(** * Paths and directory listings *)

Lemma name_app d n : Path.name (d ++ [n]) = n.
Proof. unfold Path.name. apply List.last_last. Qed.

Lemma parent_app d n : Path.parent (d ++ [n]) = d.
Proof. unfold Path.parent. apply List.removelast_last. Qed.

Lemma is_child_iff d p : Fs.is_child d p = true <-> exists n, p = d ++ [n].
Proof.
  unfold Fs.is_child. rewrite andb_true_iff, negb_true_iff.
  rewrite bool_decide_eq_false, bool_decide_eq_true. split.
  - intros [Hne Hp]. exists (Path.name p). subst d.
    now apply List.app_removelast_last.
  - intros [n ->]. split; [now destruct d|apply parent_app].
Qed.

Lemma is_child_app d n : Fs.is_child d (d ++ [n]) = true.
Proof. apply is_child_iff. now exists n. Qed.

Lemma iterdir_In (m : gmap path node) d p :
  In p (Fs.iterdir m d) <-> is_Some (m !! p) /\ Fs.is_child d p = true.
Proof.
  unfold Fs.iterdir. rewrite List.filter_In, List.in_map_iff. split.
  - intros [[[q n] [<- Hq]] Hc]. split; [|assumption].
    apply list_elem_of_In, elem_of_map_to_list in Hq. cbn. eauto.
  - intros [[n Hn] Hc]. split; [|assumption].
    exists (p, n). split; [reflexivity|].
    now apply list_elem_of_In, elem_of_map_to_list.
Qed.

Lemma glob_In (m : gmap path node) d pat p :
  In p (Fs.glob m d pat) <->
  Fs.is_dir m d = true /\ is_Some (m !! p) /\ Fs.is_child d p = true /\
  fnmatch pat (Path.name p) = true.
Proof.
  unfold Fs.glob. destruct (Fs.is_dir m d).
  - rewrite List.filter_In, iterdir_In. tauto.
  - cbn. split; [tauto|]. intros [? _]. discriminate.
Qed.

(** * Running computations *)

Lemma bind_run {A B} (m : M A) (k : A -> M B) w :
  (m ≫= k) w =
  match m w with
  | (Ok a, w') => k a w'
  | (Raise e, w') => (Raise e, w')
  end.
Proof. reflexivity. Qed.

Lemma ret_run {A} (a : A) w : (mret a : M A) w = (Ok a, w).
Proof. reflexivity. Qed.

(** * Facts about [iter_pdfs] *)

Lemma keep_files_loop l acc w :
  for_fold l acc (fun yielded p =>
    is_file ← path_is_file p;
    mret (if is_file : bool then yielded ++ [p] else yielded)) w
  = (Ok (acc ++ List.filter (Fs.is_file (fs w)) l), w).
Proof.
  revert acc. induction l as [|p l IH]; intros acc.
  - cbn. now rewrite app_nil_r.
  - cbn [for_fold List.filter]. rewrite bind_run. unfold path_is_file at 1.
    rewrite bind_run, ret_run. rewrite IH.
    destruct (Fs.is_file (fs w) p); [now rewrite <- app_assoc|reflexivity].
Qed.

(** What [iter_pdfs] yields, by the kind of its argument. *)
Lemma iter_pdfs_run p w :
  iter_pdfs p w =
  ((if Fs.is_file (fs w) p then
      Ok (if bool_decide (lower (Path.suffix p) = py ".pdf") then [p] else [])
    else if Fs.is_dir (fs w) p then
      Ok (List.filter (Fs.is_file (fs w))
            (sorted (Fs.glob (fs w) p (StarSuffix (py ".pdf")))))
    else Raise (FileNotFoundError p)), w).
Proof.
  unfold iter_pdfs. rewrite bind_run. unfold path_is_file at 1.
  destruct (Fs.is_file (fs w) p); [reflexivity|].
  rewrite bind_run. unfold path_is_dir at 1.
  destruct (Fs.is_dir (fs w) p); [|reflexivity].
  rewrite bind_run. unfold path_glob at 1.
  now rewrite keep_files_loop.
Qed.

(** The parts of the input resolver's contract that hold: a regular file is
    yielded exactly when its lowered suffix is [".pdf"]; a directory yields,
    in sorted order, the regular files directly inside it whose name ends in
    [".pdf"] as written (possibly none); anything else raises
    [FileNotFoundError]. *)
Lemma iter_pdfs_contract p w :
  (Fs.is_file (fs w) p = true ->
   iter_pdfs p w =
   (Ok (if bool_decide (lower (Path.suffix p) = py ".pdf") then [p] else []), w)) /\
  (Fs.is_file (fs w) p = false -> Fs.is_dir (fs w) p = true ->
   exists l, iter_pdfs p w = (Ok l, w) /\ StronglySorted path_le l /\
     forall q, In q l <->
       Fs.is_child p q = true /\ Fs.is_file (fs w) q = true /\
       ends_with (py ".pdf") (Path.name q) = true) /\
  (Fs.is_file (fs w) p = false -> Fs.is_dir (fs w) p = false ->
   iter_pdfs p w = (Raise (FileNotFoundError p), w)).
Proof.
  rewrite iter_pdfs_run. repeat split.
  - now intros ->.
  - intros -> Hd. rewrite Hd. eexists. split; [reflexivity|]. split.
    + apply StronglySorted_list_filter, sorted_StronglySorted.
    + intros q. rewrite List.filter_In, sorted_In, glob_In. cbn [fnmatch].
      split; [tauto|]. intros (Hc & Hf & He). repeat split; try assumption.
      unfold Fs.is_file in Hf. destruct (fs w !! q); [eauto|discriminate].
  - now intros -> ->.
Qed.

(** C5, at a directory that holds [B.PDF]: the directory branch matches the
    name against ["*.pdf"] as written and yields nothing, although the file
    is a regular file, its extension matches [".pdf"] without regard to
    case, and the file branch yields it. *)
Theorem iter_pdfs_directory_is_case_sensitive :
  let d := [py "in"] in
  let f := [py "in"; py "B.PDF"] in
  Fs.is_dir upper_case_fs d = true /\
  Fs.is_child d f = true /\
  Fs.is_file upper_case_fs f = true /\
  lower (Path.suffix f) = py ".pdf" /\
  iter_pdfs f upper_case_world = (Ok [f], upper_case_world) /\
  iter_pdfs d upper_case_world = (Ok [], upper_case_world).
Proof. vm_compute. repeat split; reflexivity. Qed.

(** * File system calls *)

Lemma remove_files_other (items : list path) (m : gmap path node) (q : path) :
  ~ In q items \/ Fs.is_file m q = false ->
  remove_files items m !! q = m !! q.
Proof.
  revert m. induction items as [|p items IH]; intros m H; [reflexivity|].
  cbn [remove_files fold_left]. fold (remove_files items).
  destruct (Fs.is_file m p) eqn:Hp.
  - destruct (decide (p = q)) as [->|Hne].
    + destruct H as [H|H]; [exfalso; apply H; now left|congruence].
    + rewrite IH.
      * now apply lookup_delete_ne.
      * destruct H as [H|H]; [left; intros Hq; apply H; now right|right].
        unfold Fs.is_file in *. now rewrite lookup_delete_ne.
  - apply IH. destruct H as [H|H]; [left; intros Hq; apply H; now right|now right].
Qed.

Lemma remove_files_gone (items : list path) (m : gmap path node) (q : path) :
  In q items -> Fs.is_file m q = true -> remove_files items m !! q = None.
Proof.
  revert m. induction items as [|p items IH]; intros m Hin Hf; [destruct Hin|].
  cbn [remove_files fold_left]. fold (remove_files items).
  destruct (decide (p = q)) as [->|Hne].
  - rewrite Hf. rewrite remove_files_other.
    + apply lookup_delete_eq.
    + right. unfold Fs.is_file. now rewrite lookup_delete_eq.
  - destruct Hin as [?|Hin]; [congruence|].
    destruct (Fs.is_file m p); apply IH; try assumption.
    unfold Fs.is_file in *. now rewrite lookup_delete_ne.
Qed.

(** A lookup after the cleaning loop: an entry is gone exactly when it was
    listed and was a regular file. *)
Lemma remove_files_lookup (items : list path) (m : gmap path node) (q : path) :
  remove_files items m !! q = None \/ remove_files items m !! q = m !! q.
Proof.
  destruct (Fs.is_file m q) eqn:Hf.
  - destruct (decide (q ∈ items)) as [Hin|Hin]; rewrite list_elem_of_In in Hin.
    + left. now apply remove_files_gone.
    + right. apply remove_files_other. now left.
  - right. apply remove_files_other. now right.
Qed.

Lemma clean_loop_run (items : list path) (w : world) :
  for_each items (fun item =>
    is_file ← path_is_file item;
    if is_file : bool then unlink item else mret tt) w
  = (Ok tt, World (remove_files items (fs w)) (open_docs w) (console w)).
Proof.
  revert w. induction items as [|p items IH]; intros w.
  - now destruct w.
  - cbn [for_each remove_files fold_left]. fold (remove_files items).
    rewrite bind_run, bind_run. unfold path_is_file at 1.
    destruct (Fs.is_file (fs w) p) eqn:Hp.
    + unfold unlink, Fs.is_file in *.
      destruct (fs w !! p) as [[c|]|]; try discriminate.
      rewrite IH. reflexivity.
    + rewrite ret_run, IH. reflexivity.
Qed.

Lemma add_dirs_lookup (dirs : list path) (m : gmap path node) (q : path) :
  add_dirs dirs m !! q = if bool_decide (q ∈ dirs) then Some Dir else m !! q.
Proof.
  induction dirs as [|p dirs IH]; [reflexivity|].
  cbn [add_dirs foldr]. fold (add_dirs dirs m).
  destruct (decide (p = q)) as [->|Hne].
  - rewrite lookup_insert_eq. rewrite bool_decide_eq_true_2; [reflexivity|left].
  - rewrite lookup_insert_ne by assumption. rewrite IH.
    destruct (decide (q ∈ dirs)) as [E|E].
    + rewrite !bool_decide_eq_true_2; [reflexivity|now right|assumption].
    + rewrite !bool_decide_eq_false_2; [reflexivity| |assumption].
      rewrite elem_of_cons. intros [?|?]; [congruence|tauto].
Qed.

Lemma mkdir_parents_run p w :
  mkdir_parents p w =
  match List.find (Fs.is_file (fs w)) (Fs.prefixes p) with
  | Some q =>
      (Raise (if bool_decide (q = p) then FileExistsError p else NotADirectoryError p), w)
  | None => (Ok tt, World (add_dirs (Fs.prefixes p) (fs w)) (open_docs w) (console w))
  end.
Proof. reflexivity. Qed.

Lemma find_none_iff {A} (f : A -> bool) l :
  List.find f l = None <-> forall x, In x l -> f x = false.
Proof.
  split; [apply List.find_none|].
  induction l as [|a l IH]; intros H; [reflexivity|]. cbn.
  rewrite (H a) by now left. apply IH. intros x Hx. apply H. now right.
Qed.

Lemma prefixes_snoc p n : Fs.prefixes (p ++ [n]) = Fs.prefixes p ++ [p ++ [n]].
Proof.
  unfold Fs.prefixes. rewrite length_app. cbn [length].
  rewrite Nat.add_1_r, seq_S, List.map_app. cbn [List.map]. f_equal.
  - apply List.map_ext_in. intros k Hk. apply in_seq in Hk.
    apply take_app_le. lia.
  - f_equal. replace (1 + length p)%nat with (length (p ++ [n])).
    + apply firstn_all.
    + rewrite length_app. cbn. lia.
Qed.

Lemma prefixes_self p : p <> [] -> In p (Fs.prefixes p).
Proof.
  destruct p as [|x p] using rev_ind; [congruence|]. intros _.
  rewrite prefixes_snoc. apply in_or_app. right. now left.
Qed.

Lemma prefixes_length p q : In q (Fs.prefixes p) -> (1 <= length q <= length p)%nat.
Proof.
  unfold Fs.prefixes. rewrite List.in_map_iff. intros [k [<- Hk]].
  apply in_seq in Hk. rewrite length_take. lia.
Qed.

Lemma is_empty_false {A} (p : list A) : p <> [] -> is_empty p = false.
Proof. now destruct p. Qed.

Lemma is_dir_lookup (m : gmap path node) (p : path) :
  p <> [] -> (Fs.is_dir m p = true <-> m !! p = Some Dir).
Proof.
  intros Hp. unfold Fs.is_dir. rewrite (is_empty_false p Hp). cbn [orb].
  destruct (m !! p) as [[c|]|]; split; intros H; try reflexivity; try discriminate H.
Qed.

Lemma snoc_not_nil {A} (p : list A) (n : A) : p ++ [n] <> [].
Proof. now destruct p. Qed.

(** In a tree, the ancestors of a directory are directories. *)
Lemma wf_ancestors (m : gmap path node) p :
  Fs.wf m -> Fs.is_dir m p = true ->
  forall q, In q (Fs.prefixes p) -> Fs.is_dir m q = true.
Proof.
  intros Hwf. induction p as [|n p IH] using rev_ind; intros Hd q Hq.
  - destruct Hq.
  - rewrite prefixes_snoc in Hq. apply in_app_or in Hq as [Hq|[<-|[]]]; [|assumption].
    apply IH; [|assumption].
    apply is_dir_lookup in Hd; [|apply snoc_not_nil].
    destruct (Hwf _ _ Hd) as [_ Hp]. now rewrite parent_app in Hp.
Qed.

Lemma is_dir_not_file (m : gmap path node) (p : path) :
  p <> [] -> Fs.is_dir m p = true -> Fs.is_file m p = false.
Proof.
  intros Hp Hd. apply is_dir_lookup in Hd; [|assumption].
  unfold Fs.is_file. now rewrite Hd.
Qed.

(** * The output folder, lines 100-111 *)

Lemma prepare_out_dir_run d ov w :
  prepare_out_dir d ov w =
  if Fs.exists_ (fs w) d then
    if ov then
      (Ok tt, World (remove_files (Fs.glob (fs w) d Star) (fs w)) (open_docs w) (console w))
    else (Raise (FileExistsError d), w)
  else mkdir_parents d w.
Proof.
  unfold prepare_out_dir. rewrite bind_run. unfold path_exists at 1.
  destruct (Fs.exists_ (fs w) d); [|reflexivity].
  destruct ov; cbn [negb]; [|reflexivity].
  rewrite bind_run. unfold path_glob at 1. apply clean_loop_run.
Qed.

(** After the cleaning, no regular file is left directly inside a folder
    that is a directory, and every other entry is as it was. *)
Lemma cleaned_lookup (m : gmap path node) d q :
  remove_files (Fs.glob m d Star) m !! q =
  if Fs.is_dir m d && Fs.is_child d q && Fs.is_file m q then None else m !! q.
Proof.
  destruct (Fs.is_dir m d && Fs.is_child d q && Fs.is_file m q) eqn:E.
  - apply andb_true_iff in E as [E Hf]. apply andb_true_iff in E as [Hd Hc].
    apply remove_files_gone; [|assumption].
    apply glob_In. repeat split; try assumption.
    unfold Fs.is_file in Hf. destruct (m !! q); [eauto|discriminate].
  - apply remove_files_other.
    destruct (Fs.is_file m q); [left|now right].
    rewrite andb_true_r in E. intros Hin. apply glob_In in Hin as (Hd & _ & Hc & _).
    rewrite Hd, Hc in E. discriminate.
Qed.

(** * The page loop, lines 123-142 *)

Lemma only_pages_written_refl d prefix quality w :
  only_pages_written d prefix quality w w.
Proof. intros q. now left. Qed.

Lemma only_pages_written_trans d prefix quality w1 w2 w3 :
  only_pages_written d prefix quality w1 w2 ->
  only_pages_written d prefix quality w2 w3 ->
  only_pages_written d prefix quality w1 w3.
Proof.
  intros H12 H23 q. destruct (H23 q) as [E|(i & img & Hq & Hw & Hn)].
  - rewrite E. apply H12.
  - right. exists i, img. repeat split; try assumption.
    destruct (H12 q) as [E|(_ & _ & _ & _ & Hn')]; [now rewrite <- E|assumption].
Qed.

Lemma write_file_run p c w :
  write_file p c w =
  if Fs.is_dir (fs w) p then (Raise (IsADirectoryError p), w)
  else if Fs.is_dir (fs w) (Path.parent p) then
    (Ok tt, World (<[p := File c]> (fs w)) (open_docs w) (console w))
  else if Fs.is_file (fs w) (Path.parent p) then (Raise (NotADirectoryError p), w)
  else (Raise (FileNotFoundError p), w).
Proof. reflexivity. Qed.

(** One turn of the loop, whatever its outcome. *)
Lemma save_page_run doc d prefix opts total acc i w :
  save_page doc d prefix opts total acc i w =
  match doc_pages doc !! i with
  | None => (Raise IndexError, w)
  | Some pg =>
      match get_pixmap pg (ConvertOptions.zoom opts) with
      | None => (Raise RenderError, w)
      | Some pix =>
          match maybe_resize (frombytes pix) (ConvertOptions.max_width opts) with
          | Raise e => (Raise e, w)
          | Ok img =>
              let out_file := page_path d prefix i in
              if Fs.is_dir (fs w) out_file then (Raise (IsADirectoryError out_file), w)
              else if Fs.is_dir (fs w) d then
                (Ok (acc ++ [out_file]),
                 World (<[out_file := File (Jpeg img (ConvertOptions.quality opts))]> (fs w))
                       (open_docs w)
                       (console w ++ [if (total =? 1)%nat then MsgPageOnly
                                      else MsgPage (i + 1) total (page_file_name prefix (i + 1))]))
              else if Fs.is_file (fs w) d then (Raise (NotADirectoryError out_file), w)
              else (Raise (FileNotFoundError out_file), w)
          end
      end
  end.
Proof.
  unfold save_page. rewrite bind_run. unfold doc_getitem at 1.
  destruct (doc_pages doc !! i) as [pg|]; [|reflexivity].
  rewrite bind_run. unfold render_page_to_pil at 1.
  destruct (get_pixmap pg (ConvertOptions.zoom opts)) as [pix|]; [|reflexivity].
  rewrite ret_run, bind_run. unfold lift at 1.
  destruct (maybe_resize (frombytes pix) (ConvertOptions.max_width opts)) as [img|e];
    [|reflexivity].
  rewrite joinpath_page_file_name. fold (page_path d prefix i).
  assert (Hpar : Path.parent (page_path d prefix i) = d) by apply parent_app.
  assert (Hname : Path.name (page_path d prefix i) = page_file_name prefix (i + 1))
    by apply name_app.
  rewrite bind_run. unfold image_save. rewrite write_file_run, !Hpar, Hname.
  destruct (Fs.is_dir (fs w) (page_path d prefix i)); [reflexivity|].
  destruct (Fs.is_dir (fs w) d).
  - rewrite bind_run. unfold print at 1. rewrite ret_run. reflexivity.
  - destruct (Fs.is_file (fs w) d); reflexivity.
Qed.

Lemma page_path_inj d prefix i j : page_path d prefix i = page_path d prefix j -> i = j.
Proof.
  unfold page_path. intros H. apply app_inv_head in H.
  injection H as H. apply page_file_name_inj in H. lia.
Qed.

Lemma save_page_changes doc d prefix opts total acc i w :
  only_pages_written d prefix (ConvertOptions.quality opts) w
    (snd (save_page doc d prefix opts total acc i w)) /\
  open_docs (snd (save_page doc d prefix opts total acc i w)) = open_docs w.
Proof.
  rewrite save_page_run.
  destruct (doc_pages doc !! i) as [pg|];
    [|split; [apply only_pages_written_refl|reflexivity]].
  destruct (get_pixmap pg _) as [pix|];
    [|split; [apply only_pages_written_refl|reflexivity]].
  destruct (maybe_resize _ _) as [img|e];
    [|split; [apply only_pages_written_refl|reflexivity]].
  cbv zeta.
  destruct (Fs.is_dir (fs w) (page_path d prefix i)) eqn:Hd;
    [split; [apply only_pages_written_refl|reflexivity]|].
  destruct (Fs.is_dir (fs w) d);
    [|destruct (Fs.is_file (fs w) d); split;
      solve [apply only_pages_written_refl|reflexivity]].
  split; [|reflexivity]. intros q. cbn [snd fs].
  destruct (decide (page_path d prefix i = q)) as [<-|Hne].
  - right. exists i, img. split; [reflexivity|]. split; [apply lookup_insert_eq|].
    intros Hq. apply is_dir_lookup in Hq; [congruence|apply snoc_not_nil].
  - left. now apply lookup_insert_ne.
Qed.

(** A loop keeps what each of its turns keeps. *)
Lemma for_fold_preserves {A B} (R : world -> world -> Prop)
    (body : B -> A -> M B) :
  (forall w, R w w) ->
  (forall w1 w2 w3, R w1 w2 -> R w2 w3 -> R w1 w3) ->
  (forall acc a w, R w (snd (body acc a w))) ->
  forall l acc w, R w (snd (for_fold l acc body w)).
Proof.
  intros Hrefl Htrans Hbody l. induction l as [|a l IH]; intros acc w.
  - apply Hrefl.
  - cbn [for_fold]. rewrite bind_run. specialize (Hbody acc a w).
    destruct (body acc a w) as [[acc'|e] w1]; cbn [snd] in *.
    + eapply Htrans; [exact Hbody|apply IH].
    + exact Hbody.
Qed.

Lemma page_loop_changes doc d prefix opts total l acc w :
  only_pages_written d prefix (ConvertOptions.quality opts) w
    (snd (for_fold l acc (save_page doc d prefix opts total) w)) /\
  open_docs (snd (for_fold l acc (save_page doc d prefix opts total) w)) = open_docs w.
Proof.
  apply (for_fold_preserves
           (fun w w' => only_pages_written d prefix (ConvertOptions.quality opts) w w'
                        /\ open_docs w' = open_docs w)).
  - intros w0. split; [apply only_pages_written_refl|reflexivity].
  - intros w1 w2 w3 [H1 E1] [H2 E2]. split; [|congruence].
    eapply only_pages_written_trans; eassumption.
  - intros acc0 a w0. apply save_page_changes.
Qed.

(** The loop when it runs to its end: every page was rasterised, resized and
    saved under its name, in order. *)
Lemma page_loop_ok doc d prefix opts total n :
  forall start acc w paths w',
  for_fold (seq start n) acc (save_page doc d prefix opts total) w = (Ok paths, w') ->
  paths = acc ++ List.map (page_path d prefix) (seq start n) /\
  open_docs w' = open_docs w /\
  (forall q, ~ In q (List.map (page_path d prefix) (seq start n)) ->
             fs w' !! q = fs w !! q) /\
  (forall i, (start <= i < start + n)%nat ->
     Fs.is_dir (fs w) d = true /\
     exists pg pix img,
       doc_pages doc !! i = Some pg /\
       get_pixmap pg (ConvertOptions.zoom opts) = Some pix /\
       maybe_resize (frombytes pix) (ConvertOptions.max_width opts) = Ok img /\
       fs w' !! page_path d prefix i
       = Some (File (Jpeg img (ConvertOptions.quality opts)))).
Proof.
  induction n as [|n IH]; intros start acc w paths w' H.
  - cbn in H. injection H as <- <-. rewrite app_nil_r.
    repeat split; try reflexivity; intros; lia.
  - cbn [seq for_fold] in H. rewrite bind_run, save_page_run in H.
    destruct (doc_pages doc !! start) as [pg|] eqn:Epg; [|discriminate].
    destruct (get_pixmap pg _) as [pix|] eqn:Epix; [|discriminate].
    destruct (maybe_resize _ _) as [img|e] eqn:Eimg; [|discriminate].
    cbv zeta in H.
    destruct (Fs.is_dir (fs w) (page_path d prefix start)) eqn:Hfile; [discriminate|].
    destruct (Fs.is_dir (fs w) d) eqn:Hdir;
      [|destruct (Fs.is_file (fs w) d); discriminate].
    apply IH in H as (Hp & Ho & Hframe & Hpages). cbn [fs open_docs] in *.
    assert (Hfresh : ~ In (page_path d prefix start)
                          (List.map (page_path d prefix) (seq (S start) n))).
    { rewrite List.in_map_iff. intros [j [Hj Hin]]. apply page_path_inj in Hj.
      apply in_seq in Hin. lia. }
    split; [|split; [|split]].
    + rewrite Hp, <- app_assoc. reflexivity.
    + exact Ho.
    + intros q Hq. cbn [List.map] in Hq.
      rewrite Hframe by (intros Hin; apply Hq; now right).
      apply lookup_insert_ne. intros E. apply Hq. now left.
    + intros i Hi. split; [reflexivity|].
      destruct (decide (i = start)) as [->|Hne].
      * exists pg, pix, img. repeat split; try assumption.
        rewrite Hframe by assumption. apply lookup_insert_eq.
      * destruct (Hpages i ltac:(lia)) as [_ Hex]. exact Hex.
Qed.

(** * [convert_pdf] *)

Lemma remove_first_head p l : remove_first p (p :: l) = l.
Proof. cbn. now rewrite bool_decide_eq_true_2. Qed.

(** [convert_pdf], outcome by outcome. *)
Lemma convert_pdf_run pdf out_root opts w :
  let d := Path.joinpath out_root (sanitize_name (Path.stem pdf) (py "document")) in
  let prefix := sanitize_name (ConvertOptions.prefix opts) (py "page") in
  convert_pdf pdf out_root opts w =
  match prepare_out_dir d (ConvertOptions.overwrite opts) w with
  | (Raise e, w1) => (Raise e, w1)
  | (Ok _, w1) =>
      match fs w1 !! pdf with
      | Some (File (Pdf pages)) =>
          if (length pages =? 0)%nat then
            (Raise (ValueError_no_pages pdf),
             World (fs w1) (open_docs w1) (console w1))
          else
            match for_fold (seq 0 (length pages)) []
                    (save_page {| doc_path := pdf; doc_pages := pages |} d prefix opts
                               (length pages))
                    (World (fs w1) (pdf :: open_docs w1)
                           (console w1 ++ [MsgDocument (Path.name pdf) (length pages)]))
            with
            | (Ok paths, w2) =>
                (Ok (d, paths),
                 World (fs w2) (remove_first pdf (open_docs w2)) (console w2))
            | (Raise e, w2) => (Raise e, w2)
            end
      | Some _ => (Raise (FileDataError pdf), w1)
      | None => (Raise (FileNotFoundError pdf), w1)
      end
  end.
Proof.
  intros d prefix. unfold convert_pdf. fold d. fold prefix.
  rewrite bind_run.
  destruct (prepare_out_dir d (ConvertOptions.overwrite opts) w) as [[[]|e] w1];
    [|reflexivity].
  rewrite bind_run. unfold fitz_open at 1.
  destruct (fs w1 !! pdf) as [[[data|pages|img q|entries]|]|]; try reflexivity.
  cbn [doc_pages].
  destruct (length pages =? 0)%nat.
  - rewrite bind_run. unfold doc_close at 1. cbn [doc_path open_docs fs console raise].
    unfold raise. now rewrite remove_first_head.
  - rewrite bind_run. unfold print at 1. cbn [fs open_docs console].
    rewrite bind_run.
    destruct (for_fold _ _ _ _) as [[paths|e] w2]; reflexivity.
Qed.

Lemma exists_false (m : gmap path node) (p : path) :
  Fs.exists_ m p = false -> p <> [] /\ m !! p = None.
Proof.
  unfold Fs.exists_. rewrite orb_false_iff, bool_decide_eq_false. intros [He Hn]. split.
  - intros ->. discriminate.
  - destruct (m !! p); [exfalso; apply Hn; eauto|reflexivity].
Qed.

Lemma is_dir_exists (m : gmap path node) (p : path) :
  Fs.is_dir m p = true -> Fs.exists_ m p = true.
Proof.
  unfold Fs.is_dir, Fs.exists_. destruct (is_empty p); [reflexivity|]. cbn [orb].
  destruct (m !! p) as [[c|]|]; try discriminate. intros _.
  apply bool_decide_eq_true. eauto.
Qed.

Lemma child_not_prefix d q : Fs.is_child d q = true -> ~ In q (Fs.prefixes d).
Proof.
  intros Hc Hin. apply is_child_iff in Hc as [n ->].
  apply prefixes_length in Hin. rewrite length_app in Hin. cbn in Hin. lia.
Qed.

Lemma is_child_irrefl d : Fs.is_child d d = false.
Proof.
  destruct (Fs.is_child d d) eqn:E; [|reflexivity].
  apply is_child_iff in E as [n E]. apply (f_equal length) in E.
  rewrite length_app in E. cbn in E. lia.
Qed.

(** What preparing the output folder can do to an entry: nothing, or delete
    a regular file directly inside the folder, or create a directory. *)
Lemma prepare_out_dir_ok d ov w w1 :
  prepare_out_dir d ov w = (Ok tt, w1) ->
  open_docs w1 = open_docs w /\ console w1 = console w /\
  (forall q, fs w1 !! q = fs w !! q \/
             (fs w1 !! q = None /\ Fs.is_file (fs w) q = true /\ Fs.is_child d q = true) \/
             (fs w1 !! q = Some Dir /\ fs w !! q = None)).
Proof.
  rewrite prepare_out_dir_run.
  destruct (Fs.exists_ (fs w) d).
  - destruct ov; [|discriminate]. intros H. injection H as <-. cbn [fs open_docs console].
    repeat split. intros q. rewrite cleaned_lookup.
    destruct (Fs.is_dir (fs w) d && Fs.is_child d q && Fs.is_file (fs w) q) eqn:E;
      [|now left].
    apply andb_true_iff in E as [E Hf]. apply andb_true_iff in E as [_ Hc].
    right. left. auto.
  - rewrite mkdir_parents_run.
    destruct (List.find _ _) eqn:Hfind; [discriminate|].
    intros H. injection H as <-. cbn [fs open_docs console]. repeat split. intros q.
    rewrite add_dirs_lookup. destruct (decide (q ∈ Fs.prefixes d)) as [Hin|Hin].
    + rewrite bool_decide_eq_true_2 by assumption.
      apply list_elem_of_In in Hin.
      pose proof (proj1 (find_none_iff _ _) Hfind q Hin) as Hf. unfold Fs.is_file in Hf.
      destruct (fs w !! q) as [[c|]|]; [discriminate|now left|right; right; auto].
    + rewrite bool_decide_eq_false_2 by assumption. now left.
Qed.

Lemma prepare_keeps_files d ov w w1 q c :
  prepare_out_dir d ov w = (Ok tt, w1) ->
  fs w1 !! q = Some (File c) -> fs w !! q = Some (File c).
Proof.
  intros H Hq. destruct (prepare_out_dir_ok _ _ _ _ H) as (_ & _ & Hc).
  destruct (Hc q) as [E|[[E _]|[E _]]]; congruence.
Qed.

Lemma prepare_keeps_document d ov w w1 pdf c :
  prepare_out_dir d ov w = (Ok tt, w1) ->
  fs w !! pdf = Some (File c) ->
  fs w1 !! pdf = Some (File c) \/ fs w1 !! pdf = None.
Proof.
  intros H Hq. destruct (prepare_out_dir_ok _ _ _ _ H) as (_ & _ & Hc).
  destruct (Hc pdf) as [E|[[E _]|[_ E]]]; [left|right|]; congruence.
Qed.

(** A folder that is a directory once prepared has no regular file directly
    inside it. *)
Lemma prepare_no_file_inside d ov w w1 q :
  Fs.wf (fs w) ->
  prepare_out_dir d ov w = (Ok tt, w1) ->
  Fs.is_dir (fs w1) d = true -> Fs.is_child d q = true ->
  Fs.is_file (fs w1) q = false.
Proof.
  intros Hwf H Hd Hc. rewrite prepare_out_dir_run in H.
  destruct (Fs.exists_ (fs w) d) eqn:Hex.
  - destruct ov; [|discriminate]. injection H as <-. cbn [fs] in *.
    unfold Fs.is_file. rewrite cleaned_lookup, Hc.
    destruct (Fs.is_dir (fs w) d) eqn:Hd0.
    + cbn [andb]. destruct (Fs.is_file (fs w) q) eqn:Hf; [reflexivity|exact Hf].
    + exfalso. unfold Fs.is_dir in Hd.
      rewrite cleaned_lookup, Hd0 in Hd. cbn [andb] in Hd.
      unfold Fs.is_dir in Hd0. congruence.
  - apply exists_false in Hex as [Hne Hnone].
    rewrite mkdir_parents_run in H. destruct (List.find _ _); [discriminate|].
    injection H as <-. cbn [fs] in *.
    unfold Fs.is_file. rewrite add_dirs_lookup.
    rewrite bool_decide_eq_false_2
      by (rewrite list_elem_of_In; now apply child_not_prefix).
    destruct (fs w !! q) as [[c|]|] eqn:Eq; try reflexivity.
    destruct (Hwf _ _ Eq) as [_ Hp].
    apply is_child_iff in Hc as [n ->]. rewrite parent_app in Hp.
    apply is_dir_lookup in Hp; [congruence|assumption].
Qed.

(** Once the folder is prepared, [convert_pdf] only writes page images. *)
Lemma convert_pdf_after_prepare pdf out_root opts w w1 :
  let d := Path.joinpath out_root (sanitize_name (Path.stem pdf) (py "document")) in
  let prefix := sanitize_name (ConvertOptions.prefix opts) (py "page") in
  prepare_out_dir d (ConvertOptions.overwrite opts) w = (Ok tt, w1) ->
  only_pages_written d prefix (ConvertOptions.quality opts) w1
    (snd (convert_pdf pdf out_root opts w)).
Proof.
  intros d prefix H. rewrite convert_pdf_run. fold d. fold prefix. rewrite H.
  destruct (fs w1 !! pdf) as [[[data|pages|img q|entries]|]|];
    try apply only_pages_written_refl.
  destruct (length pages =? 0)%nat; [intros q; now left|].
  match goal with
  | |- context [for_fold ?l ?acc ?body ?w0] =>
      destruct (page_loop_changes {| doc_path := pdf; doc_pages := pages |} d prefix opts
                  (length pages) l acc w0) as [Hw _];
      destruct (for_fold l acc body w0) as [[paths|e] w2]
  end; exact Hw.
Qed.

(** * The output folder that already exists *)

(** C3: when the output folder of a document already exists, then without
    [overwrite] the renderer raises [FileExistsError] and leaves the world as
    it was; with [overwrite] it first deletes every regular file directly
    inside the folder (the state [w1], in which every other entry is as
    before), and from there on only writes page images directly inside the
    folder: directories stay, and nothing that is not directly inside the
    folder is touched, whatever the outcome. *)
Theorem convert_pdf_existing_folder pdf out_root opts w :
  let d := Path.joinpath out_root (sanitize_name (Path.stem pdf) (py "document")) in
  let prefix := sanitize_name (ConvertOptions.prefix opts) (py "page") in
  Fs.exists_ (fs w) d = true ->
  (ConvertOptions.overwrite opts = false ->
   convert_pdf pdf out_root opts w = (Raise (FileExistsError d), w)) /\
  (ConvertOptions.overwrite opts = true ->
   let w' := snd (convert_pdf pdf out_root opts w) in
   exists w1,
     prepare_out_dir d true w = (Ok tt, w1) /\
     (forall q, fs w1 !! q =
                if Fs.is_dir (fs w) d && Fs.is_child d q && Fs.is_file (fs w) q
                then None else fs w !! q) /\
     only_pages_written d prefix (ConvertOptions.quality opts) w1 w' /\
     (forall q, fs w !! q = Some Dir -> fs w' !! q = Some Dir) /\
     (forall q, Fs.is_child d q = false -> fs w' !! q = fs w !! q)).
Proof.
  intros d prefix Hex. split; intros Hov.
  - rewrite convert_pdf_run. fold d. rewrite prepare_out_dir_run, Hex, Hov. reflexivity.
  - cbv zeta.
    assert (Hprep : prepare_out_dir d true w =
                    (Ok tt, World (remove_files (Fs.glob (fs w) d Star) (fs w))
                                  (open_docs w) (console w)))
      by (rewrite prepare_out_dir_run, Hex; reflexivity).
    eexists. split; [exact Hprep|].
    pose proof (convert_pdf_after_prepare pdf out_root opts w
                  (World (remove_files (Fs.glob (fs w) d Star) (fs w))
                         (open_docs w) (console w))) as Hafter.
    cbv zeta in Hafter. fold d prefix in Hafter. rewrite Hov in Hafter.
    specialize (Hafter Hprep).
    split; [intros q; apply cleaned_lookup|]. split; [exact Hafter|]. split.
    + intros q Hq. destruct (Hafter q) as [E|(i & img & _ & _ & Hn)].
      * rewrite E. cbn [fs]. rewrite cleaned_lookup.
        unfold Fs.is_file. rewrite Hq, andb_false_r. reflexivity.
      * exfalso. apply Hn. cbn [fs]. rewrite cleaned_lookup.
        unfold Fs.is_file. rewrite Hq, andb_false_r. reflexivity.
    + intros q Hc. destruct (Hafter q) as [E|(i & img & -> & _)].
      * rewrite E. cbn [fs]. rewrite cleaned_lookup, Hc, andb_false_r. reflexivity.
      * unfold page_path in Hc. rewrite is_child_app in Hc. discriminate.
Qed.

(** The theorem above at a re-run over a folder that holds an old image, a
    text file and a sub-folder. *)
Lemma convert_pdf_existing_folder_witness :
  let d := [py "out"; py "a"] in
  Fs.exists_ rerun_fs d = true /\
  convert_pdf [py "in"; py "a.pdf"] [py "out"] default_opts rerun_world
  = (Raise (FileExistsError d), rerun_world) /\
  fs (snd (convert_pdf [py "in"; py "a.pdf"] [py "out"] overwrite_opts rerun_world))
    !! [py "out"; py "a"; py "keep"; py "old.jpg"]
  = Some (File (Bytes [4%N])).
Proof.
  cbv zeta.
  assert (Hex : Fs.exists_ (fs rerun_world)
                  (Path.joinpath [py "out"]
                     (sanitize_name (Path.stem [py "in"; py "a.pdf"]) (py "document")))
                = true) by (vm_compute; reflexivity).
  split; [vm_compute; reflexivity|]. split.
  - apply (proj1 (convert_pdf_existing_folder [py "in"; py "a.pdf"] [py "out"]
                    default_opts rerun_world Hex)).
    reflexivity.
  - destruct (proj2 (convert_pdf_existing_folder [py "in"; py "a.pdf"] [py "out"]
                       overwrite_opts rerun_world Hex) eq_refl)
      as (w1 & _ & _ & _ & _ & Hout).
    rewrite Hout; [|vm_compute; reflexivity]. vm_compute. reflexivity.
Defined.

(** * One image per page *)

Lemma page_paths_NoDup d prefix n : List.NoDup (List.map (page_path d prefix) (seq 0 n)).
Proof.
  apply Finite.Injective_map_NoDup; [|apply seq_NoDup].
  intros i j. apply page_path_inj.
Qed.

(** C1: when [convert_pdf] returns for a document of N pages, N is at least
    1 and it returns the folder [out_root / stem] with the list of the N
    paths [out_dir / f"{prefix}_{i+1:03d}.jpg"], [i] from 0 to N-1 in order;
    the paths are pairwise distinct, the regular files directly inside the
    folder are exactly these, and the file of page [i] holds the JPEG of that
    page, rasterised and resized.  The page number is padded to three digits
    at least: 1 gives "001" and 150 gives "150". *)
Theorem convert_pdf_page_images pdf out_root opts w pages d paths w' :
  Fs.wf (fs w) ->
  fs w !! pdf = Some (File (Pdf pages)) ->
  convert_pdf pdf out_root opts w = (Ok (d, paths), w') ->
  let prefix := sanitize_name (ConvertOptions.prefix opts) (py "page") in
  (1 <= length pages)%nat /\
  d = Path.joinpath out_root (sanitize_name (Path.stem pdf) (py "document")) /\
  paths = List.map (fun i => Path.joinpath d (page_file_name prefix (i + 1)))
                   (seq 0 (length pages)) /\
  length paths = length pages /\
  List.NoDup paths /\
  (forall q, Fs.is_child d q = true -> (Fs.is_file (fs w') q = true <-> In q paths)) /\
  (forall i pg, pages !! i = Some pg ->
     exists pix img p,
       get_pixmap pg (ConvertOptions.zoom opts) = Some pix /\
       maybe_resize (frombytes pix) (ConvertOptions.max_width opts) = Ok img /\
       paths !! i = Some p /\
       Path.name p = prefix ++ py "_" ++ format_03d (N.of_nat (i + 1)) ++ py ".jpg" /\
       fs w' !! p = Some (File (Jpeg img (ConvertOptions.quality opts)))) /\
  (forall n, (3 <= length (format_03d n))%nat) /\
  format_03d 1 = py "001" /\ format_03d 150 = py "150".
Proof.
  intros Hwf Hdoc H prefix.
  rewrite convert_pdf_run in H. fold prefix in H.
  set (d0 := Path.joinpath out_root (sanitize_name (Path.stem pdf) (py "document"))) in *.
  destruct (prepare_out_dir d0 (ConvertOptions.overwrite opts) w) as [[[]|e] w1] eqn:Hprep;
    [|discriminate].
  destruct (prepare_keeps_document _ _ _ _ pdf _ Hprep Hdoc) as [E|E]; rewrite E in H;
    [|discriminate].
  destruct (length pages =? 0)%nat eqn:Hlen; [discriminate|].
  apply Nat.eqb_neq in Hlen.
  destruct (for_fold _ _ _ _) as [[paths0|e] w2] eqn:Hloop; [|discriminate].
  injection H as <- <- <-.
  apply page_loop_ok in Hloop as (Hp & Ho & Hframe & Hpages).
  cbn [fs open_docs console app] in *.
  assert (Hmap : List.map (fun i => Path.joinpath d0 (page_file_name prefix (i + 1)))
                          (seq 0 (length pages))
                 = List.map (page_path d0 prefix) (seq 0 (length pages))).
  { apply List.map_ext. intros i. apply joinpath_page_file_name. }
  rewrite Hmap, <- Hp.
  assert (Hdir : Fs.is_dir (fs w1) d0 = true).
  { destruct (Hpages 0%nat ltac:(lia)) as [Hd _]. exact Hd. }
  split; [lia|]. split; [reflexivity|]. split; [reflexivity|].
  split; [rewrite Hp, length_map, length_seq; reflexivity|].
  split; [rewrite Hp; apply page_paths_NoDup|].
  split; [|split; [|split; [apply format_03d_length|split; reflexivity]]].
  - intros q Hc. split.
    + intros Hf.
      destruct (decide (q ∈ paths0)) as [Hin|Hin]; [now apply list_elem_of_In|].
      exfalso. rewrite list_elem_of_In, Hp in Hin.
      unfold Fs.is_file in Hf. rewrite (Hframe q Hin) in Hf.
      pose proof (prepare_no_file_inside _ _ _ _ q Hwf Hprep Hdir Hc) as Hn.
      unfold Fs.is_file in Hn. congruence.
    + rewrite Hp, List.in_map_iff. intros [i [<- Hi]]. apply in_seq in Hi.
      destruct (Hpages i ltac:(lia)) as [_ (pg & pix & img & _ & _ & _ & Hq)].
      unfold Fs.is_file. now rewrite Hq.
  - intros i pg Hi.
    assert (Hlt : (i < length pages)%nat) by (eapply lookup_lt_Some; eassumption).
    destruct (Hpages i ltac:(lia)) as [_ (pg' & pix & img & Hpg & Hpix & Himg & Hq)].
    cbn [doc_pages] in Hpg. rewrite Hi in Hpg. injection Hpg as <-.
    exists pix, img, (page_path d0 prefix i). repeat split; try assumption.
    + rewrite Hp. rewrite list_lookup_fmap, lookup_seq_lt by assumption. reflexivity.
    + unfold page_path. rewrite name_app. reflexivity.
Qed.

(** The theorem above at a document of two pages. *)
Lemma convert_pdf_page_images_witness :
  exists paths w',
    convert_pdf [py "in"; py "a.pdf"] [py "out"] default_opts two_page_world
    = (Ok ([py "out"; py "a"], paths), w') /\
    paths = [[py "out"; py "a"; py "page_001.jpg"]; [py "out"; py "a"; py "page_002.jpg"]] /\
    List.NoDup paths /\
    (forall q, Fs.is_child [py "out"; py "a"] q = true ->
               (Fs.is_file (fs w') q = true <-> In q paths)).
Proof.
  eexists. eexists. split; [vm_compute; reflexivity|]. split; [reflexivity|].
  assert (Hwf : Fs.wf (fs two_page_world))
    by (apply (bool_decide_unpack (Fs.wf two_page_fs)); vm_compute; exact I).
  assert (Hdoc : fs two_page_world !! [py "in"; py "a.pdf"]
                 = Some (File (Pdf [sample_page 2000 1000; sample_page 100 50])))
    by (vm_compute; reflexivity).
  match goal with
  | |- List.NoDup ?ps /\ (forall q, _ -> (Fs.is_file (fs ?w1) q = true <-> _)) =>
      assert (Hrun : convert_pdf [py "in"; py "a.pdf"] [py "out"] default_opts
                       two_page_world
                     = (Ok ([py "out"; py "a"], ps), w1)) by (vm_compute; reflexivity);
      destruct (convert_pdf_page_images _ _ _ _ _ _ _ _ Hwf Hdoc Hrun)
        as (_ & _ & _ & _ & Hnd & Hfiles & _)
  end.
  split; [exact Hnd|exact Hfiles].
Defined.

(** * The document without pages *)

Lemma is_file_none (m : gmap path node) (p : path) :
  m !! p = None -> Fs.is_file m p = false.
Proof. unfold Fs.is_file. now intros ->. Qed.

Lemma mkdir_parents_fresh (m : gmap path node) out_root n :
  Fs.wf m -> Fs.is_dir m out_root = true -> m !! (out_root ++ [n]) = None ->
  List.find (Fs.is_file m) (Fs.prefixes (out_root ++ [n])) = None.
Proof.
  intros Hwf Hd Hn. apply find_none_iff. intros q Hq.
  rewrite prefixes_snoc in Hq. apply in_app_or in Hq as [Hq|[<-|[]]].
  - apply is_dir_not_file.
    + apply prefixes_length in Hq. intros ->. cbn in Hq. lia.
    + now apply (wf_ancestors m out_root).
  - apply is_file_none. exact Hn.
Qed.

Lemma joinpath_cases p n : Path.joinpath p n = p \/ Path.joinpath p n = p ++ [n].
Proof.
  unfold Path.joinpath.
  destruct (bool_decide (n = []) || bool_decide (n = py ".")); auto.
Qed.

(** C6, amended: for a document without pages whose folder name (the
    sanitised stem) is not [".."], in a tree where the output root is a
    directory.  If the output folder does not exist yet, [convert_pdf]
    raises the "no pages" error, with the document handle closed again and
    nothing printed, and the file system afterwards is the one before with
    the output folder added as a directory: no file is written, changed or
    deleted, and the folder is left behind.  If the folder exists,
    [overwrite] is set and the document is not a file directly inside the
    folder, [convert_pdf] raises the same error, with the handle closed and
    nothing printed, and the file system afterwards is the one before
    without the regular files directly inside the folder, which the
    cleaning of lines 106-109 has deleted: no file is written, and the
    folder still exists. *)
Theorem convert_pdf_empty_document pdf out_root opts w :
  let name := sanitize_name (Path.stem pdf) (py "document") in
  let d := Path.joinpath out_root name in
  Fs.wf (fs w) ->
  Fs.is_dir (fs w) out_root = true ->
  name <> py ".." ->
  fs w !! pdf = Some (File (Pdf [])) ->
  (Fs.exists_ (fs w) d = false ->
   exists w',
     convert_pdf pdf out_root opts w = (Raise (ValueError_no_pages pdf), w') /\
     open_docs w' = open_docs w /\
     console w' = console w /\
     (forall q, fs w' !! q = if bool_decide (q = d) then Some Dir else fs w !! q) /\
     Fs.exists_ (fs w') d = true) /\
  (Fs.exists_ (fs w) d = true ->
   ConvertOptions.overwrite opts = true ->
   Fs.is_child d pdf = false ->
   exists w',
     convert_pdf pdf out_root opts w = (Raise (ValueError_no_pages pdf), w') /\
     open_docs w' = open_docs w /\
     console w' = console w /\
     (forall q, fs w' !! q =
                if Fs.is_dir (fs w) d && Fs.is_child d q && Fs.is_file (fs w) q
                then None else fs w !! q) /\
     Fs.exists_ (fs w') d = true).
Proof.
  intros name d Hwf Hroot Hname Hdoc. split.
  - intros Hex.
    destruct (exists_false _ _ Hex) as [Hne Hnone].
    destruct (joinpath_cases out_root name) as [E|E]; fold d in E.
    { rewrite E, (is_dir_exists _ _ Hroot) in Hex. discriminate. }
    assert (Hlook : forall q, add_dirs (Fs.prefixes d) (fs w) !! q
                              = if bool_decide (q = d) then Some Dir else fs w !! q).
    { intros q. rewrite add_dirs_lookup.
      destruct (decide (q = d)) as [Eq|Hq].
      - rewrite Eq. rewrite (bool_decide_eq_true_2 (d ∈ Fs.prefixes d))
          by (apply list_elem_of_In, prefixes_self; assumption).
        rewrite bool_decide_eq_true_2; reflexivity.
      - rewrite (bool_decide_eq_false_2 (q = d)) by assumption.
        destruct (decide (q ∈ Fs.prefixes d)) as [Hin|Hin].
        + rewrite bool_decide_eq_true_2 by assumption.
          apply list_elem_of_In in Hin. rewrite E, prefixes_snoc in Hin.
          apply in_app_or in Hin as [Hin|[Hin|[]]].
          * apply (wf_ancestors _ _ Hwf Hroot) in Hin as Hd.
            apply is_dir_lookup in Hd; [congruence|].
            apply prefixes_length in Hin. intros ->. cbn in Hin. lia.
          * rewrite <- E in Hin. congruence.
        + rewrite bool_decide_eq_false_2 by assumption. reflexivity. }
    assert (Hprep : prepare_out_dir d (ConvertOptions.overwrite opts) w
                    = (Ok tt, World (add_dirs (Fs.prefixes d) (fs w))
                                    (open_docs w) (console w))).
    { rewrite prepare_out_dir_run, Hex, mkdir_parents_run, E.
      rewrite (mkdir_parents_fresh (fs w) out_root _ Hwf Hroot)
        by (rewrite <- E; exact Hnone).
      reflexivity. }
    assert (Hpdf : add_dirs (Fs.prefixes d) (fs w) !! pdf = Some (File (Pdf []))).
    { rewrite Hlook. destruct (decide (pdf = d)) as [Eq|Hq];
        [rewrite Eq in Hdoc; congruence|].
      rewrite bool_decide_eq_false_2 by assumption. exact Hdoc. }
    rewrite convert_pdf_run. fold name d. rewrite Hprep. cbn [fs].
    rewrite Hpdf. cbn [length Nat.eqb].
    eexists. split; [reflexivity|]. cbn [fs open_docs console].
    split; [reflexivity|]. split; [reflexivity|]. split; [exact Hlook|].
    unfold Fs.exists_. rewrite Hlook.
    rewrite (bool_decide_eq_true_2 (d = d)) by reflexivity.
    rewrite (bool_decide_eq_true_2 (is_Some (Some Dir))) by eauto.
    apply orb_true_r.
  - intros Hex Hov Hc.
    assert (Hprep : prepare_out_dir d (ConvertOptions.overwrite opts) w
                    = (Ok tt, World (remove_files (Fs.glob (fs w) d Star) (fs w))
                                    (open_docs w) (console w)))
      by (rewrite prepare_out_dir_run, Hex, Hov; reflexivity).
    assert (Hpdf : remove_files (Fs.glob (fs w) d Star) (fs w) !! pdf
                   = Some (File (Pdf [])))
      by (rewrite cleaned_lookup, Hc, andb_false_r; exact Hdoc).
    rewrite convert_pdf_run. fold name d. rewrite Hprep. cbn [fs].
    rewrite Hpdf. cbn [length Nat.eqb].
    eexists. split; [reflexivity|]. cbn [fs open_docs console].
    split; [reflexivity|]. split; [reflexivity|].
    split; [intros q; apply cleaned_lookup|].
    unfold Fs.exists_ in *. rewrite cleaned_lookup, is_child_irrefl, andb_false_r.
    exact Hex.
Qed.

(** The theorem above at a first run over the empty document, and at a run
    with [overwrite] over its folder, which holds a text file. *)
Lemma convert_pdf_empty_document_witness :
  (exists w',
     convert_pdf [py "in"; py "empty.pdf"] [py "out"] default_opts empty_doc_world
     = (Raise (ValueError_no_pages [py "in"; py "empty.pdf"]), w') /\
     open_docs w' = [] /\
     fs w' !! [py "out"; py "empty"] = Some Dir /\
     fs w' !! [py "in"; py "empty.pdf"] = Some (File (Pdf []))) /\
  (exists w',
     convert_pdf [py "in"; py "empty.pdf"] [py "out"] overwrite_opts empty_rerun_world
     = (Raise (ValueError_no_pages [py "in"; py "empty.pdf"]), w') /\
     open_docs w' = [] /\
     fs w' !! [py "out"; py "empty"; py "notes.txt"] = None /\
     fs w' !! [py "out"; py "empty"] = Some Dir).
Proof.
  split.
  - destruct (convert_pdf_empty_document [py "in"; py "empty.pdf"] [py "out"]
                default_opts empty_doc_world) as [H1 _].
    + apply (bool_decide_unpack (Fs.wf empty_doc_fs)). vm_compute. exact I.
    + vm_compute. reflexivity.
    + vm_compute. discriminate.
    + vm_compute. reflexivity.
    + destruct H1 as (w' & Hrun & Ho & _ & Hfs & _); [vm_compute; reflexivity|].
      exists w'. split; [exact Hrun|]. split; [exact Ho|].
      rewrite !Hfs. split; vm_compute; reflexivity.
  - destruct (convert_pdf_empty_document [py "in"; py "empty.pdf"] [py "out"]
                overwrite_opts empty_rerun_world) as [_ H2].
    + apply (bool_decide_unpack (Fs.wf empty_rerun_fs)). vm_compute. exact I.
    + vm_compute. reflexivity.
    + vm_compute. discriminate.
    + vm_compute. reflexivity.
    + destruct H2 as (w' & Hrun & Ho & _ & Hfs & _);
        [vm_compute; reflexivity|reflexivity|vm_compute; reflexivity|].
      exists w'. split; [exact Hrun|]. split; [exact Ho|].
      rewrite !Hfs. split; vm_compute; reflexivity.
Defined.

(** C6 as stated fails at the second run over the same empty document: the
    first run leaves the output folder behind, so the second one stops at
    the folder that exists and raises [FileExistsError], not the "no pages"
    error. *)
Lemma convert_pdf_empty_document_second_run :
  let pdf := [py "in"; py "empty.pdf"] in
  let first := convert_pdf pdf [py "out"] default_opts empty_doc_world in
  let second := convert_pdf pdf [py "out"] default_opts (snd first) in
  fst first = Raise (ValueError_no_pages pdf) /\
  fs (snd first) !! pdf = Some (File (Pdf [])) /\
  fst second = Raise (FileExistsError [py "out"; py "empty"]) /\
  fst second <> Raise (ValueError_no_pages pdf).
Proof. vm_compute. repeat split; try reflexivity. discriminate. Qed.

(** * The document handle *)

(** On the normal return (line 144) no handle of this call is left open;
    the "no pages" path (line 116) is part of the theorem on documents
    without pages. *)
Lemma convert_pdf_closes_on_return pdf out_root opts w v w' :
  convert_pdf pdf out_root opts w = (Ok v, w') ->
  open_docs w' = open_docs w.
Proof.
  rewrite convert_pdf_run.
  set (d := Path.joinpath out_root (sanitize_name (Path.stem pdf) (py "document"))).
  destruct (prepare_out_dir d (ConvertOptions.overwrite opts) w) as [[[]|e] w1] eqn:Hprep;
    [|discriminate].
  destruct (prepare_out_dir_ok _ _ _ _ Hprep) as (Ho & _ & _).
  destruct (fs w1 !! pdf) as [[[data|pages|img q|entries]|]|]; try discriminate.
  destruct (length pages =? 0)%nat; [discriminate|].
  destruct (for_fold _ _ _ _) as [[paths|e] w2] eqn:Hloop; [|discriminate].
  intros H. injection H as <- <-. cbn [open_docs].
  apply page_loop_ok in Hloop as (_ & Ho2 & _). rewrite Ho2. cbn [open_docs].
  now rewrite remove_first_head.
Qed.

(** C9, at a re-run with [overwrite] over a folder that holds a sub-folder
    named like the first page image: saving page 1 raises
    [IsADirectoryError], the exception leaves [convert_pdf], and the
    document handle that was opened is still open. *)
Theorem convert_pdf_leaves_handle_open :
  let pdf := [py "in"; py "a.pdf"] in
  let run := convert_pdf pdf [py "out"] overwrite_opts blocked_world in
  open_docs blocked_world = [] /\
  fst run = Raise (IsADirectoryError [py "out"; py "a"; py "page_001.jpg"]) /\
  open_docs (snd run) = [pdf].
Proof. vm_compute. repeat split; reflexivity. Qed.

(** * [make_zip] *)

Lemma world_eta w : World (fs w) (open_docs w) (console w) = w.
Proof. now destruct w. Qed.

Lemma zip_loop_run zip_path files :
  forall entries w,
  fs w !! zip_path = Some (File (Zip entries)) ->
  (forall f, In f files -> Fs.is_file (fs w) f = true /\ f <> zip_path) ->
  exists added,
    for_each files (fun f => zf_write zip_path f (Path.name f)) w
    = (Ok tt, World (<[zip_path := File (Zip (entries ++ added))]> (fs w))
                    (open_docs w) (console w)) /\
    Forall2 (fun f e => f <> zip_path /\ e.1 = Path.name f /\
                        fs w !! f = Some (File e.2)) files added.
Proof.
  induction files as [|f files IH]; intros entries w Hzip Hfiles.
  - exists []. split; [|constructor]. cbn [for_each].
    rewrite app_nil_r, insert_id by assumption. now rewrite world_eta.
  - destruct (Hfiles f ltac:(now left)) as [Hf Hne].
    unfold Fs.is_file in Hf. destruct (fs w !! f) as [[c|]|] eqn:Ef; try discriminate.
    cbn [for_each]. rewrite bind_run. unfold zf_write at 1. rewrite Hzip, Ef.
    destruct (IH (entries ++ [(Path.name f, c)])
                 (set_fs (<[zip_path := File (Zip (entries ++ [(Path.name f, c)]))]>) w))
      as (added & Hrun & Hall).
    + cbn [set_fs fs]. apply lookup_insert_eq.
    + intros f' Hf'. destruct (Hfiles f' ltac:(now right)) as [Hf'1 Hf'2].
      split; [|assumption]. cbn [set_fs fs]. unfold Fs.is_file in *.
      now rewrite lookup_insert_ne.
    + exists ((Path.name f, c) :: added). split.
      * rewrite Hrun. cbn [set_fs fs open_docs console].
        rewrite insert_insert_eq, <- app_assoc. reflexivity.
      * constructor; [auto|].
        eapply Forall2_impl; [exact Hall|].
        intros f' e (Hn & He & Hl). cbn [set_fs fs] in Hl.
        rewrite lookup_insert_ne in Hl by congruence. auto.
Qed.

Lemma parent_neq (p : path) : p <> [] -> Path.parent p <> p.
Proof.
  intros Hp E. apply (f_equal length) in E.
  destruct (List.exists_last Hp) as (q & n & ->).
  rewrite parent_app, length_app in E. cbn in E. lia.
Qed.

Lemma make_zip_halves zip_path files w :
  make_zip zip_path files w
  = (make_zip_delete_old zip_path ;; make_zip_write zip_path files) w.
Proof.
  unfold make_zip, make_zip_delete_old, make_zip_write.
  rewrite !bind_run. unfold path_exists at 1 2. cbv beta iota.
  rewrite !bind_run.
  destruct ((if Fs.exists_ (fs w) zip_path then unlink zip_path else mret tt) w)
    as [[[]|e] w1]; reflexivity.
Qed.

(** C8, amended.  In every world, [make_zip] is its two halves one after
    the other: first the deletion of lines 150-151, then the writing of
    lines 152-154.  For an archive path that is not a directory and lies in
    a directory, and a list of regular files other than the archive itself:
    the first half deletes what is at the archive path, so that in the world
    [w0] it leaves there is no entry at that path, and nothing else has
    changed; the second half, run from [w0], writes the archive there and
    changes nothing else; [make_zip] returns the archive path; the archive
    holds one entry per file of the list, in the order of the list, named by
    the file's base name and holding the file's data, and nothing of what
    was at the archive path before. *)
Theorem make_zip_archive zip_path files :
  (forall w,
     make_zip zip_path files w
     = (make_zip_delete_old zip_path ;; make_zip_write zip_path files) w) /\
  forall w,
  Fs.is_dir (fs w) zip_path = false ->
  Fs.is_dir (fs w) (Path.parent zip_path) = true ->
  (forall f, In f files -> Fs.is_file (fs w) f = true /\ f <> zip_path) ->
  let w0 := World (delete zip_path (fs w)) (open_docs w) (console w) in
  make_zip_delete_old zip_path w = (Ok tt, w0) /\
  fs w0 !! zip_path = None /\
  exists entries,
    make_zip_write zip_path files w0
    = (Ok zip_path,
       World (<[zip_path := File (Zip entries)]> (fs w0)) (open_docs w) (console w)) /\
    make_zip zip_path files w
    = (Ok zip_path,
       World (<[zip_path := File (Zip entries)]> (delete zip_path (fs w)))
             (open_docs w) (console w)) /\
    Forall2 (fun f e => e.1 = Path.name f /\ fs w !! f = Some (File e.2)) files entries /\
    List.map fst entries = List.map Path.name files.
Proof.
  split; [intros w; apply make_zip_halves|].
  intros w Hnd Hpar Hfiles w0.
  assert (Hne : zip_path <> []) by (intros ->; discriminate).
  (* the state once an old archive is deleted *)
  assert (Hdel : make_zip_delete_old zip_path w = (Ok tt, w0)).
  { unfold make_zip_delete_old. rewrite bind_run. unfold path_exists at 1. cbv beta iota.
    destruct (Fs.exists_ (fs w) zip_path) eqn:Hex.
    - unfold unlink. unfold Fs.exists_ in Hex. rewrite (is_empty_false _ Hne) in Hex.
      cbn [orb] in Hex. apply bool_decide_eq_true in Hex as [n Hn].
      rewrite Hn. destruct n as [c|]; [reflexivity|].
      apply is_dir_lookup in Hn; [congruence|assumption].
    - apply exists_false in Hex as [_ Hn]. rewrite ret_run. subst w0.
      rewrite delete_id by assumption. now rewrite world_eta. }
  assert (Hcreate : zipfile_create zip_path w0
                    = (Ok tt, World (<[zip_path := File (Zip [])]> (fs w0))
                                    (open_docs w0) (console w0))).
  { unfold zipfile_create. rewrite write_file_run.
    assert (E1 : Fs.is_dir (fs w0) zip_path = false).
    { unfold Fs.is_dir. rewrite (is_empty_false _ Hne). cbn [orb fs w0].
      now rewrite lookup_delete_eq. }
    assert (E2 : Fs.is_dir (fs w0) (Path.parent zip_path) = true).
    { unfold Fs.is_dir in *. cbn [fs w0].
      rewrite lookup_delete_ne by (intros E; symmetry in E; now apply parent_neq in E).
      exact Hpar. }
    now rewrite E1, E2. }
  destruct (zip_loop_run zip_path files []
              (World (<[zip_path := File (Zip [])]> (fs w0)) (open_docs w0) (console w0)))
    as (entries & Hloop & Hall).
  { cbn [fs]. apply lookup_insert_eq. }
  { intros f Hf. destruct (Hfiles f Hf) as [Hf1 Hf2]. split; [|assumption].
    cbn [fs w0]. unfold Fs.is_file in *.
    rewrite lookup_insert_ne, lookup_delete_ne by congruence. exact Hf1. }
  assert (Hwrite : make_zip_write zip_path files w0
                   = (Ok zip_path,
                      World (<[zip_path := File (Zip entries)]> (fs w0))
                            (open_docs w) (console w))).
  { unfold make_zip_write. rewrite bind_run, Hcreate, bind_run, Hloop, ret_run.
    cbn [fs open_docs console w0 app]. now rewrite insert_insert_eq. }
  split; [exact Hdel|]. split; [apply lookup_delete_eq|].
  exists entries. split; [exact Hwrite|]. split; [|split].
  - rewrite make_zip_halves, bind_run, Hdel. exact Hwrite.
  - eapply Forall2_impl; [exact Hall|]. intros f e (Hn & He & Hl). split; [assumption|].
    cbn [fs w0] in Hl. rewrite lookup_insert_ne, lookup_delete_ne in Hl by congruence.
    exact Hl.
  - clear - Hall. induction Hall as [|f e files' entries' (_ & He & _) _ IH];
      [reflexivity|]. cbn [List.map]. rewrite He. f_equal. exact IH.
Qed.

(** The theorem above at an output folder that holds the archive of an
    earlier run: the first half deletes that archive, and the new archive
    holds the two files of the list, not the member [old.jpg]. *)
Lemma make_zip_archive_witness :
  let zip_path := [py "out"; py "a"; py "a_images.zip"] in
  let files := [[py "out"; py "a"; py "page_007.jpg"]; [py "out"; py "a"; py "notes.txt"]] in
  fs old_archive_world !! zip_path = Some (File (Zip [(py "old.jpg", Bytes [9%N])])) /\
  fs (snd (make_zip_delete_old zip_path old_archive_world)) !! zip_path = None /\
  make_zip zip_path files old_archive_world
  = (Ok zip_path,
     World (<[zip_path := File (Zip [(py "page_007.jpg", Bytes [1%N; 2%N]);
                                     (py "notes.txt", Bytes [3%N])])]>
              (delete zip_path old_archive_fs)) [] []).
Proof.
  cbv zeta.
  destruct (proj2 (make_zip_archive [py "out"; py "a"; py "a_images.zip"]
              [[py "out"; py "a"; py "page_007.jpg"]; [py "out"; py "a"; py "notes.txt"]])
              old_archive_world)
    as (Hdel & Hgone & entries & _ & Hrun & Hall & _).
  - vm_compute. reflexivity.
  - vm_compute. reflexivity.
  - intros f [<-|[<-|[]]]; (split; [vm_compute; reflexivity|discriminate]).
  - split; [vm_compute; reflexivity|]. split.
    + rewrite Hdel. exact Hgone.
    + etransitivity; [exact Hrun|].
      inversion Hall as [|f1 e1 l1 r1 (N1 & D1) Hall1]; subst.
      inversion Hall1 as [|f2 e2 l2 r2 (N2 & D2) Hall2]; subst.
      inversion Hall2; subst.
      destruct e1 as [n1 c1], e2 as [n2 c2]. cbn [fst snd] in *.
      vm_compute in N1, N2, D1, D2.
      injection D1 as <-. injection D2 as <-. subst n1 n2. reflexivity.
Defined.

(** C8 as stated fails at a list with a file that does not exist, and at an
    archive path that is a directory.  In the tree with the old archive and
    the list [page_007.jpg], [gone.jpg], [notes.txt], [make_zip] raises
    [FileNotFoundError] and the archive it leaves holds [page_007.jpg]
    alone.  Where the archive path is a directory, [make_zip] raises
    [IsADirectoryError] and neither deletes nor creates anything. *)
Lemma make_zip_not_every_list_or_path :
  (let zip_path := [py "out"; py "a"; py "a_images.zip"] in
   let gone := [py "out"; py "a"; py "gone.jpg"] in
   let files := [[py "out"; py "a"; py "page_007.jpg"]; gone;
                 [py "out"; py "a"; py "notes.txt"]] in
   let run := make_zip zip_path files old_archive_world in
   fst run = Raise (FileNotFoundError gone) /\
   fs (snd run) !! zip_path = Some (File (Zip [(py "page_007.jpg", Bytes [1%N; 2%N])]))) /\
  (let zip_path := [py "out"; py "a"; py "a_images.zip"] in
   let files := [[py "out"; py "a"; py "page_001.jpg"]; [py "out"; py "a"; py "page_002.jpg"]] in
   make_zip zip_path files zip_blocked_world
   = (Raise (IsADirectoryError zip_path), zip_blocked_world)).
Proof. split; [vm_compute; split; reflexivity|vm_compute; reflexivity]. Qed.

(** * [main] *)

Lemma for_each_total {A} (body : A -> M unit) :
  (forall a w, fst (body a w) = Ok tt) ->
  forall l w, for_each l body w = (Ok tt, fold_left (fun w' a => snd (body a w')) l w).
Proof.
  intros Hbody l. induction l as [|a l IH]; intros w; [reflexivity|].
  cbn [for_each fold_left]. rewrite bind_run. specialize (Hbody a w).
  destruct (body a w) as [[[]|e] w1]; cbn [fst snd] in *; [apply IH|discriminate].
Qed.

(** The [except Exception] of line 252 catches whatever the body raises. *)
Lemma process_pdf_total pdf out_root opts w : fst (process_pdf pdf out_root opts w) = Ok tt.
Proof.
  unfold process_pdf, try_except.
  match goal with
  | |- fst (match ?body with _ => _ end) = _ => destruct body as [[[]|e] w1]
  end; reflexivity.
Qed.

(** [main], outcome by outcome. *)
Lemma main_run args w :
  main args w =
  match List.find (Fs.is_file (fs w)) (Fs.prefixes (Args.out args)) with
  | Some q =>
      (Raise (if bool_decide (q = Args.out args) then FileExistsError (Args.out args)
              else NotADirectoryError (Args.out args)), w)
  | None =>
      let w1 := with_output_root args w in
      if negb ((30 <=? Args.quality args) && (Args.quality args <=? 95)) then
        (Ok 2, World (fs w1) (open_docs w1) (console w1 ++ [MsgBadQuality]))
      else
        match fst (iter_pdfs (Args.input args) w1) with
        | Raise e => (Raise e, w1)
        | Ok pdfs =>
            if is_empty pdfs then
              (Ok 1, World (fs w1) (open_docs w1) (console w1 ++ [MsgNoPdfs]))
            else
              (Ok 0, snd (print MsgDone (batch_run args pdfs (batch_start args w))))
        end
  end.
Proof.
  unfold main. rewrite bind_run, mkdir_parents_run.
  destruct (List.find _ _); [reflexivity|]. cbv zeta.
  fold (with_output_root args w).
  destruct (negb _); [reflexivity|].
  rewrite bind_run.
  pose proof (iter_pdfs_run (Args.input args) (with_output_root args w)) as E.
  destruct (iter_pdfs (Args.input args) (with_output_root args w)) as [r w2].
  injection E as _ ->. cbn [fst].
  destruct r as [[|pdf pdfs]|e]; [reflexivity| |reflexivity].
    cbn [is_empty]. rewrite bind_run. unfold print at 1. rewrite bind_run.
    unfold print at 1. cbn [fs open_docs console with_output_root].
    rewrite bind_run, for_each_total by (intros; apply process_pdf_total).
    rewrite bind_run. unfold batch_run, batch_start, main_opts.
    rewrite <- app_assoc. reflexivity.
Qed.

Lemma quality_check q : negb ((30 <=? q) && (q <=? 95)) = false <-> 30 <= q <= 95.
Proof.
  rewrite negb_false_iff, andb_true_iff, !Z.leb_le. tauto.
Qed.

Lemma quality_check_fails q : ~ 30 <= q <= 95 -> negb ((30 <=? q) && (q <=? 95)) = true.
Proof.
  intros H. destruct (negb _) eqn:E; [reflexivity|]. now apply quality_check in E.
Qed.

Lemma batch_run_app args pdfs1 pdfs2 w :
  batch_run args (pdfs1 ++ pdfs2) w = batch_run args pdfs2 (batch_run args pdfs1 w).
Proof. unfold batch_run. apply fold_left_app. Qed.

(** C10, amended: a run with a quality outside 30..95, whose output root
    can be created (no regular file lies at its path or at a directory
    above it), returns 2 after printing the quality message, and the only
    change to the file system is that the output root and its missing
    parents are now directories: every entry that existed is as it was. *)
Theorem main_bad_quality_creates_output_root args w :
  ~ 30 <= Args.quality args <= 95 ->
  List.find (Fs.is_file (fs w)) (Fs.prefixes (Args.out args)) = None ->
  exists m,
    main args w = (Ok 2, World m (open_docs w) (console w ++ [MsgBadQuality])) /\
    Fs.is_dir m (Args.out args) = true /\
    (forall q, In q (Fs.prefixes (Args.out args)) -> m !! q = Some Dir) /\
    (forall q, ~ In q (Fs.prefixes (Args.out args)) -> m !! q = fs w !! q) /\
    (forall q n, fs w !! q = Some n -> m !! q = Some n).
Proof.
  intros Hq Hfind. exists (add_dirs (Fs.prefixes (Args.out args)) (fs w)).
  assert (Hin : forall q, In q (Fs.prefixes (Args.out args)) ->
                add_dirs (Fs.prefixes (Args.out args)) (fs w) !! q = Some Dir).
  { intros q Hin. rewrite add_dirs_lookup.
    now rewrite bool_decide_eq_true_2 by (now apply list_elem_of_In). }
  assert (Hout : forall q, ~ In q (Fs.prefixes (Args.out args)) ->
                 add_dirs (Fs.prefixes (Args.out args)) (fs w) !! q = fs w !! q).
  { intros q Hnin. rewrite add_dirs_lookup.
    now rewrite bool_decide_eq_false_2 by (now rewrite list_elem_of_In). }
  split; [|split; [|split; [exact Hin|split; [exact Hout|]]]].
  - rewrite main_run, Hfind. cbv zeta. now rewrite (quality_check_fails _ Hq).
  - destruct (Args.out args) as [|x out] eqn:E; [reflexivity|].
    apply is_dir_lookup; [discriminate|]. apply Hin. apply prefixes_self. discriminate.
  - intros q n Hn.
    destruct (decide (q ∈ Fs.prefixes (Args.out args))) as [H|H];
      rewrite list_elem_of_In in H.
    + rewrite (Hin q H).
      pose proof (proj1 (find_none_iff _ _) Hfind q H) as Hf.
      unfold Fs.is_file in Hf. rewrite Hn in Hf. destruct n; [discriminate|reflexivity].
    + now rewrite (Hout q H).
Qed.

(** The theorem above at a run with quality 20 over a world without [/out]. *)
Lemma main_bad_quality_creates_output_root_witness :
  exists m,
    main (sample_args [py "in"] 20) mixed_world = (Ok 2, World m [] [MsgBadQuality]) /\
    Fs.is_dir m [py "out"] = true /\
    m !! [py "in"; py "b.pdf"] = Some (File (Pdf [sample_page 100 50])).
Proof.
  destruct (main_bad_quality_creates_output_root (sample_args [py "in"] 20) mixed_world)
    as (m & Hrun & Hdir & _ & _ & Hkeep).
  - cbn. lia.
  - vm_compute. reflexivity.
  - exists m. split; [exact Hrun|]. split; [exact Hdir|].
    apply Hkeep. vm_compute. reflexivity.
Defined.

(** C10 as stated fails where the output root cannot be created.  With
    [/out] a regular file and a quality of 5, the [mkdir] of line 213 raises
    [FileExistsError] before the quality is looked at: the exception leaves
    [main], the process ends with status 1 and not with the
    configuration-error status 2, nothing is printed, and there is no
    output root directory. *)
Lemma main_bad_quality_output_root_is_file :
  let args := sample_args [py "in"] 5 in
  let run := main args out_is_file_world in
  ~ 30 <= Args.quality args <= 95 /\
  Fs.is_file (fs out_is_file_world) (Args.out args) = true /\
  run = (Raise (FileExistsError (Args.out args)), out_is_file_world) /\
  exit_status (fst run) = 1 /\
  exit_status (fst run) <> 2 /\
  Fs.is_dir (fs (snd run)) (Args.out args) = false.
Proof.
  cbv zeta. split; [cbn; lia|].
  repeat split; try (vm_compute; reflexivity).
  vm_compute. discriminate.
Qed.

(** C4, amended: in a run whose output root can be created, a quality
    outside 30..95 ends with status 2 before any document is looked for; a
    quality inside it ends with the resolver's error (status 1) when the
    input path is neither a file nor a directory, with status 1 when the
    resolver yields no document, and with status 0 otherwise; in that last
    case every document of the list is processed in turn, each from the
    world its predecessor left, because processing one document never
    raises. *)
Theorem main_exit_status args w :
  List.find (Fs.is_file (fs w)) (Fs.prefixes (Args.out args)) = None ->
  let w1 := with_output_root args w in
  (~ 30 <= Args.quality args <= 95 ->
   exit_status (fst (main args w)) = 2 /\
   snd (main args w) = World (fs w1) (open_docs w1) (console w1 ++ [MsgBadQuality])) /\
  (30 <= Args.quality args <= 95 ->
   (forall e, fst (iter_pdfs (Args.input args) w1) = Raise e ->
      main args w = (Raise e, w1) /\ exit_status (fst (main args w)) = 1) /\
   (fst (iter_pdfs (Args.input args) w1) = Ok [] ->
      exit_status (fst (main args w)) = 1 /\
      snd (main args w) = World (fs w1) (open_docs w1) (console w1 ++ [MsgNoPdfs])) /\
   (forall pdfs, pdfs <> [] -> fst (iter_pdfs (Args.input args) w1) = Ok pdfs ->
      exit_status (fst (main args w)) = 0 /\
      snd (main args w) = snd (print MsgDone (batch_run args pdfs (batch_start args w))))) /\
  (forall pdf w0, fst (process_pdf pdf (Args.out args) (main_opts args) w0) = Ok tt) /\
  (forall pdfs1 pdfs2 w0,
     batch_run args (pdfs1 ++ pdfs2) w0 = batch_run args pdfs2 (batch_run args pdfs1 w0)).
Proof.
  intros Hfind w1. split; [|split; [|split]].
  - intros Hq. rewrite main_run, Hfind. cbv zeta.
    rewrite (quality_check_fails _ Hq). split; reflexivity.
  - intros Hq. apply quality_check in Hq.
    split; [|split].
    + intros e He. rewrite main_run, Hfind. cbv zeta. rewrite Hq. fold w1.
      rewrite He. split; reflexivity.
    + intros He. rewrite main_run, Hfind. cbv zeta. rewrite Hq. fold w1.
      rewrite He. split; reflexivity.
    + intros pdfs Hne He. rewrite main_run, Hfind. cbv zeta. rewrite Hq. fold w1.
      rewrite He. destruct pdfs; [congruence|]. split; reflexivity.
  - intros pdf w0. apply process_pdf_total.
  - intros. apply batch_run_app.
Qed.

(** The theorem above at a folder whose first file is no document and whose
    second file is one: the run ends with status 0, the failure is reported,
    and the page of the second document is written. *)
Lemma main_exit_status_witness :
  let run := main (sample_args [py "in"] 65) mixed_world in
  exit_status (fst run) = 0 /\
  In (MsgFailed (py "a.pdf") (FileDataError [py "in"; py "a.pdf"])) (console (snd run)) /\
  Fs.is_file (fs (snd run)) [py "out"; py "b"; py "page_001.jpg"] = true.
Proof.
  cbv zeta.
  assert (Hfind : List.find (Fs.is_file (fs mixed_world))
                    (Fs.prefixes (Args.out (sample_args [py "in"] 65))) = None)
    by (vm_compute; reflexivity).
  destruct (main_exit_status (sample_args [py "in"] 65) mixed_world Hfind)
    as (_ & Hgood & _ & _).
  destruct (Hgood ltac:(cbn; lia)) as (_ & _ & Hbatch).
  destruct (Hbatch [[py "in"; py "a.pdf"]; [py "in"; py "b.pdf"]] ltac:(discriminate)
              ltac:(vm_compute; reflexivity)) as [Hstatus Hworld].
  split; [exact Hstatus|]. rewrite Hworld.
  split; [vm_compute; tauto|vm_compute; reflexivity].
Defined.

(** C4 as stated fails at an input path that does not exist: the quality is
    in range and the resolver yields no list at all, it raises; the
    exception leaves [main], and the process ends with status 1, not 0. *)
Lemma main_missing_input_not_zero :
  let args := sample_args [py "missing.pdf"] 65 in
  30 <= Args.quality args <= 95 /\
  fst (iter_pdfs (Args.input args) (with_output_root args two_page_world))
  = Raise (FileNotFoundError [py "missing.pdf"]) /\
  fst (main args two_page_world) = Raise (FileNotFoundError [py "missing.pdf"]) /\
  exit_status (fst (main args two_page_world)) <> 0.
Proof.
  cbv zeta. split; [cbn; lia|].
  split; [vm_compute; reflexivity|]. split; [vm_compute; reflexivity|].
  vm_compute. discriminate.
Qed.
(** * More about [sanitize_name], lines 52-58 *)

Lemma lstrip_spaces l x :
  Forall (fun c => isspace c = true) l -> lstrip (l ++ x) = lstrip x.
Proof.
  induction 1 as [|c l Hc _ IH]; [reflexivity|].
  cbn [app lstrip]. now rewrite Hc.
Qed.

Lemma lstrip_all_spaces l : Forall (fun c => isspace c = true) l -> lstrip l = [].
Proof.
  intros H. rewrite <- (app_nil_r l). now rewrite lstrip_spaces.
Qed.

Lemma lstrip_app s r :
  lstrip (s ++ r) = if is_empty (lstrip s) then lstrip r else lstrip s ++ r.
Proof.
  induction s as [|c s IH]; [reflexivity|].
  cbn [app lstrip]. destruct (isspace c); [exact IH|reflexivity].
Qed.

Lemma strip_outer_spaces l s r :
  Forall (fun c => isspace c = true) l -> Forall (fun c => isspace c = true) r ->
  strip (l ++ s ++ r) = strip s.
Proof.
  intros Hl Hr. unfold strip. rewrite (lstrip_spaces l _ Hl), lstrip_app.
  destruct (lstrip s) as [|c t] eqn:E; cbn [is_empty].
  - now rewrite (lstrip_all_spaces r Hr).
  - rewrite rev_app_distr, lstrip_spaces by (now apply List.Forall_rev). reflexivity.
Qed.

Lemma strip_all_spaces s : Forall (fun c => isspace c = true) s -> strip s = [].
Proof. intros H. unfold strip. now rewrite (lstrip_all_spaces s H). Qed.

Lemma lstrip_head c s : isspace c = false -> lstrip (c :: s) = c :: s.
Proof. intros H. cbn [lstrip]. now rewrite H. Qed.

(** A string that neither starts nor ends with whitespace is stripped to
    itself. *)
Lemma strip_between c s c' :
  isspace c = false -> isspace c' = false ->
  strip (c :: s ++ [c']) = c :: s ++ [c'].
Proof.
  intros Hc Hc'. unfold strip. rewrite (lstrip_head c _ Hc).
  change (c :: s ++ [c']) with ((c :: s) ++ [c']).
  rewrite rev_app_distr. cbn [rev app]. rewrite (lstrip_head c' _ Hc').
  change (c' :: rev s ++ [c]) with ([c'] ++ rev (c :: s)).
  rewrite rev_app_distr, rev_involutive. reflexivity.
Qed.

Lemma strip_single c : isspace c = false -> strip [c] = [c].
Proof. intros Hc. unfold strip. cbn [lstrip rev app]. rewrite Hc. cbn. now rewrite Hc. Qed.

Lemma In_lstrip c s : In c s -> isspace c = false -> In c (lstrip s).
Proof.
  induction s as [|x s IH]; [intros []|]. intros Hin Hc. cbn [lstrip].
  destruct (isspace x) eqn:Hx; [|exact Hin].
  destruct Hin as [->|Hin]; [congruence|auto].
Qed.

Lemma In_strip c s : In c s -> isspace c = false -> In c (strip s).
Proof.
  intros Hin Hc. unfold strip. apply List.in_rev. rewrite rev_involutive.
  apply In_lstrip; [|assumption]. apply -> List.in_rev. now apply In_lstrip.
Qed.

Lemma In_sub_spaces c s in_run :
  In c s -> isspace c = false -> In c (sub_spaces in_run s).
Proof.
  revert in_run. induction s as [|x s IH]; [intros ? []|]. intros in_run Hin Hc.
  cbn [sub_spaces]. destruct (isspace x) eqn:Hx.
  - destruct Hin as [->|Hin]; [congruence|].
    destruct in_run; [|right]; now apply IH.
  - destruct Hin as [->|Hin]; [now left|right; now apply IH].
Qed.

Lemma sub_spaces_no_space s :
  Forall (fun c => isspace c = false) s -> sub_spaces false s = s.
Proof.
  induction 1 as [|c s Hc _ IH]; [reflexivity|].
  cbn [sub_spaces]. now rewrite Hc, IH.
Qed.

Lemma sub_spaces_app_safe a y :
  Forall (fun c => is_safe_char c = true) a ->
  sub_spaces false (a ++ y) = a ++ sub_spaces false y.
Proof.
  induction 1 as [|c a Hc _ IH]; [reflexivity|].
  cbn [app sub_spaces]. now rewrite (safe_char_not_space c Hc), IH.
Qed.

Lemma sub_spaces_run ws y :
  Forall (fun c => isspace c = true) ws ->
  sub_spaces true (ws ++ y) = sub_spaces true y.
Proof.
  induction 1 as [|c ws Hc _ IH]; [reflexivity|].
  cbn [app sub_spaces]. now rewrite Hc.
Qed.

Lemma sub_spaces_after_run b :
  Forall (fun c => is_safe_char c = true) b -> sub_spaces true b = b.
Proof.
  destruct 1 as [|c b Hc Hb]; [reflexivity|].
  cbn [sub_spaces]. now rewrite (safe_char_not_space c Hc), (sub_spaces_safe b Hb).
Qed.

(** X1: with a fallback that is itself a non-empty token of letters, digits,
    dots, underscores and hyphens (the two call sites pass "document" and
    "page"), [sanitize_name] returns, for every string, a non-empty token of
    such characters: it holds no path separator and no whitespace. *)
Theorem sanitize_name_is_safe_token (s fallback : str) :
  fallback <> [] ->
  Forall (fun c => is_safe_char c = true) fallback ->
  sanitize_name s fallback <> [] /\
  Forall (fun c => is_safe_char c = true) (sanitize_name s fallback) /\
  ~ In 47%N (sanitize_name s fallback) /\
  Forall (fun c => isspace c = false) (sanitize_name s fallback).
Proof.
  intros Hne Hfb.
  assert (H : sanitize_name s fallback <> [] /\
              Forall (fun c => is_safe_char c = true) (sanitize_name s fallback)).
  { destruct (sanitize_name_cases s fallback) as [->|H]; [now split|exact H]. }
  destruct H as [H1 H2]. split; [exact H1|]. split; [exact H2|]. split.
  - intros Hin. rewrite List.Forall_forall in H2. specialize (H2 _ Hin). discriminate.
  - eapply List.Forall_impl; [|exact H2]. intros c. apply safe_char_not_space.
Qed.

(** The theorem above at the name " a/b c " with the fallback "document". *)
Lemma sanitize_name_is_safe_token_witness :
  sanitize_name (py " a/b c ") (py "document") = py "ab_c" /\
  ~ In 47%N (sanitize_name (py " a/b c ") (py "document")).
Proof.
  split; [reflexivity|].
  apply (sanitize_name_is_safe_token (py " a/b c ") (py "document")).
  - discriminate.
  - repeat constructor.
Defined.

(** X2: for every fallback that [sanitize_name] maps to itself (as "page"
    and "document" are), sanitising twice is sanitising once. *)
Theorem sanitize_name_idempotent_at_fallback (s fallback : str) :
  sanitize_name fallback fallback = fallback ->
  sanitize_name (sanitize_name s fallback) fallback = sanitize_name s fallback.
Proof.
  intros Hfb. destruct (sanitize_name_cases s fallback) as [->|[Hne Hs]].
  - exact Hfb.
  - now apply sanitize_name_safe.
Qed.

(** The theorem above at the fallback of the folder names. *)
Lemma sanitize_name_idempotent_at_fallback_witness :
  sanitize_name (sanitize_name (py "my report (v2)") (py "document")) (py "document")
  = sanitize_name (py "my report (v2)") (py "document").
Proof.
  apply (sanitize_name_idempotent_at_fallback (py "my report (v2)") (py "document")).
  reflexivity.
Defined.

(** X3: whitespace around a name does not count: a name with whitespace
    added before and after it is sanitised to the same result. *)
Theorem sanitize_name_ignores_outer_whitespace (before s after fallback : str) :
  Forall (fun c => isspace c = true) before ->
  Forall (fun c => isspace c = true) after ->
  sanitize_name (before ++ s ++ after) fallback = sanitize_name s fallback.
Proof.
  intros Hb Ha. unfold sanitize_name. now rewrite (strip_outer_spaces before s after Hb Ha).
Qed.

(** The theorem above with a tab and a space before and a newline after. *)
Lemma sanitize_name_ignores_outer_whitespace_witness :
  sanitize_name ([9%N; 32%N] ++ py "a b" ++ [10%N]) default_fallback
  = sanitize_name (py "a b") default_fallback.
Proof.
  apply (sanitize_name_ignores_outer_whitespace [9%N; 32%N] (py "a b") [10%N]).
  - repeat constructor.
  - repeat constructor.
Defined.

(** X4: a run of whitespace between two tokens of safe characters becomes
    one underscore, however long the run is, and the tokens are kept as
    they are. *)
Theorem sanitize_name_joins_words (a ws b fallback : str) :
  a <> [] -> b <> [] -> ws <> [] ->
  Forall (fun c => is_safe_char c = true) a ->
  Forall (fun c => is_safe_char c = true) b ->
  Forall (fun c => isspace c = true) ws ->
  sanitize_name (a ++ ws ++ b) fallback = a ++ py "_" ++ b.
Proof.
  intros Ha Hb Hws Sa Sb Sws.
  assert (Hstrip : strip (a ++ ws ++ b) = a ++ ws ++ b).
  { destruct a as [|c a]; [congruence|].
    destruct (List.exists_last Hb) as (b' & c' & ->).
    replace ((c :: a) ++ ws ++ b' ++ [c']) with (c :: (a ++ ws ++ b') ++ [c'])
      by (cbn [app]; now rewrite <- !app_assoc).
    apply strip_between.
    - apply safe_char_not_space. now inversion Sa.
    - apply safe_char_not_space. apply List.Forall_app in Sb as [_ Sc]. now inversion Sc. }
  unfold sanitize_name. rewrite Hstrip.
  destruct (a ++ ws ++ b) eqn:E; [destruct a; [congruence|discriminate]|].
  rewrite <- E. cbn [is_empty].
  assert (Hsub : sub_spaces false (a ++ ws ++ b) = a ++ py "_" ++ b).
  { rewrite (sub_spaces_app_safe a _ Sa). f_equal.
    destruct Sws as [|c ws Hc Sws]; [congruence|].
    cbn [app sub_spaces]. rewrite Hc, (sub_spaces_run ws b Sws).
    now rewrite (sub_spaces_after_run b Sb). }
  rewrite Hsub, sub_unsafe_safe.
  - destruct a; [congruence|reflexivity].
  - apply List.Forall_app. split; [exact Sa|]. constructor; [reflexivity|exact Sb].
Qed.

(** The theorem above at "annual", three blanks and a tab, "report". *)
Lemma sanitize_name_joins_words_witness :
  sanitize_name (py "annual" ++ [32%N; 32%N; 32%N; 9%N] ++ py "report") (py "document")
  = py "annual_report".
Proof.
  apply (sanitize_name_joins_words (py "annual") [32%N; 32%N; 32%N; 9%N] (py "report"));
    try discriminate; repeat constructor.
Defined.

(** X5: when the fallback is used and when it is not.  A name that is empty
    or all whitespace, and a name without whitespace and without any safe
    character (a name in another script, say), give the fallback; every
    safe character of a name is kept, so a name with one never gives an
    empty result. *)
Theorem sanitize_name_fallback_use (s fallback : str) :
  (Forall (fun c => isspace c = true) s -> sanitize_name s fallback = fallback) /\
  (Forall (fun c => is_safe_char c = false /\ isspace c = false) s ->
   sanitize_name s fallback = fallback) /\
  (forall c, In c s -> is_safe_char c = true ->
     In c (sanitize_name s fallback) /\
     sanitize_name s fallback = sub_unsafe (sub_spaces false (strip s))).
Proof.
  split; [|split].
  - intros H. unfold sanitize_name. now rewrite (strip_all_spaces s H).
  - intros H. unfold sanitize_name.
    assert (Hstrip : strip s = s).
    { destruct s as [|c s]; [reflexivity|].
      destruct (List.exists_last (l := c :: s) ltac:(discriminate)) as (t & c' & E).
      destruct t as [|c0 t].
      - cbn [app] in E. injection E as -> ->. apply strip_single.
        apply List.Forall_inv in H. tauto.
      - rewrite E in *. cbn [app] in *. apply strip_between.
        + apply List.Forall_inv in H. tauto.
        + change (c0 :: t ++ [c']) with ((c0 :: t) ++ [c']) in H.
          apply List.Forall_app in H as [_ H]. apply List.Forall_inv in H. tauto. }
    rewrite Hstrip. destruct (is_empty s); [reflexivity|].
    rewrite sub_spaces_no_space
      by (eapply List.Forall_impl; [|exact H]; cbn; tauto).
    assert (E : sub_unsafe s = []).
    { unfold sub_unsafe. clear Hstrip.
      induction H as [|c s [Hc _] _ IH]; [reflexivity|].
      cbn [List.filter]. now rewrite Hc. }
    now rewrite E.
  - intros c Hin Hc.
    assert (Hs : isspace c = false) by now apply safe_char_not_space.
    assert (Hkept : In c (sub_unsafe (sub_spaces false (strip s)))).
    { unfold sub_unsafe. apply List.filter_In. split; [|exact Hc].
      apply In_sub_spaces; [|exact Hs]. now apply In_strip. }
    assert (E : sanitize_name s fallback = sub_unsafe (sub_spaces false (strip s))).
    { unfold sanitize_name.
      destruct (strip s) eqn:E1; [cbn in Hkept; contradiction|]. cbn [is_empty].
      destruct (sub_unsafe _) eqn:E2; [contradiction|reflexivity]. }
    split; [now rewrite E|exact E].
Qed.

(** * Page file names, line 128 *)

Lemma str_compare_app p a b : str_compare (p ++ a) (p ++ b) = str_compare a b.
Proof.
  induction p as [|c p IH]; [reflexivity|].
  unfold str_compare in *. cbn [app lex_compare]. now rewrite N.compare_refl.
Qed.

Lemma page_file_name_next_sorts_after i :
  (i < 999)%nat ->
  str_compare (page_file_name [] i) (page_file_name [] (S i)) = Lt.
Proof.
  intros Hi.
  assert (H : forallb (fun k => bool_decide
                (str_compare (page_file_name [] k) (page_file_name [] (S k)) = Lt))
              (seq 0 999) = true) by (vm_compute; reflexivity).
  rewrite forallb_forall in H. specialize (H i).
  apply bool_decide_eq_true in H; [exact H|]. apply in_seq. lia.
Qed.

Lemma page_file_name_1000_sorts_early j :
  (101 <= j < 1000)%nat ->
  str_compare (page_file_name [] 1000) (page_file_name [] j) = Lt.
Proof.
  intros Hj.
  assert (H : forallb (fun k => bool_decide
                (str_compare (page_file_name [] 1000) (page_file_name [] k) = Lt))
              (seq 101 899) = true) by (vm_compute; reflexivity).
  rewrite forallb_forall in H. specialize (H j).
  apply bool_decide_eq_true in H; [exact H|]. apply in_seq. lia.
Qed.

Lemma page_file_name_prefix prefix i :
  page_file_name prefix i = prefix ++ page_file_name [] i.
Proof. reflexivity. Qed.

(** X6: up to page 999 the zero padding makes the image names sort, as
    strings, in page order: for page numbers i < j < 1000 the name of page i
    comes before the name of page j.  From page 1000 on this is lost: the
    name of page 1000 comes before the name of every page from 101 to 999. *)
Theorem page_file_names_sort_in_page_order (prefix : str) (i j : nat) :
  (i < j < 1000)%nat ->
  str_compare (page_file_name prefix i) (page_file_name prefix j) = Lt /\
  ((101 <= j)%nat ->
   str_compare (page_file_name prefix 1000) (page_file_name prefix j) = Lt).
Proof.
  intros [Hij Hj]. split.
  - rewrite (page_file_name_prefix prefix i), (page_file_name_prefix prefix j).
    rewrite str_compare_app.
    induction Hij as [|j Hij IH].
    + apply page_file_name_next_sorts_after. lia.
    + eapply str_compare_trans; [apply IH; lia|].
      apply page_file_name_next_sorts_after. lia.
  - intros H101.
    rewrite (page_file_name_prefix prefix 1000), (page_file_name_prefix prefix j).
    rewrite str_compare_app. apply page_file_name_1000_sorts_early. lia.
Qed.

(** The theorem above at pages 9 and 10, and at pages 999 and 1000. *)
Lemma page_file_names_sort_in_page_order_witness :
  str_compare (py "page_009.jpg") (py "page_010.jpg") = Lt /\
  str_compare (py "page_1000.jpg") (py "page_999.jpg") = Lt.
Proof.
  split.
  - apply (page_file_names_sort_in_page_order (py "page") 9 10). lia.
  - apply (page_file_names_sort_in_page_order (py "page") 998 999); lia.
Defined.
(** * More about [iter_pdfs], lines 61-73 *)

Lemma rfind_absent c t : ~ In c t -> Path.rfind c t = None.
Proof.
  induction t as [|x t IH]; [reflexivity|]. intros Hn. cbn [Path.rfind].
  rewrite IH by (intros H; apply Hn; now right).
  destruct (N.eqb_spec x c) as [->|_]; [exfalso; apply Hn; now left|reflexivity].
Qed.

Lemma rfind_last_occurrence c s t :
  ~ In c t -> Path.rfind c (s ++ c :: t) = Some (length s).
Proof.
  intros Hn. induction s as [|x s IH].
  - cbn [app Path.rfind length]. now rewrite (rfind_absent c t Hn), N.eqb_refl.
  - cbn [app Path.rfind length]. now rewrite IH.
Qed.

(** The extensions that [lower] turns into [".pdf"]: a dot and the three
    letters, each in either case. *)
Lemma lower_pdf_inv ext :
  lower ext = py ".pdf" ->
  exists t, ext = 46%N :: t /\ length t = 3%nat /\ ~ In 46%N t.
Proof.
  unfold lower. intros H.
  destruct ext as [|c0 [|c1 [|c2 [|c3 [|c4 ext]]]]]; try discriminate.
  cbn [List.map] in H. injection H as H0 H1 H2 H3.
  exists [c1; c2; c3]. split; [|split; [reflexivity|]].
  - f_equal. destruct ((65 <=? c0)%N && (c0 <=? 90)%N) eqn:E; [|exact H0].
    apply andb_true_iff in E as [E1 E2]. apply N.leb_le in E1, E2. lia.
  - intros [E|[E|[E|[]]]]; subst; vm_compute in H1, H2, H3; discriminate.
Qed.

Lemma suffix_of_extension (d : path) (stem ext : str) :
  stem <> [] -> lower ext = py ".pdf" -> Path.suffix (d ++ [stem ++ ext]) = ext.
Proof.
  intros Hne Hext. destruct (lower_pdf_inv ext Hext) as (t & -> & Ht & Hdot).
  unfold Path.suffix, Path.suffix_index. rewrite name_app.
  rewrite (rfind_last_occurrence 46%N stem t Hdot).
  assert (L : (0 < length stem)%nat) by (destruct stem; [congruence|cbn; lia]).
  rewrite length_app. cbn [length]. rewrite Ht.
  destruct (Nat.ltb_spec 0 (length stem)) as [_|?]; [|lia].
  destruct (Nat.ltb_spec (length stem) (length stem + 4 - 1)) as [_|?]; [|lia].
  cbn [andb]. now rewrite drop_app_length.
Qed.

Lemma is_file_is_Some (m : gmap path node) (p : path) :
  Fs.is_file m p = true -> is_Some (m !! p).
Proof. unfold Fs.is_file. destruct (m !! p); [eauto|discriminate]. Qed.

Lemma glob_NoDup (m : gmap path node) d pat : List.NoDup (Fs.glob m d pat).
Proof.
  unfold Fs.glob, Fs.iterdir. destruct (Fs.is_dir m d); [|constructor].
  do 2 apply List.NoDup_filter. apply NoDup_ListNoDup, NoDup_fst_map_to_list.
Qed.

Lemma sorted_NoDup l : List.NoDup l -> List.NoDup (sorted l).
Proof.
  intros H. apply NoDup_ListNoDup. unfold sorted.
  rewrite merge_sort_Permutation. now apply NoDup_ListNoDup.
Qed.

(** X7: given one regular file whose name is a stem that does not begin
    with a dot, followed by the extension ".pdf" in any mix of upper and
    lower case, [iter_pdfs] yields exactly that file and changes nothing.
    (Names that begin with a dot are left aside: the versions of pathlib
    do not agree on their suffix.) *)
Theorem iter_pdfs_single_file (d : path) (stem ext : str) (w : world) :
  stem <> [] -> hd 0%N stem <> 46%N -> lower ext = py ".pdf" ->
  Fs.is_file (fs w) (d ++ [stem ++ ext]) = true ->
  iter_pdfs (d ++ [stem ++ ext]) w = (Ok [d ++ [stem ++ ext]], w).
Proof.
  intros Hne _ Hext Hfile.
  rewrite iter_pdfs_run, Hfile, (suffix_of_extension d stem ext Hne Hext).
  now rewrite bool_decide_eq_true_2.
Qed.

(** The theorem above at the file [/in/B.PDF]. *)
Lemma iter_pdfs_single_file_witness :
  iter_pdfs [py "in"; py "B.PDF"] upper_case_world
  = (Ok [[py "in"; py "B.PDF"]], upper_case_world).
Proof.
  apply (iter_pdfs_single_file [py "in"] (py "B") (py ".PDF") upper_case_world).
  - discriminate.
  - discriminate.
  - reflexivity.
  - vm_compute. reflexivity.
Defined.

(** X8: given a directory, [iter_pdfs] changes nothing and yields, in
    ascending path order and without repetition, exactly the regular files
    directly inside the directory whose name ends in ".pdf" as written:
    sub-directories, even ones named like a document, and files further
    down are not yielded. *)
Theorem iter_pdfs_directory_listing (d : path) (w : world) :
  Fs.is_file (fs w) d = false -> Fs.is_dir (fs w) d = true ->
  exists l,
    iter_pdfs d w = (Ok l, w) /\
    StronglySorted path_le l /\
    List.NoDup l /\
    (forall q, In q l <->
       (exists n, q = d ++ [n] /\ ends_with (py ".pdf") n = true) /\
       Fs.is_file (fs w) q = true).
Proof.
  intros Hf Hd. eexists. split; [rewrite iter_pdfs_run, Hf, Hd; reflexivity|].
  split; [apply StronglySorted_list_filter, sorted_StronglySorted|].
  split; [apply List.NoDup_filter, sorted_NoDup, glob_NoDup|].
  intros q. rewrite List.filter_In, sorted_In, glob_In. cbn [fnmatch]. split.
  - intros [(_ & _ & Hc & He) Hq]. split; [|exact Hq].
    apply is_child_iff in Hc as [n ->]. rewrite name_app in He. eauto.
  - intros [(n & -> & He) Hq]. split; [|exact Hq].
    split; [exact Hd|]. split; [|split; [apply is_child_app|now rewrite name_app]].
    now apply is_file_is_Some.
Qed.

(** The theorem above at the directory [/in] that holds [a.pdf] and
    [b.pdf]. *)
Lemma iter_pdfs_directory_listing_witness :
  exists l,
    iter_pdfs [py "in"] mixed_world = (Ok l, mixed_world) /\
    List.NoDup l /\
    (In [py "in"; py "b.pdf"] l <->
       (exists n, [py "in"; py "b.pdf"] = [py "in"] ++ [n] /\
                  ends_with (py ".pdf") n = true) /\
       Fs.is_file (fs mixed_world) [py "in"; py "b.pdf"] = true).
Proof.
  destruct (iter_pdfs_directory_listing [py "in"] mixed_world)
    as (l & Hrun & _ & Hnd & Hin).
  - vm_compute. reflexivity.
  - vm_compute. reflexivity.
  - exists l. split; [exact Hrun|]. split; [exact Hnd|apply Hin].
Defined.

(** X9: a regular file named exactly ".pdf" is treated in two ways: given
    as the input itself it is not a document (its name has no suffix), but
    given its directory it is listed (the pattern "*.pdf" matches it). *)
Theorem iter_pdfs_dot_pdf (d : path) (w : world) :
  Fs.is_file (fs w) d = false -> Fs.is_dir (fs w) d = true ->
  Fs.is_file (fs w) (d ++ [py ".pdf"]) = true ->
  iter_pdfs (d ++ [py ".pdf"]) w = (Ok [], w) /\
  exists l, iter_pdfs d w = (Ok l, w) /\ In (d ++ [py ".pdf"]) l.
Proof.
  intros Hf Hd Hfile. split.
  - rewrite iter_pdfs_run, Hfile. unfold Path.suffix. rewrite name_app. reflexivity.
  - eexists. split; [rewrite iter_pdfs_run, Hf, Hd; reflexivity|].
    rewrite List.filter_In, sorted_In, glob_In. split; [|exact Hfile].
    split; [exact Hd|]. split; [|split; [apply is_child_app|now rewrite name_app]].
    now apply is_file_is_Some.
Qed.

(** The theorem above at a directory [/in] that holds a file [.pdf]. *)
Lemma iter_pdfs_dot_pdf_witness :
  iter_pdfs [py "in"; py ".pdf"] hidden_world = (Ok [], hidden_world) /\
  exists l, iter_pdfs [py "in"] hidden_world = (Ok l, hidden_world) /\
            In [py "in"; py ".pdf"] l.
Proof.
  apply (iter_pdfs_dot_pdf [py "in"] hidden_world); vm_compute; reflexivity.
Defined.

(** * More about [maybe_resize], lines 83-89 *)

(** X10: the resize step never enlarges.  Whatever image it returns for a
    maximum width configured on the command line is at most as wide as the
    page image and, when the maximum is positive, at most as wide as the
    maximum; its height is between zero and the height of the page image
    (for heights with height * maximum up to 2^52); and the step applied
    again to its own result returns that result. *)
Theorem maybe_resize_never_enlarges (img : image) (cfg : Z) (img' : image) :
  maybe_resize img (main_max_width cfg) = Ok img' ->
  width img' <= width img /\
  (0 < cfg -> width img' <= cfg) /\
  (0 <= height img -> height img * cfg <= 2 ^ 52 -> 0 <= height img' <= height img) /\
  maybe_resize img' (main_max_width cfg) = Ok img'.
Proof.
  unfold main_max_width, maybe_resize.
  destruct (Z.leb_spec cfg 0) as [Hc|Hc].
  { intros H. injection H as <-. repeat split; lia. }
  destruct (Z.eqb_spec cfg 0) as [?|_]; [lia|].
  destruct (Z.leb_spec (width img) cfg) as [Hw|Hw].
  { intros H. injection H as <-.
    destruct (Z.leb_spec (width img) cfg) as [_|?]; [|lia]. repeat split; lia. }
  destruct (Z.eqb_spec (width img) 0) as [?|_]; [lia|].
  unfold image_resize. cbn [fst snd].
  destruct (_ || _); [discriminate|].
  intros H. injection H as <-. cbn [width height fst snd].
  rewrite Z.leb_refl. split; [lia|]. split; [lia|]. split; [|reflexivity].
  intros Hh Hb.
  pose proof (scaled_height_bound (height img) cfg (width img) Hh ltac:(lia) Hb) as [Lo Hi].
  set (new_h := Float.to_int _) in *.
  assert (P1 : 0 <= height img * cfg) by (apply Z.mul_nonneg_nonneg; lia).
  assert (P2 : height img * cfg <= height img * (width img - 1))
    by (apply Z.mul_le_mono_nonneg_l; lia).
  destruct (Z.eq_dec (height img) 0) as [E|E].
  { assert (E0 : new_h = 0).
    { subst new_h. rewrite E. unfold Float.mul.
      change (Float.num (Float.of_int 0)) with 0. rewrite Z.mul_0_l. reflexivity. }
    lia. }
  split.
  - destruct (Z.lt_ge_cases new_h 0) as [Hneg|?]; [|lia].
    assert (width img * new_h <= width img * (-1))
      by (apply Z.mul_le_mono_nonneg_l; lia).
    assert (1 <= height img * cfg) by nia. lia.
  - destruct (Z.le_gt_cases new_h (height img)) as [?|Hbig]; [assumption|].
    assert (width img * (height img + 1) <= width img * new_h)
      by (apply Z.mul_le_mono_nonneg_l; lia).
    lia.
Qed.

(** The theorem above at a page of 2000 x 1000 pixels and a maximum of
    1600. *)
Lemma maybe_resize_never_enlarges_witness :
  exists img',
    maybe_resize wide_image (main_max_width 1600) = Ok img' /\
    width img' <= 2000 /\ 0 <= height img' <= 1000 /\
    maybe_resize img' (main_max_width 1600) = Ok img'.
Proof.
  eexists. split; [vm_compute; reflexivity|].
  match goal with
  | |- width ?i <= _ /\ _ =>
      destruct (maybe_resize_never_enlarges wide_image 1600 i) as (H1 & _ & H3 & H4);
        [vm_compute; reflexivity|]
  end.
  split; [exact H1|]. split; [apply H3; vm_compute; discriminate|exact H4].
Defined.
(** * More about [convert_pdf], lines 92-145 *)

(** When preparing the output folder raises, nothing has changed. *)
Lemma prepare_out_dir_raises (d : path) ov w e w1 :
  prepare_out_dir d ov w = (Raise e, w1) ->
  w1 = w /\ (e = FileExistsError d \/ e = NotADirectoryError d).
Proof.
  rewrite prepare_out_dir_run.
  destruct (Fs.exists_ (fs w) d).
  - destruct ov; intros H; [discriminate|]. injection H as <- <-. auto.
  - rewrite mkdir_parents_run. destruct (List.find _ _); intros H; [|discriminate].
    injection H as <- <-. destruct (bool_decide _); auto.
Qed.

(** Once prepared, the output folder exists. *)
Lemma prepare_out_dir_exists (d : path) ov w w1 :
  prepare_out_dir d ov w = (Ok tt, w1) -> Fs.exists_ (fs w1) d = true.
Proof.
  rewrite prepare_out_dir_run.
  destruct (Fs.exists_ (fs w) d) eqn:Hex.
  - destruct ov; [|discriminate]. intros H. injection H as <-. cbn [fs].
    unfold Fs.exists_ in *.
    rewrite cleaned_lookup, is_child_irrefl, andb_false_r. exact Hex.
  - apply exists_false in Hex as [Hne _]. rewrite mkdir_parents_run.
    destruct (List.find _ _); [discriminate|]. intros H. injection H as <-. cbn [fs].
    unfold Fs.exists_. rewrite add_dirs_lookup.
    rewrite (bool_decide_eq_true_2 (d ∈ Fs.prefixes d))
      by (apply list_elem_of_In, prefixes_self; assumption).
    rewrite (bool_decide_eq_true_2 (is_Some (Some Dir))) by eauto.
    apply orb_true_r.
Qed.

(** What preparing the output folder does to an entry that is not directly
    inside it. *)
Lemma prepare_out_dir_outside (d : path) ov w (q : path) :
  Fs.is_child d q = false ->
  fs (snd (prepare_out_dir d ov w)) !! q = fs w !! q \/
  (fs w !! q = None /\ fs (snd (prepare_out_dir d ov w)) !! q = Some Dir /\
   In q (Fs.prefixes d)).
Proof.
  intros Hc. rewrite prepare_out_dir_run.
  destruct (Fs.exists_ (fs w) d).
  - destruct ov; cbn [snd fs]; [|now left]. left.
    rewrite cleaned_lookup, Hc, andb_false_r. reflexivity.
  - rewrite mkdir_parents_run.
    destruct (List.find _ _) eqn:Hfind; cbn [snd fs]; [now left|].
    rewrite add_dirs_lookup. destruct (decide (q ∈ Fs.prefixes d)) as [Hin|Hin].
    + rewrite bool_decide_eq_true_2 by assumption. apply list_elem_of_In in Hin.
      pose proof (proj1 (find_none_iff _ _) Hfind q Hin) as Hf. unfold Fs.is_file in Hf.
      destruct (fs w !! q) as [[c|]|]; [discriminate|now left|right; auto].
    + rewrite bool_decide_eq_false_2 by assumption. now left.
Qed.

Lemma pages_written_outside (d : path) prefix quality w w' (q : path) :
  only_pages_written d prefix quality w w' ->
  Fs.is_child d q = false -> fs w' !! q = fs w !! q.
Proof.
  intros H Hc. destruct (H q) as [E|(i & img & -> & _)]; [exact E|].
  unfold page_path in Hc. rewrite is_child_app in Hc. discriminate.
Qed.

(** Outside the output folder, [convert_pdf] does what preparing the folder
    does. *)
Lemma convert_pdf_outside (pdf out_root : path) opts w (q : path) :
  let d := Path.joinpath out_root (sanitize_name (Path.stem pdf) (py "document")) in
  Fs.is_child d q = false ->
  fs (snd (convert_pdf pdf out_root opts w)) !! q
  = fs (snd (prepare_out_dir d (ConvertOptions.overwrite opts) w)) !! q.
Proof.
  intros d Hc.
  destruct (prepare_out_dir d (ConvertOptions.overwrite opts) w) as [[[]|e] w1] eqn:Hprep.
  - pose proof (convert_pdf_after_prepare pdf out_root opts w w1 Hprep) as H.
    cbn [snd]. eapply pages_written_outside; eassumption.
  - rewrite convert_pdf_run. fold d. now rewrite Hprep.
Qed.

(** X11: whatever its outcome, [convert_pdf] leaves every entry that is
    not directly inside the document's output folder as it was, except that
    it may create the output folder and the missing directories above it:
    no regular file elsewhere is created, changed or deleted, and no
    directory is removed.  (For a document whose folder name is not "..":
    the paths of the model are lexical.) *)
Theorem convert_pdf_touches_only_its_folder
    (pdf out_root : path) (opts : ConvertOptions.t) (w : world) (q : path) :
  let d := Path.joinpath out_root (sanitize_name (Path.stem pdf) (py "document")) in
  sanitize_name (Path.stem pdf) (py "document") <> py ".." ->
  Fs.is_child d q = false ->
  let w' := snd (convert_pdf pdf out_root opts w) in
  fs w' !! q = fs w !! q \/
  (fs w !! q = None /\ fs w' !! q = Some Dir /\ In q (Fs.prefixes d)).
Proof.
  intros d _ Hc w'. subst w'.
  pose proof (convert_pdf_outside pdf out_root opts w q Hc) as E. fold d in E.
  rewrite E. now apply prepare_out_dir_outside.
Qed.

(** The theorem above at a re-run with [overwrite] over the folder [/out/a]:
    the file [/out/a/keep/old.jpg], two levels down, is kept. *)
Lemma convert_pdf_touches_only_its_folder_witness :
  fs (snd (convert_pdf [py "in"; py "a.pdf"] [py "out"] overwrite_opts rerun_world))
    !! [py "out"; py "a"; py "keep"; py "old.jpg"]
  = Some (File (Bytes [4%N])).
Proof.
  destruct (convert_pdf_touches_only_its_folder [py "in"; py "a.pdf"] [py "out"]
              overwrite_opts rerun_world [py "out"; py "a"; py "keep"; py "old.jpg"])
    as [E|(E & _)].
  - vm_compute. discriminate.
  - vm_compute. reflexivity.
  - etransitivity; [exact E|]. vm_compute. reflexivity.
  - vm_compute in E. discriminate.
Defined.

(** What the page loop can raise. *)
Lemma save_page_raises doc (d : path) prefix opts total acc i w e w' :
  save_page doc d prefix opts total acc i w = (Raise e, w') ->
  e <> FileExistsError d /\ e <> FileDataError (doc_path doc) /\
  e <> ValueError_no_pages (doc_path doc).
Proof.
  rewrite save_page_run.
  destruct (doc_pages doc !! i) as [pg|]; [|intros H; injection H as <- _; now repeat split].
  destruct (get_pixmap pg _) as [pix|]; [|intros H; injection H as <- _; now repeat split].
  destruct (maybe_resize _ _) as [img|e0] eqn:Er.
  - cbv zeta. destruct (Fs.is_dir _ (page_path _ _ _));
      [intros H; injection H as <- _; now repeat split|].
    destruct (Fs.is_dir _ d); [discriminate|].
    destruct (Fs.is_file _ d); intros H; injection H as <- _; now repeat split.
  - intros H. injection H as <- _.
    unfold maybe_resize in Er. destruct (ConvertOptions.max_width opts) as [m|]; [|discriminate].
    destruct (m =? 0); [discriminate|]. destruct (_ <=? m); [discriminate|].
    destruct (_ =? 0); [injection Er as <-; now repeat split|].
    unfold image_resize in Er. destruct (_ || _); [|discriminate].
    injection Er as <-. now repeat split.
Qed.

Lemma page_loop_raises doc (d : path) prefix opts total l :
  forall acc w e w',
  for_fold l acc (save_page doc d prefix opts total) w = (Raise e, w') ->
  e <> FileExistsError d /\ e <> FileDataError (doc_path doc) /\
  e <> ValueError_no_pages (doc_path doc).
Proof.
  induction l as [|i l IH]; intros acc w e w' H; [discriminate|].
  cbn [for_fold] in H. rewrite bind_run in H.
  destruct (save_page doc d prefix opts total acc i w) as [[acc'|e0] w1] eqn:E.
  - eapply IH; eassumption.
  - injection H as <- _. eapply save_page_raises; eassumption.
Qed.

(** X12: the document handles of [convert_pdf], outcome by outcome.  After
    the call the open documents are those open before, or those and this
    document; they are those open before whenever the call returns, and
    whenever it raises the "folder exists" error, the "no pages" error or
    the error of a file that is no document. *)
Theorem convert_pdf_open_documents
    (pdf out_root : path) (opts : ConvertOptions.t) (w : world) :
  let d := Path.joinpath out_root (sanitize_name (Path.stem pdf) (py "document")) in
  let run := convert_pdf pdf out_root opts w in
  (open_docs (snd run) = open_docs w \/ open_docs (snd run) = pdf :: open_docs w) /\
  (forall v, fst run = Ok v -> open_docs (snd run) = open_docs w) /\
  (forall e, fst run = Raise e ->
     e = FileExistsError d \/ e = ValueError_no_pages pdf \/ e = FileDataError pdf ->
     open_docs (snd run) = open_docs w).
Proof.
  intros d run. subst run. rewrite convert_pdf_run. fold d.
  destruct (prepare_out_dir d (ConvertOptions.overwrite opts) w) as [[[]|e] w1] eqn:Hprep.
  2:{ apply prepare_out_dir_raises in Hprep as [-> _]. cbn [fst snd].
      split; [now left|]. split; [discriminate|reflexivity]. }
  destruct (prepare_out_dir_ok _ _ _ _ Hprep) as (Ho & _ & _).
  destruct (fs w1 !! pdf) as [[[data|pages|img q|entries]|]|]; cbn [fst snd];
    try (split; [now left|]; split; [discriminate|intros; exact Ho]).
  destruct (length pages =? 0)%nat; cbn [fst snd open_docs];
    [split; [now left|]; split; [discriminate|intros; exact Ho]|].
  match goal with
  | |- context [for_fold ?l ?acc ?body ?w0] =>
      destruct (page_loop_changes {| doc_path := pdf; doc_pages := pages |} d
                  (sanitize_name (ConvertOptions.prefix opts) (py "page")) opts
                  (length pages) l acc w0) as [_ Hl];
      destruct (for_fold l acc body w0) as [[paths|e] w2] eqn:Hloop
  end; cbn [fst snd open_docs] in *.
  - rewrite Hl, remove_first_head.
    split; [now left|]. split; [intros; exact Ho|discriminate].
  - rewrite Hl, Ho. split; [now right|]. split; [discriminate|].
    intros e0 E He. injection E as ->.
    apply page_loop_raises in Hloop as (H1 & H2 & H3). cbn [doc_path] in *.
    destruct He as [-> | [-> | ->]]; congruence.
Qed.

(** X13: with [overwrite], a document that lies directly inside its own
    output folder is deleted by the cleaning of the folder before it is
    opened: [convert_pdf] then fails to find it, and the document is gone. *)
Theorem convert_pdf_overwrite_deletes_document_in_folder
    (pdf out_root : path) (opts : ConvertOptions.t) (w : world) (c : content) :
  let d := Path.joinpath out_root (sanitize_name (Path.stem pdf) (py "document")) in
  ConvertOptions.overwrite opts = true ->
  Fs.is_dir (fs w) d = true ->
  Fs.is_child d pdf = true ->
  fs w !! pdf = Some (File c) ->
  exists w',
    convert_pdf pdf out_root opts w = (Raise (FileNotFoundError pdf), w') /\
    fs w' !! pdf = None /\
    open_docs w' = open_docs w /\
    (forall q, Fs.is_file (fs w) q = false -> fs w' !! q = fs w !! q).
Proof.
  intros d Hov Hd Hc Hpdf.
  rewrite convert_pdf_run. fold d.
  rewrite prepare_out_dir_run, (is_dir_exists _ _ Hd), Hov. cbn [fs].
  assert (E : remove_files (Fs.glob (fs w) d Star) (fs w) !! pdf = None).
  { rewrite cleaned_lookup, Hd, Hc. unfold Fs.is_file. now rewrite Hpdf. }
  rewrite E. eexists. split; [reflexivity|]. cbn [fs open_docs].
  split; [exact E|]. split; [reflexivity|].
  intros q Hq. rewrite cleaned_lookup, Hq, andb_false_r. reflexivity.
Qed.

(** The theorem above at [/out/a/a.pdf] converted into [/out]. *)
Lemma convert_pdf_overwrite_deletes_document_in_folder_witness :
  exists w',
    convert_pdf [py "out"; py "a"; py "a.pdf"] [py "out"] overwrite_opts inside_world
    = (Raise (FileNotFoundError [py "out"; py "a"; py "a.pdf"]), w') /\
    fs w' !! [py "out"; py "a"; py "a.pdf"] = None.
Proof.
  destruct (convert_pdf_overwrite_deletes_document_in_folder
              [py "out"; py "a"; py "a.pdf"] [py "out"] overwrite_opts inside_world
              (Pdf [sample_page 100 50]))
    as (w' & Hrun & Hgone & _); try (vm_compute; reflexivity).
  exists w'. split; [exact Hrun|exact Hgone].
Defined.

(** X14: a second conversion into the same folder without [overwrite]
    never changes anything.  After a first call of [convert_pdf], whatever
    its outcome, a call without [overwrite] for the same document, or for
    one whose stem is sanitised to the same folder name, raises and leaves
    the world as it is; it raises [FileExistsError] whenever the folder
    exists by then, which is the case when the first call returned. *)
Theorem convert_pdf_second_run_refused
    (pdf pdf' out_root : path) (opts opts' : ConvertOptions.t) (w : world) :
  sanitize_name (Path.stem pdf') (py "document")
  = sanitize_name (Path.stem pdf) (py "document") ->
  ConvertOptions.overwrite opts' = false ->
  let d := Path.joinpath out_root (sanitize_name (Path.stem pdf) (py "document")) in
  let first := convert_pdf pdf out_root opts w in
  let second := convert_pdf pdf' out_root opts' (snd first) in
  snd second = snd first /\
  (exists e, fst second = Raise e) /\
  (Fs.exists_ (fs (snd first)) d = true -> fst second = Raise (FileExistsError d)) /\
  (forall v, fst first = Ok v -> fst second = Raise (FileExistsError d)).
Proof.
  intros Hstem Hov d first second.
  assert (Hsecond : second =
            match prepare_out_dir d false (snd first) with
            | (Raise e, w1) => (Raise e, w1)
            | (Ok _, w1) => second
            end).
  { subst second. rewrite convert_pdf_run, Hstem, Hov. fold d.
    destruct (prepare_out_dir d false (snd first)) as [[[]|e] w1]; reflexivity. }
  assert (Hex : Fs.exists_ (fs (snd first)) d = true ->
                second = (Raise (FileExistsError d), snd first)).
  { intros Hex. rewrite Hsecond, prepare_out_dir_run, Hex. reflexivity. }
  assert (Hcases : Fs.exists_ (fs (snd first)) d = true \/
                   (exists e, first = (Raise e, w) /\
                              prepare_out_dir d false w = (Raise e, w))).
  { subst first. rewrite convert_pdf_run. fold d.
    destruct (prepare_out_dir d (ConvertOptions.overwrite opts) w) as [[[]|e] w1] eqn:Hprep.
    - left.
      pose proof (convert_pdf_after_prepare pdf out_root opts w w1 Hprep) as Hw.
      rewrite convert_pdf_run in Hw. fold d in Hw. rewrite Hprep in Hw.
      pose proof (prepare_out_dir_exists _ _ _ _ Hprep) as Hex1.
      unfold Fs.exists_ in *.
      rewrite (pages_written_outside _ _ _ _ _ d Hw (is_child_irrefl d)). exact Hex1.
    - destruct (Fs.exists_ (fs w) d) eqn:Hex0.
      + left. apply prepare_out_dir_raises in Hprep as [-> _]. exact Hex0.
      + right. exists e. apply prepare_out_dir_raises in Hprep as Hw. destruct Hw as [-> _].
        split; [reflexivity|]. rewrite prepare_out_dir_run, Hex0 in Hprep |- *.
        exact Hprep. }
  assert (Hraise : exists e, second = (Raise e, snd first)).
  { destruct Hcases as [Hex1|(e & Hf & Hp)]; [eauto|].
    exists e. rewrite Hsecond, Hf. cbn [snd]. now rewrite Hp. }
  destruct Hraise as (e & Hr).
  split; [now rewrite Hr|]. split; [exists e; now rewrite Hr|].
  split; [intros Hex1; now rewrite (Hex Hex1)|].
  intros v Hv. destruct Hcases as [Hex1|(e0 & Hf & _)]; [now rewrite (Hex Hex1)|].
  rewrite Hf in Hv. discriminate.
Qed.

(** The theorem above at [a b.pdf] and [a_b.pdf], which share the folder
    [/out/a_b]. *)
Lemma convert_pdf_second_run_refused_witness :
  let first := convert_pdf [py "in"; py "a b.pdf"] [py "out"] default_opts spaced_world in
  let second := convert_pdf [py "in"; py "a_b.pdf"] [py "out"] default_opts (snd first) in
  fst first = Ok ([py "out"; py "a_b"], [[py "out"; py "a_b"; py "page_001.jpg"]]) /\
  fst second = Raise (FileExistsError [py "out"; py "a_b"]) /\
  snd second = snd first.
Proof.
  cbv zeta.
  assert (Hfirst : fst (convert_pdf [py "in"; py "a b.pdf"] [py "out"] default_opts
                          spaced_world)
                   = Ok ([py "out"; py "a_b"], [[py "out"; py "a_b"; py "page_001.jpg"]]))
    by (vm_compute; reflexivity).
  destruct (convert_pdf_second_run_refused [py "in"; py "a b.pdf"] [py "in"; py "a_b.pdf"]
              [py "out"] default_opts default_opts spaced_world)
    as (Hsame & _ & _ & Hrefused).
  - vm_compute. reflexivity.
  - reflexivity.
  - split; [exact Hfirst|]. split; [exact (Hrefused _ Hfirst)|exact Hsame].
Defined.
(** * The page loop when nothing is in its way *)

Lemma is_dir_insert_ne (m : gmap path node) (p q : path) (n : node) :
  p <> q -> Fs.is_dir (<[p := n]> m) q = Fs.is_dir m q.
Proof. intros H. unfold Fs.is_dir. now rewrite lookup_insert_ne. Qed.

Lemma is_child_parent (d q : path) :
  Fs.is_child d q = true -> q <> [] /\ Path.parent q = d.
Proof.
  unfold Fs.is_child. rewrite andb_true_iff, negb_true_iff.
  rewrite bool_decide_eq_false, bool_decide_eq_true. tauto.
Qed.

Lemma page_path_not_folder (d : path) prefix i : page_path d prefix i <> d.
Proof.
  unfold page_path. intros E. apply (f_equal length) in E.
  rewrite length_app in E. cbn in E. lia.
Qed.

Lemma page_image_Some opts pg img :
  page_image opts pg = Some img <->
  exists pix,
    get_pixmap pg (ConvertOptions.zoom opts) = Some pix /\
    maybe_resize (frombytes pix) (ConvertOptions.max_width opts) = Ok img.
Proof.
  unfold page_image. split.
  - destruct (get_pixmap pg _) as [pix|]; [|discriminate].
    destruct (maybe_resize _ _) as [img0|e] eqn:E; [|discriminate].
    intros H. injection H as <-. eauto.
  - intros (pix & -> & ->). reflexivity.
Qed.

(** The lines the loop prints when it runs to its end. *)
Lemma page_loop_console doc (d : path) prefix opts total n :
  forall start acc w paths w',
  for_fold (seq start n) acc (save_page doc d prefix opts total) w = (Ok paths, w') ->
  console w' = console w ++ List.map (progress_message prefix total) (seq start n).
Proof.
  induction n as [|n IH]; intros start acc w paths w' H.
  - cbn in H. injection H as _ <-. now rewrite app_nil_r.
  - cbn [seq for_fold] in H. rewrite bind_run, save_page_run in H.
    destruct (doc_pages doc !! start) as [pg|]; [|discriminate].
    destruct (get_pixmap pg _) as [pix|]; [|discriminate].
    destruct (maybe_resize _ _) as [img|e]; [|discriminate].
    cbv zeta in H.
    destruct (Fs.is_dir (fs w) (page_path d prefix start)); [discriminate|].
    destruct (Fs.is_dir (fs w) d); [|destruct (Fs.is_file (fs w) d); discriminate].
    apply IH in H. cbn [console] in H. rewrite H, <- app_assoc. reflexivity.
Qed.

(** The loop runs to its end when the folder is a directory, every page
    gives an image, and no directory has the name of a page image. *)
Lemma page_loop_succeeds doc (d : path) prefix opts total n :
  forall start acc w,
  Fs.is_dir (fs w) d = true ->
  (forall i, (start <= i < start + n)%nat ->
     (exists pg img, doc_pages doc !! i = Some pg /\ page_image opts pg = Some img) /\
     Fs.is_dir (fs w) (page_path d prefix i) = false) ->
  exists paths w',
    for_fold (seq start n) acc (save_page doc d prefix opts total) w = (Ok paths, w').
Proof.
  induction n as [|n IH]; intros start acc w Hd Hpages.
  - eexists _, _. reflexivity.
  - destruct (Hpages start ltac:(lia)) as [(pg & img & Hpg & Himg) Hfree].
    apply page_image_Some in Himg as (pix & Hpix & Hres).
    cbn [seq for_fold]. rewrite bind_run, save_page_run, Hpg, Hpix, Hres. cbv zeta.
    rewrite Hfree, Hd. apply IH.
    + cbn [fs]. rewrite is_dir_insert_ne; [exact Hd|apply page_path_not_folder].
    + intros i Hi. destruct (Hpages i ltac:(lia)) as [Hex Hf]. split; [exact Hex|].
      cbn [fs]. rewrite is_dir_insert_ne; [exact Hf|].
      intros E. apply page_path_inj in E. lia.
Qed.

(** X15: what a successful conversion prints: one header line with the
    name of the document and its number of pages, then one progress line
    per page, in page order; for a document of one page the progress line
    is the short "Page 1/1 saved", otherwise it names the page number, the
    total and the image file. *)
Theorem convert_pdf_progress_messages
    (pdf out_root : path) (opts : ConvertOptions.t) (w : world)
    (v : path * list path) (w' : world) :
  convert_pdf pdf out_root opts w = (Ok v, w') ->
  exists pages,
    fs w !! pdf = Some (File (Pdf pages)) /\
    pages <> [] /\
    console w' =
      console w ++
      MsgDocument (Path.name pdf) (length pages) ::
      List.map (progress_message (sanitize_name (ConvertOptions.prefix opts) (py "page"))
                                 (length pages))
               (seq 0 (length pages)).
Proof.
  rewrite convert_pdf_run.
  set (d := Path.joinpath out_root (sanitize_name (Path.stem pdf) (py "document"))).
  set (prefix := sanitize_name (ConvertOptions.prefix opts) (py "page")).
  destruct (prepare_out_dir d (ConvertOptions.overwrite opts) w) as [[[]|e] w1] eqn:Hprep;
    [|discriminate].
  destruct (prepare_out_dir_ok _ _ _ _ Hprep) as (_ & Hc & _).
  destruct (fs w1 !! pdf) as [[[data|pages|img q|entries]|]|] eqn:Hpdf; try discriminate.
  destruct (length pages =? 0)%nat eqn:Hlen; [discriminate|].
  destruct (for_fold _ _ _ _) as [[paths|e] w2] eqn:Hloop; [|discriminate].
  intros H. injection H as _ <-. cbn [console].
  exists pages. split; [exact (prepare_keeps_files _ _ _ _ _ _ Hprep Hpdf)|].
  split; [intros ->; discriminate|].
  apply page_loop_console in Hloop. cbn [console] in Hloop.
  rewrite Hloop, Hc, <- app_assoc. reflexivity.
Qed.

(** The theorem above at the document of two pages. *)
Lemma convert_pdf_progress_messages_witness :
  console (snd (convert_pdf [py "in"; py "a.pdf"] [py "out"] default_opts two_page_world))
  = [MsgDocument (py "a.pdf") 2;
     MsgPage 1 2 (py "page_001.jpg");
     MsgPage 2 2 (py "page_002.jpg")].
Proof.
  destruct (convert_pdf [py "in"; py "a.pdf"] [py "out"] default_opts two_page_world)
    as [r w'] eqn:Hrun.
  assert (Hr : r = Ok ([py "out"; py "a"],
                       [[py "out"; py "a"; py "page_001.jpg"];
                        [py "out"; py "a"; py "page_002.jpg"]])).
  { apply (f_equal fst) in Hrun. cbn [fst] in Hrun. rewrite <- Hrun.
    vm_compute. reflexivity. }
  rewrite Hr in Hrun.
  destruct (convert_pdf_progress_messages _ _ _ _ _ _ Hrun) as (pages & Hdoc & _ & Hcon).
  assert (Hpages : pages = [sample_page 2000 1000; sample_page 100 50]).
  { assert (E : fs two_page_world !! [py "in"; py "a.pdf"]
                = Some (File (Pdf [sample_page 2000 1000; sample_page 100 50])))
      by (vm_compute; reflexivity).
    pose proof (eq_trans (eq_sym Hdoc) E) as EE. now injection EE as EE. }
  cbn [snd]. rewrite Hcon, Hpages. reflexivity.
Defined.

(** The conversion that succeeds, with all that is known of the world it
    leaves. *)
Lemma convert_pdf_succeeds_facts
    (pdf out_root : path) (opts : ConvertOptions.t) (w : world) (pages : list page) :
  let d := Path.joinpath out_root (sanitize_name (Path.stem pdf) (py "document")) in
  let prefix := sanitize_name (ConvertOptions.prefix opts) (py "page") in
  let paths := List.map (page_path d prefix) (seq 0 (length pages)) in
  Fs.wf (fs w) ->
  Fs.is_dir (fs w) out_root = true ->
  fs w !! pdf = Some (File (Pdf pages)) ->
  pages <> [] ->
  Forall (fun pg => exists img, page_image opts pg = Some img) pages ->
  (Fs.exists_ (fs w) d = false \/
   (ConvertOptions.overwrite opts = true /\
    Fs.is_dir (fs w) d = true /\
    Fs.is_child d pdf = false /\
    forall i, (i < length pages)%nat ->
      Fs.is_dir (fs w) (page_path d prefix i) = false)) ->
  exists w',
    convert_pdf pdf out_root opts w = (Ok (d, paths), w') /\
    open_docs w' = open_docs w /\
    console w' = console w ++ MsgDocument (Path.name pdf) (length pages) ::
                 List.map (progress_message prefix (length pages)) (seq 0 (length pages)) /\
    (forall i pg img,
       pages !! i = Some pg -> page_image opts pg = Some img ->
       fs w' !! page_path d prefix i
       = Some (File (Jpeg img (ConvertOptions.quality opts)))) /\
    Fs.is_dir (fs w') d = true /\
    (forall q, Fs.is_child d q = true -> ~ In q paths ->
       Fs.is_dir (fs w') q = Fs.is_dir (fs w) q).
Proof.
  intros d prefix paths Hwf Hroot Hdoc Hne Himgs Hcase.
  assert (Hprep : exists w1,
             prepare_out_dir d (ConvertOptions.overwrite opts) w = (Ok tt, w1) /\
             fs w1 !! pdf = Some (File (Pdf pages)) /\
             Fs.is_dir (fs w1) d = true /\
             (forall q, Fs.is_child d q = true -> Fs.is_dir (fs w1) q = Fs.is_dir (fs w) q) /\
             (forall i, (i < length pages)%nat ->
                Fs.is_dir (fs w1) (page_path d prefix i) = false)).
  { rewrite prepare_out_dir_run.
    destruct (Fs.exists_ (fs w) d) eqn:Hex.
    - destruct Hcase as [?|(Hov & Hd & Hc & Hfree)]; [discriminate|]. rewrite Hov.
      assert (Hdirs : forall q,
                Fs.is_dir (remove_files (Fs.glob (fs w) d Star) (fs w)) q
                = Fs.is_dir (fs w) q).
      { intros q. unfold Fs.is_dir. rewrite cleaned_lookup.
        destruct (is_empty q); [reflexivity|]. cbn [orb].
        destruct (_ && _ && Fs.is_file (fs w) q) eqn:C; [|reflexivity].
        apply andb_true_iff in C as [_ Hf]. unfold Fs.is_file in Hf.
        destruct (fs w !! q) as [[c|]|]; try discriminate; reflexivity. }
      eexists. split; [reflexivity|]. cbn [fs]. split; [|split; [|split]].
      + rewrite cleaned_lookup, Hc, andb_false_r. exact Hdoc.
      + now rewrite Hdirs.
      + intros q _. apply Hdirs.
      + intros i Hi. rewrite Hdirs. now apply Hfree.
    - destruct (exists_false _ _ Hex) as [Hnil Hnone].
      destruct (joinpath_cases out_root (sanitize_name (Path.stem pdf) (py "document")))
        as [E|E]; fold d in E.
      { rewrite E, (is_dir_exists _ _ Hroot) in Hex. discriminate. }
      rewrite mkdir_parents_run, E.
      rewrite (mkdir_parents_fresh (fs w) out_root _ Hwf Hroot) by (rewrite <- E; exact Hnone).
      assert (Hinside : forall q, Fs.is_child d q = true ->
                Fs.is_dir (add_dirs (Fs.prefixes d) (fs w)) q = false /\
                Fs.is_dir (fs w) q = false).
      { intros q Hc. destruct (is_child_parent d q Hc) as [Hq Hpar].
        assert (Eq : fs w !! q = None).
        { destruct (fs w !! q) as [x|] eqn:Eq; [|reflexivity].
          exfalso. destruct (Hwf _ _ Eq) as [_ Hp].
          rewrite Hpar in Hp. apply is_dir_lookup in Hp; [congruence|assumption]. }
        unfold Fs.is_dir. rewrite (is_empty_false q Hq). cbn [orb].
        rewrite add_dirs_lookup, Eq.
        rewrite bool_decide_eq_false_2
          by (rewrite list_elem_of_In; now apply child_not_prefix).
        now split. }
      eexists. split; [reflexivity|]. cbn [fs]. rewrite <- E. split; [|split; [|split]].
      + rewrite add_dirs_lookup.
        destruct (decide (pdf ∈ Fs.prefixes d)) as [Hin|Hin].
        * exfalso. apply list_elem_of_In in Hin. rewrite E, prefixes_snoc in Hin.
          apply in_app_or in Hin as [Hin|[Hin|[]]].
          -- apply (wf_ancestors _ _ Hwf Hroot) in Hin as Hd.
             apply is_dir_lookup in Hd; [congruence|].
             apply prefixes_length in Hin. intros ->. cbn in Hin. lia.
          -- rewrite <- E in Hin. congruence.
        * rewrite bool_decide_eq_false_2 by assumption. exact Hdoc.
      + apply is_dir_lookup; [assumption|]. rewrite add_dirs_lookup.
        rewrite bool_decide_eq_true_2; [reflexivity|].
        apply list_elem_of_In, prefixes_self. assumption.
      + intros q Hc. destruct (Hinside q Hc) as [-> ->]. reflexivity.
      + intros i _. apply Hinside. apply is_child_app. }
  destruct Hprep as (w1 & Hprep & Hpdf & Hd1 & Hdirs & Hfree).
  destruct (prepare_out_dir_ok _ _ _ _ Hprep) as (Ho & Hc1 & _).
  rewrite convert_pdf_run. fold d prefix. rewrite Hprep, Hpdf.
  assert (Hlen : (length pages =? 0)%nat = false)
    by (apply Nat.eqb_neq; destruct pages; [congruence|discriminate]).
  rewrite Hlen.
  match goal with
  | |- context [for_fold ?l ?acc ?body ?w0] =>
      destruct (page_loop_succeeds {| doc_path := pdf; doc_pages := pages |} d prefix opts
                  (length pages) (length pages) 0 acc w0) as (paths0 & w2 & Hloop)
  end.
  { exact Hd1. }
  { intros i Hi. split; [|apply Hfree; lia]. cbn [doc_pages].
    destruct (lookup_lt_is_Some_2 pages i ltac:(lia)) as [pg Hpg].
    rewrite List.Forall_forall in Himgs.
    destruct (Himgs pg) as (img & Himg); [|eauto].
    apply list_elem_of_In. eapply list_elem_of_lookup_2. exact Hpg. }
  rewrite Hloop.
  pose proof (page_loop_console _ _ _ _ _ _ _ _ _ _ _ Hloop) as Hcon.
  apply page_loop_ok in Hloop as (Hp & Ho2 & Hframe & Hpages).
  cbn [fs open_docs console app doc_pages] in *.
  fold paths in Hp, Hframe. rewrite Hp.
  eexists. split; [reflexivity|]. cbn [fs open_docs console].
  split; [rewrite Ho2, remove_first_head; exact Ho|].
  split; [rewrite Hcon, Hc1, <- app_assoc; reflexivity|].
  split; [|split].
  - intros i pg img Hpg Himg.
    assert (Hi : (i < length pages)%nat) by (eapply lookup_lt_Some; eassumption).
    destruct (Hpages i ltac:(lia)) as [_ (pg' & pix & img' & Hpg' & Hpix & Hres & Hq)].
    rewrite Hpg in Hpg'. injection Hpg' as <-.
    assert (E : page_image opts pg = Some img') by (apply page_image_Some; eauto).
    rewrite Himg in E. injection E as <-. exact Hq.
  - unfold Fs.is_dir in *. rewrite Hframe; [exact Hd1|].
    subst paths. rewrite List.in_map_iff. intros [i [E _]].
    now apply page_path_not_folder in E.
  - intros q Hc Hq. rewrite <- (Hdirs q Hc). unfold Fs.is_dir. now rewrite (Hframe q Hq).
Qed.

(** X16: a conversion that must succeed.  In a tree where the output root
    is a directory, for a document with at least one page whose pages all
    give an image of a size that a JPEG file can hold, and an output folder
    that does not exist yet, or that is a directory, with [overwrite] set,
    the document not directly inside it and no sub-directory named like a
    page image: [convert_pdf] returns the folder and one path per page, the
    image of every page is in its file, and the document handle is closed.
    (For a document whose folder name is not "..": the paths of the model
    are lexical.) *)
Theorem convert_pdf_succeeds
    (pdf out_root : path) (opts : ConvertOptions.t) (w : world) (pages : list page) :
  let d := Path.joinpath out_root (sanitize_name (Path.stem pdf) (py "document")) in
  let prefix := sanitize_name (ConvertOptions.prefix opts) (py "page") in
  sanitize_name (Path.stem pdf) (py "document") <> py ".." ->
  Fs.wf (fs w) ->
  Fs.is_dir (fs w) out_root = true ->
  fs w !! pdf = Some (File (Pdf pages)) ->
  pages <> [] ->
  Forall (fun pg => exists img, page_image opts pg = Some img /\ jpeg_size img) pages ->
  (Fs.exists_ (fs w) d = false \/
   (ConvertOptions.overwrite opts = true /\
    Fs.is_dir (fs w) d = true /\
    Fs.is_child d pdf = false /\
    forall i, (i < length pages)%nat ->
      Fs.is_dir (fs w) (page_path d prefix i) = false)) ->
  exists paths w',
    convert_pdf pdf out_root opts w = (Ok (d, paths), w') /\
    paths = List.map (page_path d prefix) (seq 0 (length pages)) /\
    open_docs w' = open_docs w /\
    (forall i pg img,
       pages !! i = Some pg -> page_image opts pg = Some img ->
       fs w' !! page_path d prefix i
       = Some (File (Jpeg img (ConvertOptions.quality opts)))).
Proof.
  intros d prefix _ Hwf Hroot Hdoc Hne Himgs Hcase.
  assert (Himgs' : Forall (fun pg => exists img, page_image opts pg = Some img) pages).
  { eapply List.Forall_impl; [|exact Himgs]. intros pg (img & Himg & _). eauto. }
  destruct (convert_pdf_succeeds_facts pdf out_root opts w pages
              Hwf Hroot Hdoc Hne Himgs' Hcase) as (w' & Hrun & Ho & _ & Hfiles & _).
  exists (List.map (page_path d prefix) (seq 0 (length pages))), w'.
  split; [exact Hrun|]. split; [reflexivity|]. split; [exact Ho|exact Hfiles].
Qed.

(** The theorem above at the document of two pages and a fresh folder. *)
Lemma convert_pdf_succeeds_witness :
  exists w',
    convert_pdf [py "in"; py "a.pdf"] [py "out"] default_opts two_page_world
    = (Ok ([py "out"; py "a"],
           [[py "out"; py "a"; py "page_001.jpg"]; [py "out"; py "a"; py "page_002.jpg"]]),
       w') /\
    open_docs w' = [].
Proof.
  destruct (convert_pdf_succeeds [py "in"; py "a.pdf"] [py "out"] default_opts
              two_page_world [sample_page 2000 1000; sample_page 100 50])
    as (paths & w' & Hrun & Hpaths & Ho & _).
  - vm_compute. discriminate.
  - apply (bool_decide_unpack (Fs.wf two_page_fs)). vm_compute. exact I.
  - vm_compute. reflexivity.
  - vm_compute. reflexivity.
  - discriminate.
  - repeat constructor; eexists; (split; [vm_compute; reflexivity|]);
      unfold jpeg_size; vm_compute; repeat split; discriminate.
  - left. vm_compute. reflexivity.
  - exists w'. split; [|exact Ho]. rewrite Hrun, Hpaths. reflexivity.
Defined.

(** X17: with [overwrite], converting again reproduces the result.  In a
    tree, when a call of [convert_pdf] with [overwrite] returns, the same
    call in the world it left returns the same folder and paths, leaves
    the file system exactly as the first call left it, and closes its
    document handle. *)
Theorem convert_pdf_overwrite_rerun
    (pdf out_root : path) (opts : ConvertOptions.t) (w : world)
    (v : path * list path) (w' : world) :
  Fs.wf (fs w) ->
  ConvertOptions.overwrite opts = true ->
  convert_pdf pdf out_root opts w = (Ok v, w') ->
  exists w'',
    convert_pdf pdf out_root opts w' = (Ok v, w'') /\
    fs w'' = fs w' /\
    open_docs w'' = open_docs w'.
Proof.
  intros Hwf Hov H. rewrite convert_pdf_run in H.
  set (d := Path.joinpath out_root (sanitize_name (Path.stem pdf) (py "document"))) in *.
  set (prefix := sanitize_name (ConvertOptions.prefix opts) (py "page")) in *.
  destruct (prepare_out_dir d (ConvertOptions.overwrite opts) w) as [[[]|e] w1] eqn:Hprep;
    [|discriminate].
  destruct (fs w1 !! pdf) as [[[data|pages|img q|entries]|]|] eqn:Hpdf1; try discriminate.
  destruct (length pages =? 0)%nat eqn:Hlen; [discriminate|].
  destruct (for_fold _ _ _ _) as [[paths|e] w2] eqn:Hloop; [|discriminate].
  injection H as <- <-.
  apply page_loop_ok in Hloop as (Hp & Ho & Hframe & Hpages).
  cbn [fs open_docs console app doc_pages] in *.
  assert (HN : (0 < length pages)%nat) by (apply Nat.eqb_neq in Hlen; lia).
  assert (Hd1 : Fs.is_dir (fs w1) d = true)
    by (destruct (Hpages 0%nat ltac:(lia)) as [Hd _]; exact Hd).
  assert (Hout : forall q, Fs.is_child d q = false -> fs w2 !! q = fs w1 !! q).
  { intros q Hc. apply Hframe. rewrite List.in_map_iff. intros [i [<- _]].
    unfold page_path in Hc. rewrite is_child_app in Hc. discriminate. }
  assert (Hd2 : Fs.is_dir (fs w2) d = true).
  { unfold Fs.is_dir in *. now rewrite (Hout d (is_child_irrefl d)). }
  assert (Hold : forall q, Fs.is_child d q = true ->
                   ~ In q (List.map (page_path d prefix) (seq 0 (length pages))) ->
                   Fs.is_file (fs w2) q = false).
  { intros q Hc Hq. unfold Fs.is_file. rewrite (Hframe q Hq).
    exact (prepare_no_file_inside _ _ _ _ q Hwf Hprep Hd1 Hc). }
  assert (Hpdfc : Fs.is_child d pdf = false).
  { destruct (Fs.is_child d pdf) eqn:Hc; [|reflexivity].
    pose proof (prepare_no_file_inside _ _ _ _ pdf Hwf Hprep Hd1 Hc) as Hn.
    unfold Fs.is_file in Hn. rewrite Hpdf1 in Hn. discriminate. }
  rewrite convert_pdf_run. fold d prefix.
  rewrite prepare_out_dir_run. cbn [fs open_docs console].
  rewrite (is_dir_exists _ _ Hd2), Hov.
  assert (Hm : forall q, remove_files (Fs.glob (fs w2) d Star) (fs w2) !! q
                         = if Fs.is_child d q && Fs.is_file (fs w2) q then None
                           else fs w2 !! q).
  { intros q. now rewrite cleaned_lookup, Hd2. }
  set (m := remove_files (Fs.glob (fs w2) d Star) (fs w2)) in *.
  assert (Hpdfm : m !! pdf = Some (File (Pdf pages))).
  { rewrite Hm, Hpdfc. cbn [andb]. now rewrite (Hout pdf Hpdfc). }
  cbn [fs open_docs console]. rewrite Hpdfm, Hlen.
  match goal with
  | |- context [for_fold ?l ?acc ?body ?w0] =>
      destruct (page_loop_succeeds {| doc_path := pdf; doc_pages := pages |} d prefix opts
                  (length pages) (length pages) 0 acc w0) as (paths' & w3 & Hloop')
  end.
  { cbn [fs]. unfold Fs.is_dir in *. now rewrite Hm, is_child_irrefl. }
  { intros i Hi. destruct (Hpages i ltac:(lia)) as [_ (pg & pix & img & Hpg & Hpix & Hres & Hq)].
    split; [exists pg, img; split; [exact Hpg|apply page_image_Some; eauto]|].
    cbn [fs]. unfold Fs.is_dir. rewrite is_empty_false by apply snoc_not_nil.
    rewrite Hm. unfold page_path at 1. rewrite is_child_app.
    unfold Fs.is_file. now rewrite Hq. }
  rewrite Hloop'.
  apply page_loop_ok in Hloop' as (Hp' & Ho' & Hframe' & Hpages').
  cbn [fs open_docs console app doc_pages] in *.
  eexists. split; [rewrite Hp, Hp'; reflexivity|]. cbn [fs open_docs]. split.
  - apply map_eq. intros q.
    destruct (decide (q ∈ List.map (page_path d prefix) (seq 0 (length pages)))) as [Hin|Hin];
      rewrite list_elem_of_In in Hin.
    + apply List.in_map_iff in Hin as [i [<- Hi]]. apply in_seq in Hi.
      destruct (Hpages i ltac:(lia)) as [_ (pg & pix & img & Hpg & Hpix & Hres & Hq)].
      destruct (Hpages' i ltac:(lia)) as [_ (pg' & pix' & img' & Hpg' & Hpix' & Hres' & Hq')].
      rewrite Hq, Hq'. congruence.
    + rewrite (Hframe' q Hin), Hm.
      destruct (Fs.is_child d q) eqn:Hc; [|reflexivity].
      now rewrite (Hold q Hc Hin).
  - now rewrite Ho', remove_first_head.
Qed.

(** The theorem above at the document of two pages. *)
Lemma convert_pdf_overwrite_rerun_witness :
  let first := convert_pdf [py "in"; py "a.pdf"] [py "out"] overwrite_opts two_page_world in
  exists w'',
    convert_pdf [py "in"; py "a.pdf"] [py "out"] overwrite_opts (snd first)
    = (fst first, w'') /\
    fs w'' = fs (snd first).
Proof.
  cbv zeta.
  destruct (convert_pdf [py "in"; py "a.pdf"] [py "out"] overwrite_opts two_page_world)
    as [r w'] eqn:Hrun.
  assert (Hr : r = Ok ([py "out"; py "a"],
                       [[py "out"; py "a"; py "page_001.jpg"];
                        [py "out"; py "a"; py "page_002.jpg"]])).
  { apply (f_equal fst) in Hrun. cbn [fst] in Hrun. rewrite <- Hrun.
    vm_compute. reflexivity. }
  rewrite Hr in Hrun |- *. cbn [fst snd].
  assert (Hwf : Fs.wf (fs two_page_world))
    by (apply (bool_decide_unpack (Fs.wf two_page_fs)); vm_compute; exact I).
  destruct (convert_pdf_overwrite_rerun [py "in"; py "a.pdf"] [py "out"] overwrite_opts
              two_page_world _ w' Hwf eq_refl Hrun)
    as (w'' & Hagain & Hfs & _).
  exists w''. split; [exact Hagain|exact Hfs].
Defined.

(** X18: with [overwrite], a document takes over the folder of another one.
    When a document was converted and then a document whose stem is
    sanitised to the same folder name is converted with [overwrite], the
    second conversion returns the same folder, and no image of the first
    document survives: each of them is an image of the second document now,
    or is deleted. *)
Theorem convert_pdf_overwrite_replaces_images
    (pdf pdf' out_root : path) (opts opts' : ConvertOptions.t) (w : world)
    (v : path * list path) (w1 : world) (v' : path * list path) (w2 : world) :
  sanitize_name (Path.stem pdf') (py "document")
  = sanitize_name (Path.stem pdf) (py "document") ->
  ConvertOptions.overwrite opts' = true ->
  convert_pdf pdf out_root opts w = (Ok v, w1) ->
  convert_pdf pdf' out_root opts' w1 = (Ok v', w2) ->
  fst v' = fst v /\
  (forall q, In q (snd v) -> Fs.is_file (fs w1) q = true) /\
  (forall q, In q (snd v) -> ~ In q (snd v') -> fs w2 !! q = None) /\
  (forall q, In q (snd v') ->
     exists pages' i pg img,
       fs w1 !! pdf' = Some (File (Pdf pages')) /\ pages' !! i = Some pg /\
       page_image opts' pg = Some img /\
       fs w2 !! q = Some (File (Jpeg img (ConvertOptions.quality opts')))).
Proof.
  intros Hstem Hov H1 H2.
  rewrite convert_pdf_run in H1. rewrite convert_pdf_run, Hstem in H2.
  set (d := Path.joinpath out_root (sanitize_name (Path.stem pdf) (py "document"))) in *.
  set (prefix := sanitize_name (ConvertOptions.prefix opts) (py "page")) in *.
  set (prefix' := sanitize_name (ConvertOptions.prefix opts') (py "page")) in *.
  destruct (prepare_out_dir d (ConvertOptions.overwrite opts) w) as [[[]|e] w0] eqn:Hprep;
    [|discriminate].
  destruct (fs w0 !! pdf) as [[[data|pages|img q|entries]|]|] eqn:Hpdf; try discriminate.
  destruct (length pages =? 0)%nat eqn:Hlen; [discriminate|].
  destruct (for_fold _ _ _ _) as [[paths|e] wl] eqn:Hloop; [|discriminate].
  injection H1 as <- <-.
  apply page_loop_ok in Hloop as (Hp & _ & Hframe & Hpages).
  cbn [fs open_docs console app doc_pages fst snd] in *.
  assert (HN : (0 < length pages)%nat) by (apply Nat.eqb_neq in Hlen; lia).
  assert (Hd : Fs.is_dir (fs wl) d = true).
  { destruct (Hpages 0%nat ltac:(lia)) as [Hd0 _]. unfold Fs.is_dir in *.
    rewrite Hframe; [exact Hd0|].
    rewrite List.in_map_iff. intros [i [E _]]. now apply page_path_not_folder in E. }
  assert (Hfiles : forall q, In q paths ->
            Fs.is_file (fs wl) q = true /\ Fs.is_child d q = true).
  { intros q Hq. rewrite Hp in Hq. apply List.in_map_iff in Hq as [i [<- Hi]].
    apply in_seq in Hi.
    destruct (Hpages i ltac:(lia)) as [_ (pg & pix & img & _ & _ & _ & Hq)].
    split; [unfold Fs.is_file; now rewrite Hq|apply is_child_app]. }
  rewrite prepare_out_dir_run in H2. cbn [fs open_docs console] in H2.
  rewrite (is_dir_exists _ _ Hd), Hov in H2. cbn [fs] in H2.
  set (m := remove_files (Fs.glob (fs wl) d Star) (fs wl)) in *.
  destruct (m !! pdf') as [[[data'|pages'|img' q'|entries']|]|] eqn:Hpdf'; try discriminate.
  destruct (length pages' =? 0)%nat; [discriminate|].
  destruct (for_fold _ _ _ _) as [[paths'|e] wl'] eqn:Hloop'; [|discriminate].
  injection H2 as <- <-.
  apply page_loop_ok in Hloop' as (Hp' & _ & Hframe' & Hpages').
  cbn [fs open_docs console app doc_pages fst snd] in *.
  split; [reflexivity|]. split; [intros q Hq; now apply Hfiles|]. split.
  - intros q Hq Hq'. rewrite Hp' in Hq'. rewrite (Hframe' q Hq').
    destruct (Hfiles q Hq) as [Hf Hc]. subst m.
    now rewrite cleaned_lookup, Hd, Hc, Hf.
  - intros q Hq. rewrite Hp' in Hq. apply List.in_map_iff in Hq as [i [<- Hi]].
    apply in_seq in Hi.
    destruct (Hpages' i ltac:(lia)) as [_ (pg & pix & img & Hpg & Hpix & Hres & Hq)].
    exists pages', i, pg, img. split; [|split; [exact Hpg|split; [|exact Hq]]].
    + subst m. rewrite cleaned_lookup in Hpdf'.
      destruct (_ && _ && _); [discriminate|exact Hpdf'].
    + apply page_image_Some. eauto.
Qed.

(** The theorem above at [a b.pdf], of two pages, and then [a_b.pdf], of
    one page: the second image of the first document is deleted. *)
Lemma convert_pdf_overwrite_replaces_images_witness :
  let first := convert_pdf [py "in"; py "a b.pdf"] [py "out"] default_opts collide_world in
  let second := convert_pdf [py "in"; py "a_b.pdf"] [py "out"] overwrite_opts (snd first) in
  Fs.is_file (fs (snd first)) [py "out"; py "a_b"; py "page_002.jpg"] = true /\
  fs (snd second) !! [py "out"; py "a_b"; py "page_002.jpg"] = None.
Proof.
  cbv zeta.
  destruct (convert_pdf [py "in"; py "a b.pdf"] [py "out"] default_opts collide_world)
    as [r1 w1] eqn:H1.
  assert (Hr1 : r1 = Ok ([py "out"; py "a_b"],
                         [[py "out"; py "a_b"; py "page_001.jpg"];
                          [py "out"; py "a_b"; py "page_002.jpg"]])).
  { apply (f_equal fst) in H1. cbn [fst] in H1. rewrite <- H1. vm_compute. reflexivity. }
  rewrite Hr1 in H1. cbn [snd].
  destruct (convert_pdf [py "in"; py "a_b.pdf"] [py "out"] overwrite_opts w1)
    as [r2 w2] eqn:H2.
  assert (Hr2 : r2 = Ok ([py "out"; py "a_b"], [[py "out"; py "a_b"; py "page_001.jpg"]])).
  { apply (f_equal fst) in H2. cbn [fst] in H2. rewrite <- H2.
    apply (f_equal snd) in H1. cbn [snd] in H1. rewrite <- H1. vm_compute. reflexivity. }
  rewrite Hr2 in H2. cbn [snd].
  assert (Hstem : sanitize_name (Path.stem [py "in"; py "a_b.pdf"]) (py "document")
                  = sanitize_name (Path.stem [py "in"; py "a b.pdf"]) (py "document"))
    by (vm_compute; reflexivity).
  destruct (convert_pdf_overwrite_replaces_images
              [py "in"; py "a b.pdf"] [py "in"; py "a_b.pdf"] [py "out"]
              default_opts overwrite_opts collide_world _ w1 _ w2 Hstem eq_refl H1 H2)
    as (_ & Hfiles & Hgone & _).
  split.
  - apply Hfiles. cbn [snd]. right. now left.
  - apply Hgone; cbn [snd].
    + right. now left.
    + intros [E|[]]. discriminate.
Defined.
(** * More about [make_zip], lines 148-154 *)

Lemma same_but_refl p w : same_but p w w.
Proof. now repeat split. Qed.

Lemma same_but_trans p w1 w2 w3 :
  same_but p w1 w2 -> same_but p w2 w3 -> same_but p w1 w3.
Proof.
  intros (F1 & O1 & C1) (F2 & O2 & C2). repeat split; try congruence.
  intros q Hq. now rewrite F2, F1.
Qed.

(** A sequence of two steps keeps what each of them keeps. *)
Lemma bind_preserves {A B} (R : world -> world -> Prop) (m : M A) (k : A -> M B) w :
  (forall w1 w2 w3, R w1 w2 -> R w2 w3 -> R w1 w3) ->
  R w (snd (m w)) -> (forall a w1, R w1 (snd (k a w1))) ->
  R w (snd ((m ≫= k) w)).
Proof.
  intros Htrans Hm Hk. rewrite bind_run.
  destruct (m w) as [[a|e] w1]; cbn [snd] in *; [|exact Hm].
  eapply Htrans; [exact Hm|apply Hk].
Qed.

Lemma for_each_preserves {A} (R : world -> world -> Prop) (body : A -> M unit) :
  (forall w, R w w) ->
  (forall w1 w2 w3, R w1 w2 -> R w2 w3 -> R w1 w3) ->
  (forall a w, R w (snd (body a w))) ->
  forall l w, R w (snd (for_each l body w)).
Proof.
  intros Hrefl Htrans Hbody l. induction l as [|a l IH]; intros w; [apply Hrefl|].
  cbn [for_each]. apply bind_preserves; auto.
Qed.

Lemma for_each_app_run {A} (l1 l2 : list A) (body : A -> M unit) w :
  for_each (l1 ++ l2) body w =
  match for_each l1 body w with
  | (Ok _, w1) => for_each l2 body w1
  | (Raise e, w1) => (Raise e, w1)
  end.
Proof.
  revert w. induction l1 as [|a l1 IH]; intros w; [reflexivity|].
  cbn [app for_each]. rewrite !bind_run.
  destruct (body a w) as [[[]|e] w1]; [apply IH|reflexivity].
Qed.

Lemma unlink_same_but (p : path) w : same_but p w (snd (unlink p w)).
Proof.
  unfold unlink. destruct (fs w !! p) as [[c|]|]; cbn [snd]; try apply same_but_refl.
  repeat split. intros q Hq. cbn [set_fs fs]. now apply lookup_delete_ne.
Qed.

Lemma write_file_same_but (p : path) c w : same_but p w (snd (write_file p c w)).
Proof.
  rewrite write_file_run.
  destruct (Fs.is_dir (fs w) p); [apply same_but_refl|].
  destruct (Fs.is_dir (fs w) (Path.parent p)).
  - repeat split. intros q Hq. cbn [snd fs]. now apply lookup_insert_ne.
  - destruct (Fs.is_file (fs w) (Path.parent p)); apply same_but_refl.
Qed.

Lemma zf_write_same_but (p f : path) arcname w :
  same_but p w (snd (zf_write p f arcname w)).
Proof.
  unfold zf_write.
  destruct (fs w !! p) as [[[data|pages|img q|entries]|]|]; try apply same_but_refl.
  destruct (fs w !! f) as [[c|]|]; cbn [snd]; try apply same_but_refl;
    (repeat split; intros q Hq; cbn [set_fs fs]; now apply lookup_insert_ne).
Qed.

Lemma make_zip_same_but (zip_path : path) files w :
  same_but zip_path w (snd (make_zip zip_path files w)).
Proof.
  unfold make_zip.
  apply bind_preserves; [apply same_but_trans|apply same_but_refl|]. intros ex w1.
  apply bind_preserves; [apply same_but_trans| |].
  { destruct ex; [apply unlink_same_but|apply same_but_refl]. }
  intros _ w2.
  apply bind_preserves; [apply same_but_trans|apply write_file_same_but|]. intros _ w3.
  apply bind_preserves; [apply same_but_trans| |intros; apply same_but_refl].
  apply for_each_preserves;
    [apply same_but_refl|apply same_but_trans|intros; apply zf_write_same_but].
Qed.

(** [make_zip] up to its loop, for an archive path that is free or holds a
    regular file, in a directory. *)
Lemma make_zip_run (zip_path : path) files w :
  Fs.is_dir (fs w) zip_path = false ->
  Fs.is_dir (fs w) (Path.parent zip_path) = true ->
  make_zip zip_path files w =
  match for_each files (fun f => zf_write zip_path f (Path.name f))
          (World (<[zip_path := File (Zip [])]> (delete zip_path (fs w)))
                 (open_docs w) (console w)) with
  | (Ok _, w') => (Ok zip_path, w')
  | (Raise e, w') => (Raise e, w')
  end.
Proof.
  intros Hnd Hpar.
  assert (Hne : zip_path <> []) by (intros ->; discriminate).
  assert (Hdel : (if Fs.exists_ (fs w) zip_path then unlink zip_path else mret tt) w
                 = (Ok tt, World (delete zip_path (fs w)) (open_docs w) (console w))).
  { destruct (Fs.exists_ (fs w) zip_path) eqn:Hex.
    - unfold unlink. unfold Fs.exists_ in Hex. rewrite (is_empty_false _ Hne) in Hex.
      cbn [orb] in Hex. apply bool_decide_eq_true in Hex as [n Hn].
      rewrite Hn. destruct n as [c|]; [reflexivity|].
      apply is_dir_lookup in Hn; [congruence|assumption].
    - apply exists_false in Hex as [_ Hn]. rewrite ret_run.
      rewrite delete_id by assumption. now rewrite world_eta. }
  set (w1 := World (delete zip_path (fs w)) (open_docs w) (console w)) in *.
  assert (Hcreate : zipfile_create zip_path w1
                    = (Ok tt, World (<[zip_path := File (Zip [])]> (fs w1))
                                    (open_docs w1) (console w1))).
  { unfold zipfile_create. rewrite write_file_run.
    assert (E1 : Fs.is_dir (fs w1) zip_path = false).
    { unfold Fs.is_dir. rewrite (is_empty_false _ Hne). cbn [orb fs w1].
      now rewrite lookup_delete_eq. }
    assert (E2 : Fs.is_dir (fs w1) (Path.parent zip_path) = true).
    { unfold Fs.is_dir in *. cbn [fs w1].
      rewrite lookup_delete_ne by (intros E; symmetry in E; now apply parent_neq in E).
      exact Hpar. }
    now rewrite E1, E2. }
  unfold make_zip. rewrite bind_run. unfold path_exists at 1. cbv beta iota.
  rewrite bind_run, Hdel, bind_run, Hcreate, bind_run. cbn [fs open_docs console w1].
  destruct (for_each _ _ _) as [[[]|e] w2]; reflexivity.
Qed.

(** X19: whatever its outcome, [make_zip] changes nothing but the entry at
    the archive path: every other file and directory is as it was, no
    document is opened or closed, nothing is printed. *)
Theorem make_zip_touches_only_archive
    (zip_path : path) (files : list path) (w : world) (q : path) :
  q <> zip_path ->
  let w' := snd (make_zip zip_path files w) in
  fs w' !! q = fs w !! q /\ open_docs w' = open_docs w /\ console w' = console w.
Proof.
  intros Hq w'. destruct (make_zip_same_but zip_path files w) as (Hfs & Ho & Hc).
  split; [now apply Hfs|]. split; [exact Ho|exact Hc].
Qed.

(** The theorem above at the archive of two files of [/out/a]: the text
    file next to it is as before. *)
Lemma make_zip_touches_only_archive_witness :
  fs (snd (make_zip [py "out"; py "a"; py "a_images.zip"]
             [[py "out"; py "a"; py "page_007.jpg"]; [py "out"; py "a"; py "notes.txt"]]
             rerun_world))
    !! [py "out"; py "a"; py "notes.txt"]
  = Some (File (Bytes [3%N])).
Proof.
  destruct (make_zip_touches_only_archive [py "out"; py "a"; py "a_images.zip"]
              [[py "out"; py "a"; py "page_007.jpg"]; [py "out"; py "a"; py "notes.txt"]]
              rerun_world [py "out"; py "a"; py "notes.txt"]) as (E & _).
  - discriminate.
  - etransitivity; [exact E|]. vm_compute. reflexivity.
Defined.

(** X20: a file of the list that does not exist stops the archive half
    way.  For an archive path that is not a directory and lies in a
    directory: when the files before the missing one are regular files,
    [make_zip] raises [FileNotFoundError] for the missing file and leaves at
    the archive path an archive of exactly the files before it, in order. *)
Theorem make_zip_missing_file
    (zip_path : path) (before : list path) (f : path) (after : list path) (w : world) :
  Fs.is_dir (fs w) zip_path = false ->
  Fs.is_dir (fs w) (Path.parent zip_path) = true ->
  (forall g, In g before -> Fs.is_file (fs w) g = true /\ g <> zip_path) ->
  fs w !! f = None ->
  f <> zip_path ->
  exists entries,
    make_zip zip_path (before ++ f :: after) w
    = (Raise (FileNotFoundError f),
       World (<[zip_path := File (Zip entries)]> (delete zip_path (fs w)))
             (open_docs w) (console w)) /\
    Forall2 (fun g e => e.1 = Path.name g /\ fs w !! g = Some (File e.2)) before entries.
Proof.
  intros Hnd Hpar Hfiles Hf Hne.
  rewrite (make_zip_run zip_path _ w Hnd Hpar), for_each_app_run.
  destruct (zip_loop_run zip_path before []
              (World (<[zip_path := File (Zip [])]> (delete zip_path (fs w)))
                     (open_docs w) (console w)))
    as (entries & Hloop & Hall).
  { cbn [fs]. apply lookup_insert_eq. }
  { intros g Hg. destruct (Hfiles g Hg) as [Hg1 Hg2]. split; [|assumption].
    cbn [fs]. unfold Fs.is_file in *.
    rewrite lookup_insert_ne, lookup_delete_ne by congruence. exact Hg1. }
  rewrite Hloop. cbn [fs open_docs console app for_each].
  rewrite insert_insert_eq, bind_run. unfold zf_write at 1. cbn [fs].
  rewrite lookup_insert_eq, lookup_insert_ne, lookup_delete_ne, Hf by congruence.
  exists entries. split; [reflexivity|].
  eapply Forall2_impl; [exact Hall|]. intros g e (Hn & He & Hl). split; [assumption|].
  cbn [fs] in Hl. rewrite lookup_insert_ne, lookup_delete_ne in Hl by congruence.
  exact Hl.
Qed.

(** The theorem above at an archive of an image, a file that is missing and
    a text file. *)
Lemma make_zip_missing_file_witness :
  exists entries,
    make_zip [py "out"; py "a"; py "a_images.zip"]
             [[py "out"; py "a"; py "page_007.jpg"]; [py "out"; py "a"; py "gone.jpg"];
              [py "out"; py "a"; py "notes.txt"]]
             rerun_world
    = (Raise (FileNotFoundError [py "out"; py "a"; py "gone.jpg"]),
       World (<[ [py "out"; py "a"; py "a_images.zip"] := File (Zip entries)]>
                (delete [py "out"; py "a"; py "a_images.zip"] rerun_fs)) [] []) /\
    length entries = 1%nat.
Proof.
  destruct (make_zip_missing_file [py "out"; py "a"; py "a_images.zip"]
              [[py "out"; py "a"; py "page_007.jpg"]] [py "out"; py "a"; py "gone.jpg"]
              [[py "out"; py "a"; py "notes.txt"]] rerun_world)
    as (entries & Hrun & Hall).
  - vm_compute. reflexivity.
  - vm_compute. reflexivity.
  - intros g [<-|[]]. split; [vm_compute; reflexivity|discriminate].
  - vm_compute. reflexivity.
  - discriminate.
  - exists entries. split; [exact Hrun|].
    apply Forall2_length in Hall. now rewrite <- Hall.
Defined.

(** X21: a directory at the archive path stops [make_zip] before it writes
    anything: it raises and the world is as it was. *)
Theorem make_zip_archive_path_is_directory
    (zip_path : path) (files : list path) (w : world) :
  zip_path <> [] ->
  Fs.is_dir (fs w) zip_path = true ->
  exists e, make_zip zip_path files w = (Raise e, w).
Proof.
  intros Hne Hd. exists (IsADirectoryError zip_path).
  unfold make_zip. rewrite bind_run. unfold path_exists at 1.
  rewrite (is_dir_exists _ _ Hd), bind_run. unfold unlink.
  apply is_dir_lookup in Hd; [|assumption]. now rewrite Hd.
Qed.

(** The theorem above at a folder that holds a sub-folder named like the
    archive. *)
Lemma make_zip_archive_path_is_directory_witness :
  exists e,
    make_zip [py "out"; py "a"; py "a_images.zip"]
             [[py "out"; py "a"; py "page_001.jpg"]; [py "out"; py "a"; py "page_002.jpg"]]
             zip_blocked_world
    = (Raise e, zip_blocked_world).
Proof.
  apply (make_zip_archive_path_is_directory [py "out"; py "a"; py "a_images.zip"]).
  - discriminate.
  - vm_compute. reflexivity.
Defined.
(** * More about [main] and its loop, lines 208-256 *)

Lemma convert_pdf_returns_folder (pdf out_root : path) opts w od paths w1 :
  convert_pdf pdf out_root opts w = (Ok (od, paths), w1) ->
  od = Path.joinpath out_root (sanitize_name (Path.stem pdf) (py "document")).
Proof.
  rewrite convert_pdf_run.
  destruct (prepare_out_dir _ _ w) as [[[]|e] w0]; [|discriminate].
  destruct (fs w0 !! pdf) as [[[data|pages|img q|entries]|]|]; try discriminate.
  destruct (length pages =? 0)%nat; [discriminate|].
  destruct (for_fold _ _ _ _) as [[ps|e] w2]; [|discriminate].
  intros H. now injection H as <- _ _.
Qed.

Lemma convert_pdf_keeps_dirs (pdf out_root : path) opts w (q : path) :
  fs w !! q = Some Dir -> fs (snd (convert_pdf pdf out_root opts w)) !! q = Some Dir.
Proof.
  intros Hq.
  set (d := Path.joinpath out_root (sanitize_name (Path.stem pdf) (py "document"))).
  destruct (prepare_out_dir d (ConvertOptions.overwrite opts) w) as [[[]|e] w1] eqn:Hprep.
  - pose proof (convert_pdf_after_prepare pdf out_root opts w w1 Hprep) as Hw.
    destruct (prepare_out_dir_ok _ _ _ _ Hprep) as (_ & _ & Hc).
    assert (H1 : fs w1 !! q = Some Dir).
    { destruct (Hc q) as [E|[(_ & Hf & _)|(E & _)]]; [congruence| |exact E].
      unfold Fs.is_file in Hf. rewrite Hq in Hf. discriminate. }
    destruct (Hw q) as [E|(i & img & _ & _ & Hn)]; [congruence|contradiction].
  - rewrite convert_pdf_run. fold d. rewrite Hprep. cbn [snd].
    apply prepare_out_dir_raises in Hprep as [-> _]. exact Hq.
Qed.

Lemma make_zip_keeps_dirs (zip_path : path) files w (q : path) :
  fs w !! q = Some Dir -> fs (snd (make_zip zip_path files w)) !! q = Some Dir.
Proof.
  intros Hq. destruct (decide (q = zip_path)) as [->|Hne].
  - unfold make_zip. rewrite bind_run. unfold path_exists at 1.
    assert (Hex : Fs.exists_ (fs w) zip_path = true).
    { unfold Fs.exists_. rewrite Hq, (bool_decide_eq_true_2 (is_Some (Some Dir))) by eauto.
      apply orb_true_r. }
    rewrite Hex, bind_run. unfold unlink. rewrite Hq. exact Hq.
  - destruct (make_zip_same_but zip_path files w) as (Hfs & _). now rewrite Hfs.
Qed.

Lemma joinpath_zip_name (d : path) (x : str) :
  Path.joinpath d (x ++ py "_images.zip") = d ++ [x ++ py "_images.zip"].
Proof.
  unfold Path.joinpath.
  assert (L : (11 <= length (x ++ py "_images.zip"))%nat)
    by (rewrite length_app; change (length (py "_images.zip")) with 11%nat; lia).
  rewrite !bool_decide_eq_false_2; [reflexivity| |];
    intros E; rewrite E in L; cbn in L; lia.
Qed.

(** The file system after one turn of the loop over the documents. *)
Lemma process_pdf_fs (pdf out_root : path) opts w :
  fs (snd (process_pdf pdf out_root opts w)) =
  let d := Path.joinpath out_root (sanitize_name (Path.stem pdf) (py "document")) in
  match convert_pdf pdf out_root opts w with
  | (Ok (_, image_paths), w1) =>
      if ConvertOptions.make_zip opts then
        fs (snd (make_zip
                   (d ++ [sanitize_name (Path.stem pdf) default_fallback ++ py "_images.zip"])
                   image_paths w1))
      else fs w1
  | (Raise e, w1) => fs w1
  end.
Proof.
  cbv zeta. unfold process_pdf, try_except. rewrite bind_run.
  destruct (convert_pdf pdf out_root opts w) as [[[od paths]|e] w1] eqn:Hconv;
    [|reflexivity].
  apply convert_pdf_returns_folder in Hconv as ->.
  destruct (ConvertOptions.make_zip opts); [|reflexivity].
  rewrite joinpath_zip_name, bind_run.
  destruct (make_zip _ _ _) as [[z|e] w2]; reflexivity.
Qed.

Lemma process_pdf_keeps_dirs (pdf out_root : path) opts w (q : path) :
  fs w !! q = Some Dir -> fs (snd (process_pdf pdf out_root opts w)) !! q = Some Dir.
Proof.
  intros Hq. rewrite process_pdf_fs. cbv zeta.
  pose proof (convert_pdf_keeps_dirs pdf out_root opts w q Hq) as H1.
  destruct (convert_pdf pdf out_root opts w) as [[[od paths]|e] w1]; cbn [snd] in H1;
    [|exact H1].
  destruct (ConvertOptions.make_zip opts); [|exact H1].
  now apply make_zip_keeps_dirs.
Qed.

Lemma folder_child_parents (out_root : path) (name : str) (q : path) :
  Fs.is_child (Path.joinpath out_root name) q = true ->
  Path.parent q = out_root \/ Path.parent (Path.parent q) = out_root.
Proof.
  intros Hc. apply is_child_parent in Hc as [_ Hp].
  destruct (joinpath_cases out_root name) as [E|E]; rewrite E in Hp.
  - now left.
  - right. rewrite Hp. apply parent_app.
Qed.

Lemma process_pdf_outside (pdf out_root : path) opts w (q : path) :
  Path.parent q <> out_root -> Path.parent (Path.parent q) <> out_root ->
  fs (snd (process_pdf pdf out_root opts w)) !! q = fs w !! q \/
  (fs w !! q = None /\ fs (snd (process_pdf pdf out_root opts w)) !! q = Some Dir).
Proof.
  intros H1 H2.
  set (d := Path.joinpath out_root (sanitize_name (Path.stem pdf) (py "document"))).
  assert (Hc : Fs.is_child d q = false).
  { destruct (Fs.is_child d q) eqn:Hc; [|reflexivity].
    apply folder_child_parents in Hc. tauto. }
  assert (Hconv : fs (snd (convert_pdf pdf out_root opts w)) !! q = fs w !! q \/
                  (fs w !! q = None /\
                   fs (snd (convert_pdf pdf out_root opts w)) !! q = Some Dir)).
  { pose proof (convert_pdf_outside pdf out_root opts w q Hc) as E. fold d in E.
    rewrite E.
    destruct (prepare_out_dir_outside d (ConvertOptions.overwrite opts) w q Hc)
      as [?|(? & ? & _)]; auto. }
  rewrite process_pdf_fs. cbv zeta. fold d.
  destruct (convert_pdf pdf out_root opts w) as [[[od paths]|e] w1]; cbn [snd] in Hconv;
    [|exact Hconv].
  destruct (ConvertOptions.make_zip opts); [|exact Hconv].
  destruct (make_zip_same_but
              (d ++ [sanitize_name (Path.stem pdf) default_fallback ++ py "_images.zip"])
              paths w1) as (Hfs & _).
  rewrite Hfs; [exact Hconv|].
  intros ->. rewrite is_child_app in Hc. discriminate.
Qed.

Lemma process_pdf_keeps_files (pdf out_root : path) opts w (q : path) c :
  ConvertOptions.overwrite opts = false ->
  fs w !! q = Some (File c) ->
  Fs.is_dir (fs w) (Path.parent q) = true ->
  fs (snd (process_pdf pdf out_root opts w)) !! q = Some (File c).
Proof.
  intros Hov Hq Hpar.
  set (d := Path.joinpath out_root (sanitize_name (Path.stem pdf) (py "document"))).
  rewrite process_pdf_fs. cbv zeta. fold d.
  destruct (Fs.exists_ (fs w) d) eqn:Hex.
  { rewrite convert_pdf_run. fold d. rewrite prepare_out_dir_run, Hex, Hov. exact Hq. }
  assert (Hc : Fs.is_child d q = false).
  { destruct (Fs.is_child d q) eqn:Hc; [|reflexivity].
    apply is_child_parent in Hc as [_ Hp]. rewrite Hp in Hpar.
    apply is_dir_exists in Hpar. congruence. }
  assert (Hconv : fs (snd (convert_pdf pdf out_root opts w)) !! q = Some (File c)).
  { pose proof (convert_pdf_outside pdf out_root opts w q Hc) as E. fold d in E.
    rewrite E.
    destruct (prepare_out_dir_outside d (ConvertOptions.overwrite opts) w q Hc)
      as [->|(? & _)]; congruence. }
  destruct (convert_pdf pdf out_root opts w) as [[[od paths]|e] w1]; cbn [snd] in Hconv;
    [|exact Hconv].
  destruct (ConvertOptions.make_zip opts); [|exact Hconv].
  destruct (make_zip_same_but
              (d ++ [sanitize_name (Path.stem pdf) default_fallback ++ py "_images.zip"])
              paths w1) as (Hfs & _).
  rewrite Hfs; [exact Hconv|].
  intros ->. rewrite is_child_app in Hc. discriminate.
Qed.

(** What holds from one file system to the next at every step of [main]
    holds from the start of [main] to its end. *)
Lemma main_preserves (R : gmap path node -> gmap path node -> Prop) args w :
  (forall m, R m m) ->
  (forall m1 m2 m3, R m1 m2 -> R m2 m3 -> R m1 m3) ->
  (List.find (Fs.is_file (fs w)) (Fs.prefixes (Args.out args)) = None ->
   R (fs w) (add_dirs (Fs.prefixes (Args.out args)) (fs w))) ->
  (forall pdf w0,
     R (fs w0) (fs (snd (process_pdf pdf (Args.out args) (main_opts args) w0)))) ->
  R (fs w) (fs (snd (main args w))).
Proof.
  intros Hrefl Htrans Hroot Hstep. rewrite main_run.
  destruct (List.find _ _); [apply Hrefl|]. specialize (Hroot eq_refl). cbv zeta.
  destruct (negb _); [exact Hroot|].
  destruct (fst (iter_pdfs _ _)) as [pdfs|e]; [|exact Hroot].
  destruct (is_empty pdfs); [exact Hroot|].
  cbn [snd print fs]. unfold batch_run.
  assert (Hloop : forall l w0,
            R (fs w0)
              (fs (fold_left (fun w' pdf =>
                     snd (process_pdf pdf (Args.out args) (main_opts args) w')) l w0))).
  { induction l as [|pdf l IH]; intros w0; [apply Hrefl|].
    cbn [fold_left]. eapply Htrans; [apply Hstep|apply IH]. }
  eapply Htrans; [exact Hroot|]. apply (Hloop pdfs (batch_start args w)).
Qed.

Lemma is_dir_kept (m m' : gmap path node) (p : path) :
  (forall q, m !! q = Some Dir -> m' !! q = Some Dir) ->
  Fs.is_dir m p = true -> Fs.is_dir m' p = true.
Proof.
  intros H. unfold Fs.is_dir. destruct (is_empty p); [reflexivity|]. cbn [orb].
  destruct (m !! p) as [[c|]|] eqn:E; try discriminate. now rewrite (H p E).
Qed.

Lemma add_dirs_keeps (dirs : list path) (m : gmap path node) (q : path) :
  List.find (Fs.is_file m) dirs = None ->
  add_dirs dirs m !! q = m !! q \/ (m !! q = None /\ add_dirs dirs m !! q = Some Dir).
Proof.
  intros Hfind. rewrite add_dirs_lookup.
  destruct (decide (q ∈ dirs)) as [Hin|Hin].
  - rewrite bool_decide_eq_true_2 by assumption. apply list_elem_of_In in Hin.
    pose proof (proj1 (find_none_iff _ _) Hfind q Hin) as Hf. unfold Fs.is_file in Hf.
    destruct (m !! q) as [[c|]|]; [discriminate|now left|now right].
  - rewrite bool_decide_eq_false_2 by assumption. now left.
Qed.

(** X22: whatever its arguments and its outcome, [main] removes no
    directory and puts nothing in the place of one: every directory that
    exists before the run is a directory after it. *)
Theorem main_keeps_directories (args : Args.t) (w : world) (q : path) :
  fs w !! q = Some Dir -> fs (snd (main args w)) !! q = Some Dir.
Proof.
  refine (main_preserves (fun m m' => m !! q = Some Dir -> m' !! q = Some Dir)
            args w _ _ _ _); auto.
  - intros Hfind H. destruct (add_dirs_keeps _ _ q Hfind) as [E|[E _]]; congruence.
  - intros pdf w0. apply process_pdf_keeps_dirs.
Qed.

(** The theorem above at a run with [--overwrite] and [--zip] over the
    folder [/out/a]: its sub-folder [keep] stays. *)
Lemma main_keeps_directories_witness :
  fs (snd (main (overwrite_args [py "in"]) rerun_world)) !! [py "out"; py "a"; py "keep"]
  = Some Dir.
Proof.
  apply (main_keeps_directories (overwrite_args [py "in"]) rerun_world).
  vm_compute. reflexivity.
Defined.

(** X23: whatever its arguments and its outcome, [main] leaves every entry
    that lies neither directly inside the output root nor directly inside a
    folder of the output root as it was, except that it may create a missing
    directory there (one on the way to the output root).  (For a file system
    without a name that gives the folder name "..": the paths of the model
    are lexical.) *)
Theorem main_touches_only_output_folders (args : Args.t) (w : world) (q : path) :
  plain_names (fs w) ->
  Path.parent q <> Args.out args ->
  Path.parent (Path.parent q) <> Args.out args ->
  let w' := snd (main args w) in
  fs w' !! q = fs w !! q \/ (fs w !! q = None /\ fs w' !! q = Some Dir).
Proof.
  intros _ H1 H2.
  refine (main_preserves
            (fun m m' => m' !! q = m !! q \/ (m !! q = None /\ m' !! q = Some Dir))
            args w _ _ _ _).
  - intros m. now left.
  - intros m1 m2 m3 [E1|[E1 D1]] [E2|[E2 D2]]; try congruence.
    + left. congruence.
    + right. split; congruence.
    + right. split; congruence.
  - intros Hfind. now apply add_dirs_keeps.
  - intros pdf w0. now apply process_pdf_outside.
Qed.

(** The theorem above at a run with [--overwrite] and [--zip]: the file
    [/out/a/keep/old.jpg] is as before. *)
Lemma main_touches_only_output_folders_witness :
  fs (snd (main (overwrite_args [py "in"]) rerun_world))
    !! [py "out"; py "a"; py "keep"; py "old.jpg"]
  = Some (File (Bytes [4%N])).
Proof.
  destruct (main_touches_only_output_folders (overwrite_args [py "in"]) rerun_world
              [py "out"; py "a"; py "keep"; py "old.jpg"]) as [E|[E _]].
  - apply (bool_decide_unpack (plain_names rerun_fs)). vm_compute. exact I.
  - vm_compute. discriminate.
  - vm_compute. discriminate.
  - etransitivity; [exact E|]. vm_compute. reflexivity.
  - vm_compute in E. discriminate.
Defined.

(** X24: without [--overwrite], a run in a tree never deletes or changes a
    regular file that exists when it starts, whatever the other arguments
    are and however the run ends. *)
Theorem main_without_overwrite_keeps_files
    (args : Args.t) (w : world) (q : path) (c : content) :
  Fs.wf (fs w) ->
  Args.overwrite args = false ->
  fs w !! q = Some (File c) ->
  fs (snd (main args w)) !! q = Some (File c).
Proof.
  intros Hwf Hov Hq.
  assert (Hpar : Fs.is_dir (fs w) (Path.parent q) = true) by (now destruct (Hwf _ _ Hq)).
  refine (proj1 (main_preserves
            (fun m m' => m !! q = Some (File c) /\ Fs.is_dir m (Path.parent q) = true ->
                         m' !! q = Some (File c) /\ Fs.is_dir m' (Path.parent q) = true)
            args w _ _ _ _ (conj Hq Hpar))); auto.
  - intros Hfind [E D]. split.
    + destruct (add_dirs_keeps _ _ q Hfind) as [E'|[E' _]]; congruence.
    + eapply is_dir_kept; [|exact D]. intros p Hp.
      destruct (add_dirs_keeps _ _ p Hfind) as [E'|[E' _]]; congruence.
  - intros pdf w0 [E D]. split.
    + now apply process_pdf_keeps_files.
    + eapply is_dir_kept; [|exact D]. intros p. apply process_pdf_keeps_dirs.
Qed.

(** The theorem above at a second run over [/out/a], without
    [--overwrite]: the old image in the folder is as before. *)
Lemma main_without_overwrite_keeps_files_witness :
  fs (snd (main (sample_args [py "in"] 65) rerun_world))
    !! [py "out"; py "a"; py "page_007.jpg"]
  = Some (File (Bytes [1%N; 2%N])).
Proof.
  apply (main_without_overwrite_keeps_files (sample_args [py "in"] 65) rerun_world).
  - apply (bool_decide_unpack (Fs.wf rerun_fs)). vm_compute. exact I.
  - reflexivity.
  - vm_compute. reflexivity.
Defined.

(** X25: when a regular file is in the way of the output root (at its
    path or at a directory above it), [main] ends with the exception of
    [mkdir], before it checks or prints anything: the world is as it was,
    and the process ends with status 1. *)
Theorem main_output_root_blocked (args : Args.t) (w : world) (q : path) :
  In q (Fs.prefixes (Args.out args)) ->
  Fs.is_file (fs w) q = true ->
  exists e,
    main args w = (Raise e, w) /\
    (e = FileExistsError (Args.out args) \/ e = NotADirectoryError (Args.out args)) /\
    exit_status (fst (main args w)) = 1.
Proof.
  intros Hin Hf. rewrite main_run.
  destruct (List.find _ _) as [p|] eqn:Hfind.
  - eexists. split; [reflexivity|]. split; [|reflexivity].
    destruct (bool_decide _); auto.
  - rewrite (proj1 (find_none_iff _ _) Hfind q Hin) in Hf. discriminate.
Qed.

(** The theorem above at an output root [/out] that is a regular file. *)
Lemma main_output_root_blocked_witness :
  exists e,
    main (sample_args [py "in"] 65) out_is_file_world = (Raise e, out_is_file_world) /\
    exit_status (fst (main (sample_args [py "in"] 65) out_is_file_world)) = 1.
Proof.
  destruct (main_output_root_blocked (sample_args [py "in"] 65) out_is_file_world
              [py "out"]) as (e & Hrun & _ & Hstatus).
  - now left.
  - vm_compute. reflexivity.
  - exists e. split; [exact Hrun|exact Hstatus].
Defined.

(** * The archive of a document, lines 246-250 *)

Lemma is_dir_of_none (m : gmap path node) (p : path) :
  m !! p = None -> p <> [] -> Fs.is_dir m p = false.
Proof. intros E Hp. unfold Fs.is_dir. now rewrite (is_empty_false p Hp), E. Qed.

Lemma zip_name_not_page_name prefix i (x : str) :
  page_file_name prefix i <> x ++ py "_images.zip".
Proof.
  intros E. apply (f_equal (fun s => List.last s 0%N)) in E.
  unfold page_file_name in E.
  change (py ".jpg") with ([46%N; 106%N; 112%N] ++ [103%N]) in E.
  change (py "_images.zip") with (py "_images.zi" ++ [112%N]) in E.
  rewrite !app_assoc, !last_last in E. discriminate.
Qed.

Lemma Forall2_map_In {A B C} (f : A -> B) (P : B -> C -> Prop) (Q : A -> C -> Prop) l k :
  Forall2 P (List.map f l) k ->
  (forall a c, In a l -> P (f a) c -> Q a c) ->
  Forall2 Q l k.
Proof.
  revert k. induction l as [|a l IH]; intros k H HPQ; inversion H; subst; constructor.
  - apply HPQ; [now left|assumption].
  - apply IH; [assumption|]. intros a' c Ha'. apply HPQ. now right.
Qed.

(** X26: the archive of a run with [--zip].  In a tree where the output
    root is a directory, for a document with at least one page whose pages
    all give an image of a size that a JPEG file can hold, and an output
    folder that does not exist yet: one turn of the loop of [main] with
    [make_zip] set converts the document and leaves, directly inside its
    folder, the archive "<name>_images.zip" (the name is the sanitised stem
    with the fallback "page"), whose entries are the page images in page
    order, each under its file name; it prints the header, the progress
    lines and then the line for the archive, and no failure.  (For a
    document whose folder name is not "..": the paths of the model are
    lexical.) *)
Theorem process_pdf_creates_archive
    (pdf out_root : path) (opts : ConvertOptions.t) (w : world) (pages : list page) :
  let d := Path.joinpath out_root (sanitize_name (Path.stem pdf) (py "document")) in
  let prefix := sanitize_name (ConvertOptions.prefix opts) (py "page") in
  let zip_name := sanitize_name (Path.stem pdf) default_fallback ++ py "_images.zip" in
  sanitize_name (Path.stem pdf) (py "document") <> py ".." ->
  Fs.wf (fs w) ->
  Fs.is_dir (fs w) out_root = true ->
  fs w !! pdf = Some (File (Pdf pages)) ->
  pages <> [] ->
  Forall (fun pg => exists img, page_image opts pg = Some img /\ jpeg_size img) pages ->
  Fs.exists_ (fs w) d = false ->
  ConvertOptions.make_zip opts = true ->
  exists entries w',
    process_pdf pdf out_root opts w = (Ok tt, w') /\
    fs w' !! (d ++ [zip_name]) = Some (File (Zip entries)) /\
    Forall2 (fun i e =>
               exists pg img,
                 pages !! i = Some pg /\ page_image opts pg = Some img /\
                 e = (page_file_name prefix (i + 1),
                      Jpeg img (ConvertOptions.quality opts)))
            (seq 0 (length pages)) entries /\
    console w' =
      console w ++
      MsgDocument (Path.name pdf) (length pages) ::
      List.map (progress_message prefix (length pages)) (seq 0 (length pages)) ++
      [MsgZipCreated zip_name] /\
    open_docs w' = open_docs w.
Proof.
  intros d prefix zip_name _ Hwf Hroot Hdoc Hne Himgs Hex Hzip.
  assert (Himgs' : Forall (fun pg => exists img, page_image opts pg = Some img) pages).
  { eapply List.Forall_impl; [|exact Himgs]. intros pg (img & Himg & _). eauto. }
  destruct (convert_pdf_succeeds_facts pdf out_root opts w pages
              Hwf Hroot Hdoc Hne Himgs' (or_introl Hex))
    as (w1 & Hrun & Ho & Hcon & Hfiles & Hd1 & Hdirs).
  fold d prefix in Hrun, Hcon, Hfiles, Hd1, Hdirs.
  set (paths := List.map (page_path d prefix) (seq 0 (length pages))) in *.
  set (zip_path := (d ++ [zip_name] : path)).
  assert (Hzc : Fs.is_child d zip_path = true) by apply is_child_app.
  assert (Hzp : ~ In zip_path paths).
  { subst paths. rewrite List.in_map_iff. intros [i [E _]].
    unfold page_path, zip_path in E. apply app_inv_head in E. injection E as E.
    now apply zip_name_not_page_name in E. }
  assert (Hznd : Fs.is_dir (fs w1) zip_path = false).
  { rewrite (Hdirs _ Hzc Hzp). apply is_dir_of_none; [|apply snoc_not_nil].
    destruct (fs w !! zip_path) as [n|] eqn:Eq; [|reflexivity]. exfalso.
    destruct (Hwf _ _ Eq) as [_ Hp]. unfold zip_path in Hp. rewrite parent_app in Hp.
    apply is_dir_exists in Hp. congruence. }
  assert (Hzpar : Fs.is_dir (fs w1) (Path.parent zip_path) = true)
    by (unfold zip_path; rewrite parent_app; exact Hd1).
  assert (Hpage : forall i, (i < length pages)%nat ->
            exists pg img, pages !! i = Some pg /\ page_image opts pg = Some img /\
              fs w1 !! page_path d prefix i
              = Some (File (Jpeg img (ConvertOptions.quality opts)))).
  { intros i Hi. destruct (lookup_lt_is_Some_2 pages i Hi) as [pg Hpg].
    rewrite List.Forall_forall in Himgs'.
    destruct (Himgs' pg) as (img & Himg).
    { apply list_elem_of_In. eapply list_elem_of_lookup_2. exact Hpg. }
    exists pg, img. split; [exact Hpg|]. split; [exact Himg|].
    exact (Hfiles i pg img Hpg Himg). }
  unfold process_pdf, try_except. rewrite bind_run, Hrun. cbv beta iota. rewrite Hzip.
  rewrite joinpath_zip_name. fold zip_name. fold zip_path.
  rewrite bind_run, (make_zip_run zip_path paths w1 Hznd Hzpar).
  destruct (zip_loop_run zip_path paths []
              (World (<[zip_path := File (Zip [])]> (delete zip_path (fs w1)))
                     (open_docs w1) (console w1)))
    as (entries & Hloop & Hall).
  { cbn [fs]. apply lookup_insert_eq. }
  { intros f Hf. assert (Hfz : f <> zip_path) by (intros ->; contradiction).
    split; [|exact Hfz]. cbn [fs]. unfold Fs.is_file.
    rewrite lookup_insert_ne, lookup_delete_ne by congruence.
    subst paths. apply List.in_map_iff in Hf as [i [<- Hi]]. apply in_seq in Hi.
    destruct (Hpage i ltac:(lia)) as (pg & img & _ & _ & ->). reflexivity. }
  rewrite Hloop. cbn [app]. unfold print. cbn [fs open_docs console].
  exists entries. eexists. split; [reflexivity|]. cbn [fs open_docs console].
  split; [apply lookup_insert_eq|]. split; [|split; [|exact Ho]].
  - subst paths. eapply Forall2_map_In; [exact Hall|].
    intros i [n c] Hi (_ & Hn & Hc). cbn [fst snd fs] in *. apply in_seq in Hi.
    destruct (Hpage i ltac:(lia)) as (pg & img & Hpg & Himg & Hq).
    exists pg, img. split; [exact Hpg|]. split; [exact Himg|].
    rewrite lookup_insert_ne, lookup_delete_ne in Hc
      by (intros E; apply Hzp; rewrite E; apply List.in_map, in_seq; lia).
    rewrite Hq in Hc. injection Hc as <-.
    unfold page_path in Hn. rewrite name_app in Hn. now rewrite Hn.
  - unfold zip_path. rewrite name_app, Hcon, <- app_assoc. reflexivity.
Qed.

(** The theorem above at the document of two pages. *)
Lemma process_pdf_creates_archive_witness :
  exists entries w',
    process_pdf [py "in"; py "a.pdf"] [py "out"] zip_opts two_page_world = (Ok tt, w') /\
    fs w' !! [py "out"; py "a"; py "a_images.zip"] = Some (File (Zip entries)) /\
    length entries = 2%nat.
Proof.
  destruct (process_pdf_creates_archive [py "in"; py "a.pdf"] [py "out"] zip_opts
              two_page_world [sample_page 2000 1000; sample_page 100 50])
    as (entries & w' & Hrun & Hzip & Hall & _).
  - vm_compute. discriminate.
  - apply (bool_decide_unpack (Fs.wf two_page_fs)). vm_compute. exact I.
  - vm_compute. reflexivity.
  - vm_compute. reflexivity.
  - discriminate.
  - repeat constructor; eexists; (split; [vm_compute; reflexivity|]);
      unfold jpeg_size; vm_compute; repeat split; discriminate.
  - vm_compute. reflexivity.
  - reflexivity.
  - exists entries, w'. split; [exact Hrun|]. split; [exact Hzip|].
    apply Forall2_length in Hall. now rewrite <- Hall.
Defined.

(** * A run over one document *)

Lemma find_prefixes_none (m : gmap path node) (p : path) :
  Fs.wf m -> Fs.is_dir m p = true ->
  List.find (Fs.is_file m) (Fs.prefixes p) = None.
Proof.
  intros Hwf Hd. apply find_none_iff. intros q Hq.
  apply is_dir_not_file.
  - apply prefixes_length in Hq. intros ->. cbn in Hq. lia.
  - now apply (wf_ancestors m p).
Qed.

Lemma add_dirs_id (m : gmap path node) (p : path) :
  Fs.wf m -> Fs.is_dir m p = true -> add_dirs (Fs.prefixes p) m = m.
Proof.
  intros Hwf Hd. apply map_eq. intros q. rewrite add_dirs_lookup.
  destruct (decide (q ∈ Fs.prefixes p)) as [Hin|Hin].
  - rewrite bool_decide_eq_true_2 by assumption. apply list_elem_of_In in Hin.
    symmetry. apply is_dir_lookup.
    + apply prefixes_length in Hin. intros ->. cbn in Hin. lia.
    + now apply (wf_ancestors m p).
  - now rewrite bool_decide_eq_false_2.
Qed.

(** X27: a whole run over one document.  In a tree, for arguments with a
    quality from 30 to 95 and without [--zip], an output root that is a
    directory, an input that is a regular file with the suffix ".pdf" in
    any case, holding a document with at least one page whose pages all give
    an image of a size that a JPEG file can hold, and an output folder that
    does not exist yet: [main] returns 0; the image of every page is in its
    file [out / stem / prefix_NNN.jpg]; what is printed is the output root,
    the settings, the header of the document, one progress line per page
    and the closing line; and no document handle is left open.  (For a
    document whose folder name is not "..": the paths of the model are
    lexical.) *)
Theorem main_converts_one_document (args : Args.t) (w : world) (pages : list page) :
  let pdf := Args.input args in
  let out_root := Args.out args in
  let opts := main_opts args in
  let d := Path.joinpath out_root (sanitize_name (Path.stem pdf) (py "document")) in
  let prefix := sanitize_name (Args.prefix args) (py "page") in
  sanitize_name (Path.stem pdf) (py "document") <> py ".." ->
  Fs.wf (fs w) ->
  Fs.is_dir (fs w) out_root = true ->
  30 <= Args.quality args <= 95 ->
  Args.zip args = false ->
  fs w !! pdf = Some (File (Pdf pages)) ->
  lower (Path.suffix pdf) = py ".pdf" ->
  pages <> [] ->
  Forall (fun pg => exists img, page_image opts pg = Some img /\ jpeg_size img) pages ->
  Fs.exists_ (fs w) d = false ->
  exists w',
    main args w = (Ok 0, w') /\
    (forall i pg img,
       pages !! i = Some pg -> page_image opts pg = Some img ->
       fs w' !! page_path d prefix i = Some (File (Jpeg img (Args.quality args)))) /\
    console w' =
      console w ++
      [MsgOutputRoot out_root;
       MsgSettings (Args.zoom args) (Args.quality args)
                   (main_max_width (Args.max_width args)) false;
       MsgDocument (Path.name pdf) (length pages)] ++
      List.map (progress_message prefix (length pages)) (seq 0 (length pages)) ++
      [MsgDone] /\
    open_docs w' = open_docs w.
Proof.
  intros pdf out_root opts d prefix _ Hwf Hroot Hq Hzip Hdoc Hsuffix Hne Himgs Hex.
  subst pdf out_root.
  assert (Himgs' : Forall (fun pg => exists img, page_image opts pg = Some img) pages).
  { eapply List.Forall_impl; [|exact Himgs]. intros pg (img & Himg & _). eauto. }
  assert (Hfs : add_dirs (Fs.prefixes (Args.out args)) (fs w) = fs w)
    by now apply add_dirs_id.
  set (ws := batch_start args w).
  assert (Hws : fs ws = fs w) by exact Hfs.
  destruct (convert_pdf_succeeds_facts (Args.input args) (Args.out args) opts ws pages) as
    (w1 & Hrun & Ho & Hcon & Hfiles & _); try (rewrite Hws; assumption); try assumption.
  { left. rewrite Hws. exact Hex. }
  assert (Hstep : process_pdf (Args.input args) (Args.out args) opts ws = (Ok tt, w1)).
  { unfold process_pdf, try_except. rewrite bind_run, Hrun. cbv beta iota.
    unfold opts at 1, main_opts. cbn [ConvertOptions.make_zip]. now rewrite Hzip. }
  rewrite main_run.
  rewrite (find_prefixes_none (fs w) (Args.out args) Hwf Hroot). cbv zeta.
  rewrite (proj2 (quality_check _) Hq).
  rewrite iter_pdfs_run. unfold with_output_root at 1 2. cbn [fs fst].
  rewrite Hfs.
  assert (Hfile : Fs.is_file (fs w) (Args.input args) = true)
    by (unfold Fs.is_file; now rewrite Hdoc).
  rewrite Hfile, bool_decide_eq_true_2 by exact Hsuffix. cbn [is_empty].
  unfold batch_run. cbn [fold_left]. fold ws. fold opts. rewrite Hstep.
  cbn [snd print].
  eexists. split; [reflexivity|]. cbn [fs open_docs console].
  split; [exact Hfiles|]. split; [|exact Ho].
  rewrite Hcon. unfold ws, batch_start. cbn [console].
  rewrite Hzip, <- !app_assoc. reflexivity.
Qed.

(** The theorem above at the document of two pages. *)
Lemma main_converts_one_document_witness :
  exists w',
    main (sample_args [py "in"; py "a.pdf"] 65) two_page_world = (Ok 0, w') /\
    Fs.is_file (fs w') [py "out"; py "a"; py "page_002.jpg"] = true /\
    open_docs w' = [].
Proof.
  destruct (main_converts_one_document (sample_args [py "in"; py "a.pdf"] 65)
              two_page_world [sample_page 2000 1000; sample_page 100 50])
    as (w' & Hrun & Hfiles & _ & Ho).
  - vm_compute. discriminate.
  - apply (bool_decide_unpack (Fs.wf two_page_fs)). vm_compute. exact I.
  - vm_compute. reflexivity.
  - cbn. lia.
  - reflexivity.
  - vm_compute. reflexivity.
  - vm_compute. reflexivity.
  - discriminate.
  - repeat constructor; eexists; (split; [vm_compute; reflexivity|]);
      unfold jpeg_size; vm_compute; repeat split; discriminate.
  - vm_compute. reflexivity.
  - exists w'. split; [exact Hrun|]. split; [|exact Ho].
    assert (Himg : exists img,
              page_image (main_opts (sample_args [py "in"; py "a.pdf"] 65))
                         (sample_page 100 50) = Some img)
      by (eexists; vm_compute; reflexivity).
    destruct Himg as (img & Himg).
    pose proof (Hfiles 1%nat (sample_page 100 50) img eq_refl Himg) as E.
    unfold Fs.is_file.
    change [py "out"; py "a"; py "page_002.jpg"]
      with (page_path (Path.joinpath (Args.out (sample_args [py "in"; py "a.pdf"] 65))
                         (sanitize_name
                            (Path.stem (Args.input (sample_args [py "in"; py "a.pdf"] 65)))
                            (py "document")))
                      (sanitize_name (Args.prefix (sample_args [py "in"; py "a.pdf"] 65))
                                     (py "page")) 1).
    now rewrite E.
Defined.
